(** * Dashboard data generators: a shallow embedding

    The repository holds two scripts, [scripts/generate_dashboard_data.py]
    and [scripts/generate_data.py].  Each one runs a fixed dictionary of
    named SQL queries against Athena, turns the answers into lists of row
    dictionaries, collects them in one dictionary keyed by query name and
    dumps that dictionary as JSON.

    Conventions of the embedding:
    - a Python [str] is a [string]; its characters are read as the code
      points 0..255;
    - a Python [dict] is an insertion-ordered association list with unique
      keys ([dict_set] is [d[k] = v]);
    - code that can raise returns a [res]; code that talks to Athena runs in
      the monad [M], which threads the trace of calls and sleeps;
    - the builtins [int], [float] and the float [repr] are parameters of the
      development: they are CPython's, not this repository's;
    - the polling loop may never end: it runs on fuel, and [Diverge] is a
      loop that is still going round when the fuel is used up;
    - [json.dump] is modelled down to the text it writes, and [json.load],
      which no script calls, by a reader for such texts;
    - [print] calls are left out: no statement below is about the console.

    The file has the model first, then the vocabulary of the statements,
    then the lemmas and the claims. *)

From Stdlib Require Import ZArith Ascii String List Lia.
From Stdlib Require Import DecimalString DecimalFacts DecimalPos.
From stdpp Require Import base tactics option list strings gmap.

Set Warnings "-clear-no-such-hyp".

Local Open Scope Z_scope.
Local Open Scope string_scope.
Local Open Scope list_scope.

(** ** Characters and strings *)

Definition code (c : ascii) : N := N_of_ascii c.

(** [c in s] for a one-character [c]. *)
Fixpoint str_contains (c : ascii) (s : string) : bool :=
  match s with
  | EmptyString => false
  | String a s' => if Ascii.eqb a c then true else str_contains c s'
  end.

(** The upper-case letters among the code points below 256: A..Z and the
    Latin-1 capitals (all of U+00C0..U+00DE but the multiplication sign). *)
Definition is_upper (c : ascii) : bool :=
  let n := code c in
  ((65 <=? n) && (n <=? 90) || (192 <=? n) && (n <=? 222) && negb (n =? 215))%N%bool.

Definition char_lower (c : ascii) : ascii :=
  if is_upper c then ascii_of_N (code c + 32) else c.

(** [s.lower()] *)
Fixpoint lower (s : string) : string :=
  match s with
  | EmptyString => EmptyString
  | String c s' => String (char_lower c) (lower s')
  end.

(** Two characters that are the same letter, in whatever case. *)
Definition same_letter (a b : ascii) : Prop :=
  a = b
  \/ (is_upper a = true /\ code b = (code a + 32)%N)
  \/ (is_upper b = true /\ code a = (code b + 32)%N).

(** Two labels that differ at most in the case of their letters. *)
Inductive same_up_to_case : string -> string -> Prop :=
  | sutc_nil : same_up_to_case EmptyString EmptyString
  | sutc_cons a b s t :
      same_letter a b -> same_up_to_case s t ->
      same_up_to_case (String a s) (String b t).

(** ** Exceptions and results *)

Inductive exn : Type :=
  | IndexError                     (* list index out of range *)
  | ServiceError (msg : string)    (* anything boto3 or awswrangler raises *)
  | OSError (msg : string).        (* [open] or a write on the file fails *)

(** What running a piece of code gives: a value, an exception, or no answer
    yet because the polling loop is still going round when the fuel of the
    model is used up. *)
Inductive res (A : Type) : Type :=
  | Ok (a : A)
  | Raise (e : exn)
  | Diverge.
Arguments Ok {A} a.
Arguments Raise {A} e.
Arguments Diverge {A}.

Definition res_bind {A B} (r : res A) (k : A -> res B) : res B :=
  match r with
  | Ok a => k a
  | Raise e => Raise e
  | Diverge => Diverge
  end.

(** A [for] loop that builds a list with [append], each round of which can
    raise. *)
Fixpoint res_map {A B} (f : A -> res B) (l : list A) : res (list B) :=
  match l with
  | [] => Ok []
  | x :: l' =>
      res_bind (f x) (fun y => res_bind (res_map f l') (fun ys => Ok (y :: ys)))
  end.

(** ** Python dictionaries *)

Definition dict (V : Type) : Type := list (string * V).

Section Dict.
Context {V : Type}.

(** [d.get(k)] *)
Fixpoint dict_get (d : dict V) (k : string) : option V :=
  match d with
  | [] => None
  | (k', v) :: d' => if String.eqb k' k then Some v else dict_get d' k
  end.

(** [d[k] = v]: an existing key keeps its place and takes the new value, a
    new key goes to the end. *)
Fixpoint dict_set (d : dict V) (k : string) (v : V) : dict V :=
  match d with
  | [] => [(k, v)]
  | (k', v') :: d' =>
      if String.eqb k' k then (k', v) :: d' else (k', v') :: dict_set d' k v
  end.

(** [list(d.keys())] *)
Definition dict_keys (d : dict V) : list string := fst <$> d.

(** [set(d.keys())] *)
Definition keyset (d : dict V) : gset string := list_to_set (dict_keys d).

(** [dict(pairs)] *)
Definition dict_of (pairs : list (string * V)) : dict V :=
  fold_left (fun d kv => dict_set d (fst kv) (snd kv)) pairs [].
End Dict.

(** ** Python values that end up in a row *)

Inductive pyval (F : Type) : Type :=
  | PyNone
  | PyBool (b : bool)
  | PyInt (z : Z)
  | PyFloat (f : F)
  | PyStr (s : string)
  | PyObj (str : string).   (* any other object [o], with [str(o)] *)
Arguments PyNone {F}.
Arguments PyBool {F} b.
Arguments PyInt {F} z.
Arguments PyFloat {F} f.
Arguments PyStr {F} s.
Arguments PyObj {F} str.

(** ** The query dictionaries

    The SQL texts are the string literals of the two scripts, character for
    character. *)
(** [QUERIES] of [generate_dashboard_data.py], in the order of the literal. *)
Definition QUERIES : dict string :=
  [("kpis",
"
        SELECT
            COUNT(DISTINCT invoiceno) AS total_orders,
            COUNT(DISTINCT customerid) AS unique_customers,
            SUM(total_price) AS total_revenue,
            AVG(total_price) AS avg_order_value
        FROM online_retail_cleaned
    ");
   ("monthly_sales",
"
        SELECT
            date_trunc('month', invoicedate) AS sales_month,
            SUM(total_price) AS monthly_revenue,
            COUNT(DISTINCT invoiceno) AS monthly_orders
        FROM online_retail_cleaned
        GROUP BY 1
        ORDER BY 1
    ");
   ("monthly_revenue",
"
        SELECT 
            DATE_FORMAT(invoicedate, '%Y-%m') as month,
            SUM(total_price) as revenue
        FROM online_retail_cleaned
        GROUP BY DATE_FORMAT(invoicedate, '%Y-%m')
        ORDER BY month
    ");
   ("monthly_revenue_by_country",
"
        SELECT 
            country,
            DATE_FORMAT(invoicedate, '%Y-%m') as month,
            SUM(total_price) as revenue
        FROM online_retail_cleaned
        GROUP BY country, DATE_FORMAT(invoicedate, '%Y-%m')
        ORDER BY country, month
    ");
   ("country_revenue",
"
        SELECT 
            country,
            SUM(total_price) as revenue,
            COUNT(DISTINCT invoiceno) as orders,
            COUNT(DISTINCT customerid) as customers,
            CASE
                WHEN COUNT(DISTINCT invoiceno) = 0 THEN 0
                ELSE SUM(total_price) / COUNT(DISTINCT invoiceno)
            END as avg_order_value
        FROM online_retail_cleaned
        GROUP BY country
        HAVING SUM(total_price) > 0
        ORDER BY revenue DESC
    ");
   ("top_products",
"
        SELECT 
            country,
            description,
            SUM(quantity) AS total_quantity_sold,
            SUM(total_price) as revenue
        FROM online_retail_cleaned
        GROUP BY country, description
        ORDER BY revenue DESC
    ");
   ("rfm_analysis",
"
        SELECT 
            country,
            customerid,
            CAST(date_diff('day', MAX(invoicedate), current_date) AS INTEGER) as recency,
            COUNT(DISTINCT invoiceno) as frequency,
            SUM(total_price) as monetary
        FROM online_retail_cleaned
        GROUP BY country, customerid
        HAVING COUNT(DISTINCT invoiceno) > 1
    ");
   ("cohort_analysis",
"
        WITH first_order AS (
            SELECT 
                customerid,
                country,
                date_trunc('month', MIN(invoicedate)) AS cohort_month
            FROM online_retail_cleaned
            GROUP BY customerid, country
        ),
        orders AS (
            SELECT 
                customerid,
                country,
                date_trunc('month', invoicedate) AS order_month
            FROM online_retail_cleaned
            GROUP BY customerid, country, date_trunc('month', invoicedate)
        ),
        joined AS (
            SELECT
                o.customerid,
                o.country,
                f.cohort_month,
                o.order_month,
                date_diff('month', f.cohort_month, o.order_month) AS month_offset
            FROM orders o
            JOIN first_order f 
                ON o.customerid = f.customerid
               AND o.country = f.country
        )
        SELECT
            country,
            cohort_month,
            CAST(month_offset AS INTEGER) AS month_index,
            COUNT(DISTINCT customerid) AS active_customers
        FROM joined
        GROUP BY country, cohort_month, month_index
        ORDER BY country, cohort_month, month_index
    ");
   ("market_basket",
"
        SELECT
            t1.description AS product_a,
            t2.description AS product_b,
            COUNT(*) AS times_purchased_together
        FROM online_retail_cleaned t1
        JOIN online_retail_cleaned t2
            ON t1.invoiceno = t2.invoiceno
        WHERE t1.stockcode < t2.stockcode
          AND t1.description NOT LIKE '%POSTAGE%'
          AND t2.description NOT LIKE '%POSTAGE%'
        GROUP BY 1, 2
        ORDER BY 3 DESC
        LIMIT 15
    ")].

(** [queries] of [generate_data.py], in the order of the literal. *)
Definition queries : dict string :=
  [("kpis",
"
        SELECT
            COUNT(DISTINCT invoiceno) AS total_orders,
            COUNT(DISTINCT customerid) AS unique_customers,
            SUM(total_price)          AS total_revenue,
            AVG(total_price)          AS avg_order_value
        FROM online_retail_cleaned
    ");
   ("monthly_sales",
"
        SELECT
            date_trunc('month', invoicedate) AS sales_month,
            SUM(total_price)                 AS monthly_revenue,
            COUNT(DISTINCT invoiceno)        AS monthly_orders
        FROM online_retail_cleaned
        GROUP BY 1
        ORDER BY 1
    ");
   ("monthly_revenue_by_country",
"
        SELECT
            country,
            date_trunc('month', invoicedate) AS month,
            SUM(total_price)                 AS revenue
        FROM online_retail_cleaned
        GROUP BY 1, 2
        ORDER BY 1, 2
    ");
   ("top_products",
"
        SELECT
            country,
            description,
            SUM(quantity)     AS total_quantity_sold,
            SUM(total_price)  AS revenue
        FROM online_retail_cleaned
        GROUP BY country, description
        ORDER BY revenue DESC
    ");
   ("rfm_analysis",
"
        SELECT 
            country,
            customerid,
            CAST(date_diff('day', MAX(invoicedate), current_date) AS INTEGER) AS recency,
            COUNT(DISTINCT invoiceno) AS frequency,
            SUM(total_price)          AS monetary
        FROM online_retail_cleaned
        GROUP BY country, customerid
        HAVING COUNT(DISTINCT invoiceno) > 1
    ");
   ("market_basket",
"
        SELECT
            t1.description AS product_a,
            t2.description AS product_b,
            COUNT(*)       AS times_purchased_together
        FROM online_retail_cleaned t1
        JOIN online_retail_cleaned t2
            ON t1.invoiceno = t2.invoiceno
        WHERE t1.stockcode < t2.stockcode
          AND t1.description NOT LIKE '%POSTAGE%'
          AND t2.description NOT LIKE '%POSTAGE%'
        GROUP BY 1, 2
        ORDER BY 3 DESC
        LIMIT 15
    ");
   ("cohort_analysis",
"
        WITH first_order AS (
            SELECT 
                customerid,
                country,
                date_trunc('month', MIN(invoicedate)) AS cohort_month
            FROM online_retail_cleaned
            GROUP BY customerid, country
        ),

        orders AS (
            SELECT 
                customerid,
                country,
                date_trunc('month', invoicedate) AS order_month
            FROM online_retail_cleaned
            GROUP BY customerid, country, date_trunc('month', invoicedate)
        ),

        joined AS (
            SELECT
                o.customerid,
                o.country,
                f.cohort_month,
                o.order_month,
                date_diff('month', f.cohort_month, o.order_month) AS month_offset
            FROM orders o
            JOIN first_order f 
                ON o.customerid = f.customerid
               AND o.country = f.country
        )

        SELECT
            country,
            cohort_month,
            CAST(month_offset AS INTEGER) AS month_index,
            COUNT(DISTINCT customerid)    AS active_customers
        FROM joined
        GROUP BY country, cohort_month, month_index
        ORDER BY country, cohort_month, month_index
    ");
   ("country_revenue",
"
        SELECT
            country,
            SUM(total_price)                       AS revenue,
            COUNT(DISTINCT invoiceno)              AS orders,
            COUNT(DISTINCT customerid)             AS customers,
            CASE
                WHEN COUNT(DISTINCT invoiceno) = 0 THEN 0
                ELSE SUM(total_price) / COUNT(DISTINCT invoiceno)
            END                                    AS avg_order_value
        FROM online_retail_cleaned
        GROUP BY country
        HAVING SUM(total_price) > 0
        ORDER BY revenue DESC
    ")].

(** ** The Athena API as the scripts see it *)

(** An answer of the service: the call returns, or it raises. *)
Inductive answer (A : Type) : Type :=
  | Returns (a : A)
  | Raises (e : exn).
Arguments Returns {A} a.
Arguments Raises {A} e.

(** [response['QueryExecution']['Status']] *)
Record query_status : Type := {
  State : string;
  StateChangeReason : option string
}.

(** One cell of a row: [{'VarCharValue': v}], or [{}] for a SQL null. *)
Record datum : Type := { VarCharValue : option string }.

(** One entry of [results['ResultSet']['Rows']]. *)
Record result_row : Type := { Data : list datum }.

(** One entry of [...['ResultSetMetadata']['ColumnInfo']]. *)
Record column_info : Type := { Label : string }.

(** [results['ResultSet']] *)
Record result_set : Type := {
  Rows : list result_row;
  ColumnInfo : list column_info
}.

(** The boto3 client.  [get_query_execution id n] is the answer to the
    [n]-th poll (from 0) of execution [id]. *)
Record athena_client : Type := {
  start_query_execution :
    string (* QueryString *) -> string (* Database *) ->
    string (* OutputLocation *) -> answer string (* QueryExecutionId *);
  get_query_execution : string -> nat -> answer query_status;
  get_query_results : string -> answer result_set
}.

(** A pandas data frame: column labels and the rows of cells under them. *)
Record dataframe (F : Type) : Type := {
  df_columns : list string;
  df_rows : list (list (pyval F))
}.
Arguments df_columns {F} d.
Arguments df_rows {F} d.

(** What a run does to the outside, in order. *)
Inductive event : Type :=
  | EvStart (sql : string)                  (* athena.start_query_execution *)
  | EvPoll (id : string)                    (* athena.get_query_execution *)
  | EvSleep (seconds : Z)                   (* time.sleep *)
  | EvFetch (id : string)                   (* athena.get_query_results *)
  | EvReadSql (sql : string)                (* wr.athena.read_sql_query *)
  | EvDump (path : string) (text : string). (* the file, opened and written *)

(** ** The monad of the scripts: results, with the trace threaded through *)

Definition M (A : Type) : Type := list event -> res A * list event.

Definition ret {A} (a : A) : M A := fun t => (Ok a, t).

Definition bind {A B} (m : M A) (k : A -> M B) : M B :=
  fun t =>
    match m t with
    | (Ok a, t') => k a t'
    | (Raise e, t') => (Raise e, t')
    | (Diverge, t') => (Diverge, t')
    end.

Notation "x <- m ;; k" := (bind m (fun x => k))
  (at level 100, m at next level, right associativity).
Notation "m ;;; k" := (bind m (fun _ => k))
  (at level 100, right associativity).

(** A service call: log it, then return or raise as the service answers. *)
Definition call {A} (ev : event) (a : answer A) : M A :=
  fun t =>
    match a with
    | Returns x => (Ok x, t ++ [ev])
    | Raises e => (Raise e, t ++ [ev])
    end.

Definition lift {A} (r : res A) : M A := fun t => (r, t).

(** [time.sleep(seconds)] *)
Definition sleep (seconds : Z) : M unit := fun t => (Ok tt, t ++ [EvSleep seconds]).

(** [try: body  except Exception as e: handler e].  A loop that has not
    ended has raised nothing: [Diverge] goes through. *)
Definition try_except {A} (body : M A) (handler : exn -> M A) : M A :=
  fun t =>
    match body t with
    | (Raise e, t') => handler e t'
    | r => r
    end.

(** ** The JSON writer: [json.dump(obj, f, indent=2, default=str)]

    Only the part of the encoder that the documents of the two scripts
    reach: dictionaries with [str] keys, lists, and the scalars of [pyval].
    The text is what CPython's [json.encoder] produces with [indent=2] (and
    so with the separators [','] and [': ']), [ensure_ascii=True] and
    [allow_nan=True]. *)

Definition hex_digit (n : N) : ascii :=
  ascii_of_N (if (n <? 10)%N then 48 + n else 87 + n)%N.

(** [ESCAPE_DCT] and the [\uXXXX] fall-back of [py_encode_basestring_ascii],
    which escapes the backslash, the double quote and whatever is outside
    [' '..'~']. *)
Definition escape_char (c : ascii) : string :=
  let n := code c in
  if (n =? 92)%N then "\\"
  else if (n =? 34)%N then String "\" (String (ascii_of_N 34) "")
  else if (n =? 8)%N then "\b"
  else if (n =? 12)%N then "\f"
  else if (n =? 10)%N then "\n"
  else if (n =? 13)%N then "\r"
  else if (n =? 9)%N then "\t"
  else if ((32 <=? n) && (n <=? 126))%N then String c ""
  else "\u00" +:+ String (hex_digit (n / 16)) (String (hex_digit (n mod 16)) "").

Fixpoint escape_body (s : string) : string :=
  match s with
  | EmptyString => ""
  | String c s' => escape_char c +:+ escape_body s'
  end.

Definition dquote : string := String (ascii_of_N 34) "".

(** [py_encode_basestring_ascii(s)] *)
Definition encode_str (s : string) : string := dquote +:+ escape_body s +:+ dquote.

(** [int.__repr__(z)] *)
Definition int_repr (z : Z) : string := NilZero.string_of_int (Z.to_int z).

(** ['\n' + '  ' * level] *)
Fixpoint newline_indent (level : nat) : string :=
  match level with
  | O => String (ascii_of_N 10) ""
  | S l => newline_indent l +:+ "  "
  end.

Section Encoder.
Context {F : Type} (float_repr : F -> string).

(** A scalar; an object json cannot encode goes through [default=str]. *)
Definition encode_scalar (v : pyval F) : string :=
  match v with
  | PyNone => "null"
  | PyBool true => "true"
  | PyBool false => "false"
  | PyInt z => int_repr z
  | PyFloat f => float_repr f
  | PyStr s => encode_str s
  | PyObj s => encode_str s
  end.

(** The items of a container, each on its line, [','] between them. *)
Fixpoint encode_items {A} (item : A -> string) (level : nat) (l : list A) : string :=
  match l with
  | [] => ""
  | [x] => item x
  | x :: l' => item x +:+ "," +:+ newline_indent level +:+ encode_items item level l'
  end.

(** [_iterencode_list] at nesting depth [level] *)
Definition encode_list {A} (enc : nat -> A -> string) (level : nat) (l : list A) : string :=
  match l with
  | [] => "[]"
  | _ => "[" +:+ newline_indent (S level) +:+ encode_items (enc (S level)) (S level) l
         +:+ newline_indent level +:+ "]"
  end.

(** [_iterencode_dict] at nesting depth [level] *)
Definition encode_dict {A} (enc : nat -> A -> string) (level : nat) (d : dict A) : string :=
  match d with
  | [] => "{}"
  | _ => "{" +:+ newline_indent (S level)
         +:+ encode_items (fun kv => encode_str (fst kv) +:+ ": " +:+ enc (S level) (snd kv))
                          (S level) d
         +:+ newline_indent level +:+ "}"
  end.

(** [json.dumps(dashboard_data, indent=2, default=str)] *)
Definition json_dumps (doc : dict (list (dict (pyval F)))) : string :=
  encode_dict (encode_list (encode_dict (fun _ => encode_scalar))) 0 doc.
End Encoder.

(** A text with every double quote shown as a single one, to write the
    examples with. *)
Fixpoint single_quoted (s : string) : string :=
  match s with
  | EmptyString => EmptyString
  | String c s' =>
      String (if (code c =? 34)%N then ascii_of_N 39 else c) (single_quoted s')
  end.

(** ** The two scripts *)

Section Scripts.
(** CPython's [float] values, [int(s)] and [float(s)] ([None] when they
    raise [ValueError]) and the text json writes for a float. *)
Context {F : Type}.
Context (py_int : string -> option Z).
Context (py_float : string -> option F).
Context (float_repr : F -> string).

(** The outside: Athena through boto3, Athena through awswrangler, and
    whether a path can be opened for writing and written. *)
Context (athena : athena_client).
Context (read_sql_query :
           string (* sql *) -> string (* database *) -> string (* s3_output *) ->
           bool (* ctas_approach *) -> answer (dataframe F)).
Context (open_w : string -> answer unit).

Definition row_dict : Type := dict (pyval F).
Definition dataset : Type := list row_dict.
Definition document : Type := dict dataset.

(** [with open(path, 'w') as f: json.dump(doc, f, indent=2, default=str)] *)
Definition dump_json (path : string) (doc : document) : M unit :=
  fun t =>
    match open_w path with
    | Returns _ => (Ok tt, t ++ [EvDump path (json_dumps float_repr doc)])
    | Raises e => (Raise e, t)
    end.

(** *** scripts/generate_dashboard_data.py *)

Definition DATABASE : string := "ecommerce_db".
Definition OUTPUT_LOCATION : string := "s3://ogs-ecommerce-analytics-2025/athena-results/".

(** [status in ['SUCCEEDED', 'FAILED', 'CANCELLED']] *)
Definition is_terminal (status : string) : bool :=
  bool_decide (status ∈ ["SUCCEEDED"; "FAILED"; "CANCELLED"]).

(** Lines 168-176: [while True], from the [n]-th poll on.  The value is the
    last [query_status]. *)
Fixpoint wait_for_query (fuel : nat) (query_execution_id : string) (n : nat)
  : M query_status :=
  match fuel with
  | O => lift Diverge
  | S fuel' =>
      query_status <- call (EvPoll query_execution_id)
                        (get_query_execution athena query_execution_id n) ;;
      if is_terminal (State query_status) then ret query_status
      else sleep 2 ;;; wait_for_query fuel' query_execution_id (S n)
  end.

(** Lines 195-206: the value stored for one cell. *)
Definition cell_value (value : option string) : pyval F :=
  match value with
  | Some value =>
      if str_contains "." value then
        match py_float value with
        | Some f => PyFloat f
        | None => PyStr value
        end
      else
        match py_int value with
        | Some z => PyInt z
        | None => PyStr value
        end
  | None => PyNone
  end.

(** [enumerate(columns)] *)
Definition enumerate {A} (l : list A) : list (nat * A) := imap pair l.

(** Lines 194-206: one round of the inner loop. [row['Data'][i]] raises
    IndexError when the row has no cell [i]. *)
Definition store_cell (row : result_row) (row_data : row_dict) (ic : nat * string)
  : res row_dict :=
  match Data row !! fst ic with
  | Some d => Ok (dict_set row_data (lower (snd ic)) (cell_value (VarCharValue d)))
  | None => Raise IndexError
  end.

(** Lines 193-207: the row dictionary of one row. *)
Definition parse_row (columns : list string) (row : result_row) : res row_dict :=
  fold_left (fun acc ic => res_bind acc (fun row_data => store_cell row row_data ic))
            (enumerate columns) (Ok []).

(** Lines 189-207 *)
Definition parse_results (results : result_set) : res dataset :=
  let columns := Label <$> ColumnInfo results in
  res_map (parse_row columns) (drop 1 (Rows results)).

(** [execute_athena_query(query, query_name)]; [None] is Python's. *)
Definition execute_athena_query (fuel : nat) (query query_name : string)
  : M (option dataset) :=
  try_except
    (query_execution_id <-
       call (EvStart query) (start_query_execution athena query DATABASE OUTPUT_LOCATION) ;;
     query_status <- wait_for_query fuel query_execution_id 0 ;;
     if negb (String.eqb (State query_status) "SUCCEEDED") then ret None
     else
       results <- call (EvFetch query_execution_id)
                    (get_query_results athena query_execution_id) ;;
       rows <- lift (parse_results results) ;;
       ret (Some rows))
    (fun e => ret None).

(** Lines 223-229: the loop over [QUERIES.items()], from the dictionary
    built so far. *)
Fixpoint run_queries (fuel : nat) (items : list (string * string))
    (dashboard_data : document) : M document :=
  match items with
  | [] => ret dashboard_data
  | (query_name, query) :: items' =>
      results <- execute_athena_query fuel query query_name ;;
      run_queries fuel items'
        (match results with
         | Some rows => dict_set dashboard_data query_name rows
         | None => dashboard_data
         end)
  end.

(** Lines 223-229: [dashboard_data] when the loop is over. *)
Definition dashboard_data (fuel : nat) : M document := run_queries fuel QUERIES [].

(** [generate_dashboard_data()] *)
Definition generate_dashboard_data (fuel : nat) : M unit :=
  doc <- dashboard_data fuel ;;
  dump_json "dashboard-data.json" doc.

(** *** scripts/generate_data.py *)

Definition DB_NAME : string := "ecommerce_db".
Definition S3_OUTPUT : string := "s3://ogs-ecommerce-analytics-2025/data-generation/".

(** [df.to_dict(orient="records")]: one dictionary per row, the cells
    under the column labels. *)
Definition to_dict_records (df : dataframe F) : dataset :=
  (fun cells => dict_of (zip (df_columns df) cells)) <$> df_rows df.

(** [run_query(query_name, sql)] *)
Definition run_query (query_name sql : string) : M dataset :=
  try_except
    (df <- call (EvReadSql sql) (read_sql_query sql DB_NAME S3_OUTPUT false) ;;
     ret (to_dict_records df))
    (fun e => ret []).

(** Lines 175-177: the loop over [queries.items()]. *)
Fixpoint run_all (items : list (string * string)) (final_data : document) : M document :=
  match items with
  | [] => ret final_data
  | (name, sql) :: items' =>
      rows <- run_query name sql ;;
      run_all items' (dict_set final_data name rows)
  end.

(** Lines 175-177: [final_data] when the loop is over. *)
Definition final_data : M document := run_all queries [].

(** The module body of [generate_data.py]. *)
Definition generate_data : M unit :=
  doc <- final_data ;;
  dump_json "dashboard/data/dashboard-data.json" doc.

End Scripts.

(** ** The JSON reader: [json.load]

    A reader for the texts [json.dump] writes, after CPython's
    [json.decoder] and [json.scanner]: white space, the literals, numbers by
    [NUMBER_RE], strings with their escapes, arrays and objects.  A number
    is kept as its lexeme, and an escape beyond code point 255 is refused, the
    characters of the model being the code points below 256. *)

Unset Elimination Schemes.
Inductive json : Type :=
  | JNull
  | JBool (b : bool)
  | JNumber (lexeme : string)
  | JString (s : string)
  | JArray (elements : list json)
  | JObject (members : list (string * json)).
Set Elimination Schemes.

(** [WHITESPACE]: blanks, tabs, line feeds and carriage returns. *)
Definition is_ws (c : ascii) : bool :=
  let n := code c in ((n =? 32) || (n =? 9) || (n =? 10) || (n =? 13))%N.

Fixpoint skip_ws (s : string) : string :=
  match s with
  | EmptyString => EmptyString
  | String c r => if is_ws c then skip_ws r else s
  end.

Definition is_digit (c : ascii) : bool :=
  let n := code c in ((48 <=? n) && (n <=? 57))%N.

(** The longest run of digits [s] starts with, and what follows it. *)
Fixpoint span_digits (s : string) : string * string :=
  match s with
  | EmptyString => (EmptyString, EmptyString)
  | String c r =>
      if is_digit c then let '(ds, r') := span_digits r in (String c ds, r')
      else (EmptyString, s)
  end.

(** The integer part of [NUMBER_RE]: an optional minus, then [0] alone or a
    digit from 1 to 9 and the digits after it. *)
Definition scan_int (s : string) : option (string * string) :=
  let '(sign, s1) :=
    match s with
    | String c r => if (code c =? 45)%N then (String c EmptyString, r) else (EmptyString, s)
    | EmptyString => (EmptyString, s)
    end in
  match s1 with
  | EmptyString => None
  | String c r =>
      if (code c =? 48)%N then Some (sign +:+ String c EmptyString, r)
      else if is_digit c then
        let '(ds, r') := span_digits r in Some (sign +:+ String c ds, r')
      else None
  end.

(** The optional fraction of [NUMBER_RE]: a point and at least one digit. *)
Definition scan_frac (s : string) : string * string :=
  match s with
  | String c r =>
      if (code c =? 46)%N then
        match span_digits r with
        | (EmptyString, _) => (EmptyString, s)
        | (ds, r') => (String c ds, r')
        end
      else (EmptyString, s)
  | EmptyString => (EmptyString, s)
  end.

(** The optional exponent of [NUMBER_RE]: [e] or [E], an optional sign and at
    least one digit. *)
Definition scan_exp (s : string) : string * string :=
  match s with
  | String c r =>
      if ((code c =? 101) || (code c =? 69))%N then
        let '(sign, r1) :=
          match r with
          | String c' r' =>
              if ((code c' =? 45) || (code c' =? 43))%N then (String c' EmptyString, r')
              else (EmptyString, r)
          | EmptyString => (EmptyString, r)
          end in
        match span_digits r1 with
        | (EmptyString, _) => (EmptyString, s)
        | (ds, r2) => (String c (sign +:+ ds), r2)
        end
      else (EmptyString, s)
  | EmptyString => (EmptyString, s)
  end.

(** [NUMBER_RE.match]: the lexeme and what follows it. *)
Definition scan_number (s : string) : option (string * string) :=
  '(int_part, r1) ← scan_int s;
  let '(frac, r2) := scan_frac r1 in
  let '(exp, r3) := scan_exp r2 in
  Some (int_part +:+ frac +:+ exp, r3).

(** [s] with the prefix [p] taken off. *)
Fixpoint strip_prefix (p s : string) : option string :=
  match p, s with
  | EmptyString, _ => Some s
  | String a p', String b s' => if Ascii.eqb a b then strip_prefix p' s' else None
  | String _ _, EmptyString => None
  end.

Definition hex_value (c : ascii) : option N :=
  let n := code c in
  if ((48 <=? n) && (n <=? 57))%N then Some (n - 48)%N
  else if ((97 <=? n) && (n <=? 102))%N then Some (n - 87)%N
  else if ((65 <=? n) && (n <=? 70))%N then Some (n - 55)%N
  else None.

(** [BACKSLASH]: the character a one-letter escape stands for. *)
Definition unescape (c : ascii) : option ascii :=
  let n := code c in
  if ((n =? 34) || (n =? 92) || (n =? 47))%N then Some c
  else if (n =? 98)%N then Some (ascii_of_N 8)
  else if (n =? 102)%N then Some (ascii_of_N 12)
  else if (n =? 110)%N then Some (ascii_of_N 10)
  else if (n =? 114)%N then Some (ascii_of_N 13)
  else if (n =? 116)%N then Some (ascii_of_N 9)
  else None.

Definition cons_char (c : ascii) (r : option (string * string)) : option (string * string) :=
  '(s, rest) ← r; Some (String c s, rest).

(** [py_scanstring], from after the opening quote: the string and what
    follows its closing quote. *)
Fixpoint scan_string (s : string) : option (string * string) :=
  match s with
  | EmptyString => None
  | String c r =>
      let n := code c in
      if (n =? 34)%N then Some (EmptyString, r)
      else if (n =? 92)%N then
        match r with
        | EmptyString => None
        | String e r1 =>
            if (code e =? 117)%N then
              match r1 with
              | String h1 (String h2 (String h3 (String h4 r2))) =>
                  match hex_value h1, hex_value h2, hex_value h3, hex_value h4 with
                  | Some a, Some b, Some c', Some d =>
                      let v := (((a * 16 + b) * 16 + c') * 16 + d)%N in
                      if (v <? 256)%N then cons_char (ascii_of_N v) (scan_string r2)
                      else None
                  | _, _, _, _ => None
                  end
              | _ => None
              end
            else
              match unescape e with
              | Some x => cons_char x (scan_string r1)
              | None => None
              end
        end
      else if (n <? 32)%N then None
      else cons_char c (scan_string r)
  end.

(** The literals [scan_once] knows, tried in its order around the number. *)
Definition scan_literal (s : string) : option (json * string) :=
  match strip_prefix "null" s with
  | Some r => Some (JNull, r)
  | None =>
  match strip_prefix "true" s with
  | Some r => Some (JBool true, r)
  | None =>
  match strip_prefix "false" s with
  | Some r => Some (JBool false, r)
  | None =>
  match scan_number s with
  | Some (lexeme, r) => Some (JNumber lexeme, r)
  | None =>
  match strip_prefix "NaN" s with
  | Some r => Some (JNumber "NaN", r)
  | None =>
  match strip_prefix "Infinity" s with
  | Some r => Some (JNumber "Infinity", r)
  | None =>
  match strip_prefix "-Infinity" s with
  | Some r => Some (JNumber "-Infinity", r)
  | None => None
  end end end end end end end.

(** [scan_once], [JSONArray] and [JSONObject].  Every call takes one unit of
    fuel. *)
Fixpoint parse_value (fuel : nat) (s : string) : option (json * string) :=
  match fuel with
  | O => None
  | S fuel' =>
      match s with
      | EmptyString => None
      | String c r =>
          if (code c =? 34)%N then
            '(str, r') ← scan_string r; Some (JString str, r')
          else if (code c =? 123)%N then
            match skip_ws r with
            | String c' r' =>
                if (code c' =? 125)%N then Some (JObject [], r')
                else parse_members fuel' (skip_ws r) []
            | EmptyString => None
            end
          else if (code c =? 91)%N then
            match skip_ws r with
            | String c' r' =>
                if (code c' =? 93)%N then Some (JArray [], r')
                else parse_elements fuel' (skip_ws r) []
            | EmptyString => None
            end
          else scan_literal s
      end
  end
with parse_elements (fuel : nat) (s : string) (acc : list json) : option (json * string) :=
  match fuel with
  | O => None
  | S fuel' =>
      '(v, r) ← parse_value fuel' s;
      match skip_ws r with
      | String c r' =>
          if (code c =? 93)%N then Some (JArray (acc ++ [v]), r')
          else if (code c =? 44)%N then parse_elements fuel' (skip_ws r') (acc ++ [v])
          else None
      | EmptyString => None
      end
  end
with parse_members (fuel : nat) (s : string) (acc : list (string * json))
    : option (json * string) :=
  match fuel with
  | O => None
  | S fuel' =>
      match s with
      | String q r0 =>
          if (code q =? 34)%N then
            '(key, r1) ← scan_string r0;
            match skip_ws r1 with
            | String colon r2 =>
                if (code colon =? 58)%N then
                  '(v, r3) ← parse_value fuel' (skip_ws r2);
                  match skip_ws r3 with
                  | String c r4 =>
                      if (code c =? 125)%N then Some (JObject (acc ++ [(key, v)]), r4)
                      else if (code c =? 44)%N then
                        parse_members fuel' (skip_ws r4) (acc ++ [(key, v)])
                      else None
                  | EmptyString => None
                  end
                else None
            | EmptyString => None
            end
          else None
      | EmptyString => None
      end
  end.

(** [json.loads(s)] *)
Definition json_loads (fuel : nat) (s : string) : option json :=
  '(v, r) ← parse_value fuel (skip_ws s);
  match skip_ws r with
  | EmptyString => Some v
  | String _ _ => None
  end.

(** * The vocabulary of the statements *)

(** ** Strings *)

(** The characters of a string. *)
Definition chars (s : string) : list ascii := list_ascii_of_string s.

(** ** The polling loop *)

(** The three states the loop stops at. *)
Definition terminal_state (status : string) : Prop :=
  status = "SUCCEEDED" \/ status = "FAILED" \/ status = "CANCELLED".

(** The polls [n], ..., [n + k - 1] of [id] all return, with a state that is
    not terminal. *)
Definition pending (athena : athena_client) (id : string) (n k : nat) : Prop :=
  forall i, (i < k)%nat ->
    exists st, get_query_execution athena id (n + i) = Returns st /\
               ~ terminal_state (State st).

(** What [k] rounds of the loop that do not leave it do: a poll and a sleep
    of two seconds, [k] times. *)
Fixpoint rounds (id : string) (k : nat) : list event :=
  match k with
  | O => []
  | S k' => EvPoll id :: EvSleep 2 :: rounds id k'
  end.

(** ** Traces and loops *)

(** A computation that never looks at the trace it is given: it gives the
    same result from any trace and appends the same events. *)
Definition appends {A} (m : M A) : Prop :=
  forall t, m t = (fst (m []), t ++ snd (m [])).

(** The query texts a trace handed to [start_query_execution], in order. *)
Definition started (t : list event) : list string :=
  omap (fun ev => match ev with EvStart q => Some q | _ => None end) t.

(** The query texts a trace handed to [read_sql_query], in order. *)
Definition read_sqls (t : list event) : list string :=
  omap (fun ev => match ev with EvReadSql q => Some q | _ => None end) t.

(** [d[name] = rows] unless [results is None]. *)
Definition keep_rows {A} (d : dict A) (name : string) (results : option A) : dict A :=
  match results with
  | Some rows => dict_set d name rows
  | None => d
  end.

(** ** What a query comes to *)

Section Outcomes.
Context {F : Type} (py_int : string -> option Z) (py_float : string -> option F).
Context (athena : athena_client).

Local Abbreviation pending := (pending athena).
Local Abbreviation parse_results := (parse_results py_int py_float).
Local Abbreviation execute_athena_query := (execute_athena_query py_int py_float athena).

(** The service answers [query] with [results]: the query starts, [k] polls
    find it under way, the next one finds it SUCCEEDED, and the results are
    fetched. *)
Definition answered (query : string) (k : nat) (results : result_set) : Prop :=
  exists id st,
    start_query_execution athena query DATABASE OUTPUT_LOCATION = Returns id /\
    pending id 0 k /\
    get_query_execution athena id k = Returns st /\
    State st = "SUCCEEDED" /\
    get_query_results athena id = Returns results.

(** What a run of one query goes through when it gives rows: the service
    answers and every row parses. *)
Definition succeeds (query : string) (k : nat) (results : result_set)
    (rows : list (dict (pyval F))) : Prop :=
  answered query k results /\ parse_results results = Ok rows.

(** The query ends without rows: one of the calls raises, the final state is
    FAILED or CANCELLED, or a row is shorter than the column list. *)
Definition fails (query : string) (k : nat) : Prop :=
  (k = 0%nat /\ exists e, start_query_execution athena query DATABASE OUTPUT_LOCATION = Raises e)
  \/ exists id,
      start_query_execution athena query DATABASE OUTPUT_LOCATION = Returns id /\
      pending id 0 k /\
      ((exists e, get_query_execution athena id k = Raises e)
       \/ exists st, get_query_execution athena id k = Returns st /\
            ((terminal_state (State st) /\ State st <> "SUCCEEDED")
             \/ (State st = "SUCCEEDED" /\
                 ((exists e, get_query_results athena id = Raises e)
                  \/ exists results e, get_query_results athena id = Returns results /\
                       parse_results results = Raise e)))).

(** What one query gives, and what it does to the outside. *)
Definition outcome (fuel : nat) (query : string) : res (option (list (dict (pyval F)))) :=
  fst (execute_athena_query fuel query "" []).

Definition effects (fuel : nat) (query : string) : list event :=
  snd (execute_athena_query fuel query "" []).

End Outcomes.

Section DataOutcomes.
Context {F : Type}.
Context (read_sql_query : string -> string -> string -> bool -> answer (dataframe F)).

(** The rows [run_query] returns for a query text. *)
Definition rows_of (sql : string) : list (dict (pyval F)) :=
  match read_sql_query sql DB_NAME S3_OUTPUT false with
  | Returns df => to_dict_records df
  | Raises _ => []
  end.

End DataOutcomes.

(** ** Cells *)

Section CellValues.
Context {F : Type} (py_int : string -> option Z) (py_float : string -> option F).

(** What the row holds for a cell with the given payload: a float when the
    payload has a ['.'] and [float] accepts it, an int when it has none and
    [int] accepts it, the payload itself when the conversion raises, and
    [None] when there is no payload. *)
Inductive stored_value : option string -> pyval F -> Prop :=
  | stored_float s f :
      "."%char ∈ chars s -> py_float s = Some f -> stored_value (Some s) (PyFloat f)
  | stored_int s z :
      "."%char ∉ chars s -> py_int s = Some z -> stored_value (Some s) (PyInt z)
  | stored_text_not_float s :
      "."%char ∈ chars s -> py_float s = None -> stored_value (Some s) (PyStr s)
  | stored_text_not_int s :
      "."%char ∉ chars s -> py_int s = None -> stored_value (Some s) (PyStr s)
  | stored_null : stored_value None PyNone.

End CellValues.

(** ** Reading back what the writer wrote *)

(** What can follow a value: nothing, or a character that ends a number. *)
Definition is_delimiter (c : ascii) : bool :=
  let n := code c in
  ((n =? 44) || (n =? 93) || (n =? 125) || (n =? 32) || (n =? 9) || (n =? 10) || (n =? 13))%N.

Definition delimited (rest : string) : Prop :=
  match rest with
  | EmptyString => True
  | String c _ => is_delimiter c = true
  end.

(** The text [text] reads as the value [j], with [n] units of fuel or more,
    whatever delimited text follows it. *)
Definition reads_as (text : string) (j : json) (n : nat) : Prop :=
  forall rest fuel, delimited rest -> (n <= fuel)%nat ->
    parse_value fuel (text +:+ rest) = Some (j, rest).

Fixpoint all_digits (s : string) : bool :=
  match s with
  | EmptyString => true
  | String c r => is_digit c && all_digits r
  end.

(** A text that does not go on with a digit. *)
Definition no_digit_first (rest : string) : Prop :=
  match rest with
  | EmptyString => True
  | String c _ => is_digit c = false
  end.

(** The first character of a text that reads as a value: no white space, no
    closing bracket or brace. *)
Definition starts_value (s : string) : Prop :=
  match s with
  | EmptyString => False
  | String c _ => is_ws c = false /\ code c <> 93%N /\ code c <> 125%N
  end.

(** What a loaded object or array gives: [set(d.keys())], [d.get(k)] for
    the dictionary [dict(pairs)] an object is loaded as, and the items of a
    list. *)
Definition loaded_keys (j : json) : gset string :=
  match j with
  | JObject members => keyset (dict_of members)
  | _ => ∅
  end.

Definition loaded_get (j : json) (k : string) : option json :=
  match j with
  | JObject members => dict_get (dict_of members) k
  | _ => None
  end.

(** The loaded value has the shape of the document: the same keys, and under
    each of them a list with as many items as the dataset has rows, each an
    object with the keys of its row. *)
Definition same_shape {F} (doc : dict (list (dict (pyval F)))) (loaded : json) : Prop :=
  loaded_keys loaded = keyset doc /\
  forall name rows, dict_get doc name = Some rows ->
    exists items,
      loaded_get loaded name = Some (JArray items) /\
      length items = length rows /\
      Forall2 (fun row item => loaded_keys item = keyset row) rows items.

Section Trees.
Context {F : Type} (float_repr : F -> string).

(** The value a scalar is read back as. *)
Definition json_of_scalar (v : pyval F) : json :=
  match v with
  | PyNone => JNull
  | PyBool b => JBool b
  | PyInt z => JNumber (int_repr z)
  | PyFloat f => JNumber (float_repr f)
  | PyStr s => JString s
  | PyObj s => JString s
  end.

Definition json_of_row (row : dict (pyval F)) : json :=
  JObject ((fun kv => (fst kv, json_of_scalar (snd kv))) <$> row).

Definition json_of_rows (rows : list (dict (pyval F))) : json :=
  JArray (json_of_row <$> rows).

Definition json_of_document (doc : dict (list (dict (pyval F)))) : json :=
  JObject ((fun kv => (fst kv, json_of_rows (snd kv))) <$> doc).

(** Fuel that is enough to read a dataset, and a document, back. *)
Definition rows_fuel (rows : list (dict (pyval F))) : nat :=
  3 + sum_list_with length rows + length rows.

Definition document_fuel (doc : dict (list (dict (pyval F)))) : nat :=
  1 + sum_list_with (fun kv => rows_fuel (snd kv)) doc + length doc.

End Trees.

(** Writing [doc] and reading the text back gives a value of the shape of
    [doc], with fuel enough for the reader. *)
Definition round_trips {F} (float_repr : F -> string)
    (doc : dict (list (dict (pyval F)))) : Prop :=
  exists n, forall fuel, (n <= fuel)%nat ->
    exists loaded,
      json_loads fuel (json_dumps float_repr doc) = Some loaded /\
      same_shape doc loaded.

(** ** A concrete setting for the examples

    Plain decimal literals, on which [sample_int] and [sample_float] agree
    with CPython's [int] and [float]: a float is kept exactly, as its digits
    and the number of them after the point. *)

Record decimal : Type := { mantissa : Z; places : nat }.

Definition digit_of (c : ascii) : option Z :=
  let n := code c in
  if ((48 <=? n) && (n <=? 57))%N then Some (Z.of_N n - 48) else None.

(** The value of a run of digits after [acc]; [None] at anything else. *)
Fixpoint digits_value (s : string) (acc : Z) : option Z :=
  match s with
  | EmptyString => Some acc
  | String c s' =>
      match digit_of c with
      | Some d => digits_value s' (10 * acc + d)
      | None => None
      end
  end.

Definition unsigned_int (s : string) : option Z :=
  match s with
  | EmptyString => None
  | _ => digits_value s 0
  end.

(** [int(s)] on an optional minus and digits. *)
Definition sample_int (s : string) : option Z :=
  match s with
  | String "-" s' => Z.opp <$> unsigned_int s'
  | _ => unsigned_int s
  end.

(** The digits before and after the first ['.'], when there is one. *)
Fixpoint split_at_dot (s : string) : option (string * string) :=
  match s with
  | EmptyString => None
  | String c s' =>
      if Ascii.eqb c "." then Some (EmptyString, s')
      else '(a, b) ← split_at_dot s'; Some (String c a, b)
  end.

Definition unsigned_float (s : string) : option decimal :=
  '(a, b) ← split_at_dot s;
  m ← unsigned_int (a +:+ b);
  if (String.length a =? 0)%nat && (String.length b =? 0)%nat then None
  else Some {| mantissa := m; places := String.length b |}.

(** [float(s)] on an optional minus, digits, a point and digits. *)
Definition sample_float (s : string) : option decimal :=
  match s with
  | String "-" s' =>
      (fun d => {| mantissa := - mantissa d; places := places d |}) <$> unsigned_float s'
  | _ => unsigned_float s
  end.

(** The last [n] digits of [z], zero-padded. *)
Fixpoint last_digits (n : nat) (z : Z) : string :=
  match n with
  | O => ""
  | S n' => last_digits n' (z / 10) +:+ String (ascii_of_N (48 + Z.to_N (z mod 10))) ""
  end.

(** The text of a decimal, with at least one digit after the point. *)
Definition sample_repr (d : decimal) : string :=
  let a := Z.abs (mantissa d) in
  let p := 10 ^ Z.of_nat (places d) in
  (if (mantissa d <? 0)%Z then "-" else "") +:+ int_repr (a / p) +:+ "."
  +:+ (match places d with O => "0" | _ => last_digits (places d) (a mod p) end).

(** A result set with a header row, two rows of data, a null cell, and two
    labels that differ in case only. *)
Definition sample_results : result_set := {|
  ColumnInfo := [ {| Label := "Country" |}; {| Label := "revenue" |};
                  {| Label := "orders" |}; {| Label := "COUNTRY" |} ];
  Rows := [
    {| Data := [ {| VarCharValue := Some "Country" |}; {| VarCharValue := Some "revenue" |};
                 {| VarCharValue := Some "orders" |}; {| VarCharValue := Some "COUNTRY" |} ] |};
    {| Data := [ {| VarCharValue := Some "France" |}; {| VarCharValue := Some "12.50" |};
                 {| VarCharValue := Some "3" |}; {| VarCharValue := Some "FR" |} ] |};
    {| Data := [ {| VarCharValue := Some "Spain" |}; {| VarCharValue := Some "1.2.3" |};
                 {| VarCharValue := None |}; {| VarCharValue := Some "1e5" |} ] |} ]
|}.

(** An Athena that runs every query: two polls find it RUNNING, the third
    SUCCEEDED, and the results are [sample_results]. *)
Definition athena_up : athena_client := {|
  start_query_execution query _ _ := Returns ("id:" +:+ query);
  get_query_execution _ n :=
    Returns {| State := if (n <? 2)%nat then "RUNNING" else "SUCCEEDED";
               StateChangeReason := None |};
  get_query_results _ := Returns sample_results
|}.

(** An Athena that refuses every query. *)
Definition athena_down : athena_client := {|
  start_query_execution _ _ _ := Raises (ServiceError "AccessDeniedException");
  get_query_execution _ _ := Raises (ServiceError "InvalidRequestException");
  get_query_results _ := Raises (ServiceError "InvalidRequestException")
|}.

(** An Athena on which the queries never leave the RUNNING state. *)
Definition athena_stuck : athena_client := {|
  start_query_execution query _ _ := Returns ("id:" +:+ query);
  get_query_execution _ _ := Returns {| State := "RUNNING"; StateChangeReason := None |};
  get_query_results _ := Raises (ServiceError "InvalidRequestException")
|}.

(** [athena_up], but for one query text, which ends FAILED. *)
Definition athena_but (failing : string) : athena_client := {|
  start_query_execution query _ _ := Returns ("id:" +:+ query);
  get_query_execution id n :=
    Returns {| State := if String.eqb id ("id:" +:+ failing) then "FAILED"
                        else if (n <? 2)%nat then "RUNNING" else "SUCCEEDED";
               StateChangeReason := None |};
  get_query_results _ := Returns sample_results
|}.

(** awswrangler on an Athena that runs every query. *)
Definition wr_up : string -> string -> string -> bool -> answer (dataframe decimal) :=
  fun _ _ _ _ =>
    Returns {| df_columns := ["country"; "revenue"];
               df_rows := [ [PyStr "France"; PyFloat {| mantissa := 1250; places := 2 |}];
                            [PyStr "Spain"; PyNone] ] |}.

(** awswrangler on an Athena that refuses every query. *)
Definition wr_down : string -> string -> string -> bool -> answer (dataframe decimal) :=
  fun _ _ _ _ => Raises (ServiceError "AccessDeniedException").

(** A file system on which the output can always be written. *)
Definition writable : string -> answer unit := fun _ => Returns tt.


(** The rows [generate_dashboard_data.py] makes of [sample_results]: the
    header row is gone, and ["COUNTRY"] has taken the place of ["Country"]. *)
Definition sample_rows : list (dict (pyval decimal)) :=
  [ [("country", PyStr "FR"); ("revenue", PyFloat {| mantissa := 1250; places := 2 |});
     ("orders", PyInt 3)];
    [("country", PyStr "1e5"); ("revenue", PyStr "1.2.3"); ("orders", PyNone)] ].

(** What one query does to [athena_up]. *)
Definition sample_trace (query : string) : list event :=
  [EvStart query; EvPoll ("id:" +:+ query); EvSleep 2; EvPoll ("id:" +:+ query); EvSleep 2;
   EvPoll ("id:" +:+ query); EvFetch ("id:" +:+ query)].

(** The document of [generate_dashboard_data.py] on [athena_up]. *)
Definition sample_document : dict (list (dict (pyval decimal))) :=
  (fun item => (fst item, sample_rows)) <$> QUERIES.

(** What a run of [generate_dashboard_data.py] does to [athena_up] before it
    writes. *)
Definition sample_run : list event :=
  concat ((fun item => sample_trace (snd item)) <$> QUERIES).

(** ** More vocabulary: rows, calls and texts *)

(** A value that comes from an Athena cell: [None], an int, a float or a
    string. *)
Definition plain_value {F} (v : pyval F) : Prop :=
  match v with
  | PyBool _ | PyObj _ => False
  | _ => True
  end.

(** A string without an upper-case letter. *)
Definition lower_case (s : string) : Prop :=
  Forall (fun c => is_upper c = false) (chars s).

(** The execution ids a trace polled, and those it fetched, in order. *)
Definition polled (t : list event) : list string :=
  omap (fun ev => match ev with EvPoll id => Some id | _ => None end) t.

Definition fetched (t : list event) : list string :=
  omap (fun ev => match ev with EvFetch id => Some id | _ => None end) t.

(** The seconds a trace slept, all in all. *)
Definition slept (t : list event) : Z :=
  foldr (fun ev total => match ev with EvSleep s => s + total | _ => total end) 0 t.

(** The files a trace wrote: path and text, in order. *)
Definition dumped (t : list event) : list (string * string) :=
  omap (fun ev => match ev with EvDump path text => Some (path, text) | _ => None end) t.

(** [True] when the query gave rows. *)
Definition gave_rows {A} (r : res (option A)) : bool :=
  match r with
  | Ok (Some _) => true
  | _ => false
  end.

(** The entries the loop of [generate_dashboard_data.py] keeps of a list of
    queries: name and rows of those that gave rows, in order. *)
Definition kept {F} (py_int : string -> option Z) (py_float : string -> option F)
    (athena : athena_client) (fuel : nat) (items : dict string)
    : dict (list (dict (pyval F))) :=
  omap (fun item =>
          match outcome py_int py_float athena fuel (snd item) with
          | Ok (Some rows) => Some (fst item, rows)
          | _ => None
          end) items.

(** A text in the characters [' '..'~'] and the line feed. *)
Definition ascii_text (s : string) : Prop :=
  Forall (fun c => (32 <= code c <= 126)%N \/ code c = 10%N) (chars s).

(** An Athena that runs every query at the first poll and answers with
    [results]. *)
Definition athena_serving (results : result_set) : athena_client := {|
  start_query_execution query _ _ := Returns ("id:" +:+ query);
  get_query_execution _ _ :=
    Returns {| State := "SUCCEEDED"; StateChangeReason := None |};
  get_query_results _ := Returns results
|}.

(** A result set whose second data row has a cell less than there are
    columns, and one whose rows have a cell more. *)
Definition short_results : result_set := {|
  ColumnInfo := [ {| Label := "country" |}; {| Label := "revenue" |} ];
  Rows := [
    {| Data := [] |};
    {| Data := [ {| VarCharValue := Some "France" |}; {| VarCharValue := Some "12.50" |} ] |};
    {| Data := [ {| VarCharValue := Some "Spain" |} ] |} ]
|}.

Definition wide_results : result_set := {|
  ColumnInfo := [ {| Label := "country" |}; {| Label := "revenue" |} ];
  Rows := [
    {| Data := [] |};
    {| Data := [ {| VarCharValue := Some "France" |}; {| VarCharValue := Some "12.50" |};
                 {| VarCharValue := Some "extra" |} ] |} ]
|}.

(** * Properties *)

(** ** The JSON writer on examples *)

Example json_dumps_ex :
  single_quoted
    (json_dumps (fun _ : unit => "1.5")
       [("kpis", [[("total_orders", PyInt 12); ("avg", PyFloat tt); ("n", PyNone)]; []]);
        ("x", [])])
  = "{
  'kpis': [
    {
      'total_orders': 12,
      'avg': 1.5,
      'n': null
    },
    {}
  ],
  'x': []
}".
Proof. vm_compute. reflexivity. Qed.

Example encode_str_ex :
  single_quoted
    (encode_str (String (ascii_of_N 34) (String (ascii_of_N 10) "a\b")
                 +:+ String (ascii_of_N 233) ""))
  = "'\'\na\\b\u00e9'".
Proof. vm_compute. reflexivity. Qed.

(** ** Strings *)

Lemma code_inj a b : code a = code b -> a = b.
Proof.
  unfold code. intros H.
  rewrite <- (ascii_N_embedding a), <- (ascii_N_embedding b). by rewrite H.
Qed.

Lemma code_lt_256 a : (code a < 256)%N.
Proof. unfold code. apply N_ascii_bounded. Qed.

Lemma code_ascii_of_N n : (n < 256)%N -> code (ascii_of_N n) = n.
Proof. unfold code. apply N_ascii_embedding. Qed.

Lemma is_upper_bounds c :
  is_upper c = true <->
  (65 <= code c <= 90)%N \/ (192 <= code c <= 222)%N /\ code c <> 215%N.
Proof.
  unfold is_upper. cbv zeta.
  rewrite orb_true_iff, !andb_true_iff, negb_true_iff, !N.leb_le, N.eqb_neq.
  tauto.
Qed.

Lemma is_upper_shift c : is_upper c = true -> is_upper (ascii_of_N (code c + 32)) = false.
Proof.
  intros H. apply is_upper_bounds in H.
  assert (Hc : code (ascii_of_N (code c + 32)) = (code c + 32)%N)
    by (apply code_ascii_of_N; lia).
  apply not_true_is_false. rewrite is_upper_bounds, Hc. lia.
Qed.

Lemma char_lower_same_letter a b : same_letter a b -> char_lower a = char_lower b.
Proof.
  intros [->|[[Ha Hb]|[Hb Ha]]]; [done| |].
  - assert (b = ascii_of_N (code a + 32)) as ->.
    { apply code_inj. rewrite Hb, code_ascii_of_N; [done|].
      apply is_upper_bounds in Ha. lia. }
    unfold char_lower. by rewrite Ha, is_upper_shift.
  - assert (a = ascii_of_N (code b + 32)) as ->.
    { apply code_inj. rewrite Ha, code_ascii_of_N; [done|].
      apply is_upper_bounds in Hb. lia. }
    unfold char_lower. by rewrite Hb, is_upper_shift.
Qed.

Lemma lower_same_up_to_case s t : same_up_to_case s t -> lower s = lower t.
Proof.
  induction 1 as [|a b s t Hab _ IH]; [done|].
  simpl. by rewrite (char_lower_same_letter a b Hab), IH.
Qed.

(** ** Dictionaries *)

Section DictFacts.
  Context {V : Type}.
  Implicit Types (d : dict V) (k : string) (v : V).

Lemma dict_get_set_eq d k v : dict_get (dict_set d k v) k = Some v.
  Proof.
    induction d as [|[k' v'] d IH]; simpl.
    - by rewrite String.eqb_refl.
    - destruct (String.eqb k' k) eqn:E; simpl; by rewrite E.
  Qed.

Lemma dict_get_set_ne d k k' v : k <> k' -> dict_get (dict_set d k v) k' = dict_get d k'.
  Proof.
    intros Hne. induction d as [|[k0 v0] d IH]; simpl.
    - by apply String.eqb_neq in Hne as ->.
    - destruct (String.eqb k0 k) eqn:E; simpl.
      + apply String.eqb_eq in E as ->. by apply String.eqb_neq in Hne as ->.
      + by rewrite IH.
  Qed.

Lemma dict_keys_cons k v d : dict_keys ((k, v) :: d) = k :: dict_keys d.
Proof. done. Qed.

Lemma keyset_cons k v d : keyset ((k, v) :: d) = {[k]} ∪ keyset d.
Proof. done. Qed.

Lemma dict_keys_set d k v : keyset (dict_set d k v) = {[k]} ∪ keyset d.
Proof.
  induction d as [|[k0 v0] d IH]; simpl.
  - rewrite keyset_cons. set_solver.
  - destruct (String.eqb k0 k) eqn:E.
    + apply String.eqb_eq in E as ->. rewrite !keyset_cons. set_solver.
    + rewrite !keyset_cons, IH. set_solver.
Qed.

Lemma dict_get_is_Some d k : is_Some (dict_get d k) <-> k ∈ keyset d.
Proof.
  induction d as [|[k0 v0] d IH]; simpl.
  - split; [by intros [? ?]|set_solver].
  - rewrite keyset_cons. destruct (String.eqb k0 k) eqn:E.
    + apply String.eqb_eq in E as ->. split; [set_solver|eauto].
    + apply String.eqb_neq in E. rewrite IH. set_solver.
Qed.

Lemma dict_get_None d k : dict_get d k = None <-> k ∉ keyset d.
  Proof. rewrite <- dict_get_is_Some, eq_None_not_Some. done. Qed.

Lemma dict_of_snoc (ps : list (string * V)) k v :
    dict_of (ps ++ [(k, v)]) = dict_set (dict_of ps) k v.
  Proof. unfold dict_of. by rewrite fold_left_app. Qed.
End DictFacts.

(** ** Results *)

Lemma res_map_Ok {A B} (f : A -> res B) l ys :
  res_map f l = Ok ys <-> Forall2 (fun x y => f x = Ok y) l ys.
Proof.
  revert ys. induction l as [|x l IH]; intros ys; simpl.
  - split; [intros [= <-]; constructor|by inversion 1].
  - split.
    + destruct (f x) as [y| |] eqn:E; simpl; [|done..].
      destruct (res_map f l) as [ys'| |] eqn:E'; simpl; [|done..].
      intros [= <-]. constructor; [done|]. by apply IH.
    + inversion 1 as [|? y ? ys' Hx Hl]; subst.
      rewrite Hx. simpl. apply IH in Hl as ->. done.
Qed.

(** ** Rows of [generate_dashboard_data.py] *)

Section RowFacts.
  Context {F : Type} (py_int : string -> option Z) (py_float : string -> option F).

  Local Abbreviation cell_value := (cell_value py_int py_float).
  Local Abbreviation store_cell := (store_cell py_int py_float).
  Local Abbreviation parse_row := (parse_row py_int py_float).

  Implicit Types (columns : list string) (row : result_row) (row_data : dict (pyval F)).

Lemma parse_row_nil row : parse_row [] row = Ok [].
  Proof. done. Qed.

  (** The inner loop, one column more. *)
Lemma parse_row_snoc columns col row :
    parse_row (columns ++ [col]) row
    = res_bind (parse_row columns row)
        (fun row_data => store_cell row row_data (length columns, col)).
  Proof.
    unfold parse_row, enumerate.
    rewrite imap_app, fold_left_app. simpl. by rewrite Nat.add_0_r.
  Qed.

Lemma parse_row_snoc_Ok columns col row row_data :
    parse_row (columns ++ [col]) row = Ok row_data <->
    exists before d,
      parse_row columns row = Ok before /\ Data row !! length columns = Some d /\
      row_data = dict_set before (lower col) (cell_value (VarCharValue d)).
  Proof.
    rewrite parse_row_snoc. unfold store_cell. simpl. split.
    - destruct (parse_row columns row) as [before| |]; simpl; [|done..].
      destruct (Data row !! length columns) as [d|]; [|done].
      intros [= <-]. eauto.
    - intros (before & d & -> & Hd & ->). simpl. by rewrite Hd.
  Qed.

  (** A row dictionary is produced exactly when the row has a cell for
      every column. *)
Lemma parse_row_is_Ok columns row :
    (exists row_data, parse_row columns row = Ok row_data) <->
    (length columns <= length (Data row))%nat.
  Proof.
    induction columns as [|col columns IH] using rev_ind.
    - split; [simpl; lia|eauto].
    - rewrite length_app. simpl. split.
      + intros [row_data (before & d & Hb & Hd & _)%parse_row_snoc_Ok].
        apply lookup_lt_Some in Hd. lia.
      + intros Hlen. destruct IH as [_ [before Hb]]; [lia|].
        destruct (lookup_lt_is_Some_2 (Data row) (length columns)) as [d Hd]; [lia|].
        eexists. apply parse_row_snoc_Ok. eauto.
  Qed.

Lemma parse_row_take columns row row_data j :
    parse_row columns row = Ok row_data ->
    exists before, parse_row (take j columns) row = Ok before.
  Proof.
    intros H. apply parse_row_is_Ok.
    assert (length columns <= length (Data row))%nat by (apply parse_row_is_Ok; eauto).
    rewrite length_take. lia.
  Qed.

  (** The keys of a row dictionary are the lower-cased labels. *)
Lemma parse_row_keyset columns row row_data :
    parse_row columns row = Ok row_data ->
    keyset row_data = list_to_set (lower <$> columns).
  Proof.
    revert row_data. induction columns as [|col columns IH] using rev_ind; intros row_data.
    - by intros [= <-].
    - intros (before & d & Hb & _ & ->)%parse_row_snoc_Ok.
      rewrite dict_keys_set, (IH _ Hb), fmap_app, list_to_set_app_L. set_solver.
  Qed.

  (** What a key maps to: the value of the last column stored under it. *)
Lemma parse_row_get columns row row_data j col d :
    parse_row columns row = Ok row_data ->
    columns !! j = Some col ->
    Data row !! j = Some d ->
    (forall j' col', (j < j')%nat -> columns !! j' = Some col' -> lower col' <> lower col) ->
    dict_get row_data (lower col) = Some (cell_value (VarCharValue d)).
  Proof.
    revert row_data. induction columns as [|c columns IH] using rev_ind; intros row_data.
    - done.
    - intros (before & d' & Hb & Hd' & ->)%parse_row_snoc_Ok Hj Hd Hlast.
      destruct (decide (j = length columns)) as [->|Hne].
      + rewrite list_lookup_middle in Hj by done. simplify_eq.
        apply dict_get_set_eq.
      + assert (j < length columns)%nat as Hlt.
        { apply lookup_lt_Some in Hj. rewrite length_app in Hj. simpl in Hj. lia. }
        rewrite lookup_app_l in Hj by done.
        rewrite dict_get_set_ne.
        * apply (IH before); [done..|].
          intros j' col' Hjj' Hj'. apply (Hlast j'); [done|].
          rewrite lookup_app_l; [done|]. by apply lookup_lt_Some in Hj'.
        * apply (Hlast (length columns)); [done|]. by rewrite list_lookup_middle.
  Qed.
Lemma parse_row_not_Diverge columns row : parse_row columns row <> Diverge.
Proof.
  induction columns as [|col columns IH] using rev_ind; [done|].
  rewrite parse_row_snoc. destruct (parse_row columns row); [|done..].
  simpl. unfold store_cell. by destruct (Data row !! _).
Qed.

Lemma parse_results_not_Diverge results : parse_results py_int py_float results <> Diverge.
Proof.
  unfold parse_results. cbv zeta.
  induction (drop 1 (Rows results)) as [|row rows IH]; [done|]. simpl.
  pose proof (parse_row_not_Diverge (Label <$> ColumnInfo results) row).
  destruct (parse_row _ row); [|done..]. simpl.
  by destruct (res_map _ rows).
Qed.
End RowFacts.

(** ** The polling loop *)

Lemma is_terminal_spec status : is_terminal status = true <-> terminal_state status.
Proof.
  unfold is_terminal, terminal_state.
  rewrite bool_decide_eq_true, !elem_of_cons, elem_of_nil. tauto.
Qed.

Lemma is_terminal_false status : is_terminal status = false <-> ~ terminal_state status.
Proof. rewrite <- is_terminal_spec. by destruct (is_terminal status). Qed.

Section Polling.
Context (athena : athena_client).

Local Abbreviation wait_for_query := (wait_for_query athena).
Local Abbreviation pending := (pending athena).

Lemma pending_0 id n : pending id n 0.
Proof. intros i Hi. lia. Qed.

Lemma pending_S id n k :
  pending id n (S k) <->
  (exists st, get_query_execution athena id n = Returns st /\ ~ terminal_state (State st))
  /\ pending id (S n) k.
Proof.
  split.
  - intros H. split.
    + destruct (H 0%nat) as (st & Hst & Hnt); [lia|].
      rewrite Nat.add_0_r in Hst. eauto.
    + intros i Hi. destruct (H (S i)) as (st & Hst & Hnt); [lia|].
      replace (S n + i)%nat with (n + S i)%nat by lia. eauto.
  - intros [H0 H] [|i] Hi.
    + by rewrite Nat.add_0_r.
    + replace (n + S i)%nat with (S n + i)%nat by lia. apply H. lia.
Qed.

Lemma pending_le id n k k' : (k' <= k)%nat -> pending id n k -> pending id n k'.
Proof. intros Hle H i Hi. apply H. lia. Qed.

(** One round that does not leave the loop. *)
Lemma wait_step fuel id n st t :
  get_query_execution athena id n = Returns st ->
  ~ terminal_state (State st) ->
  wait_for_query (S fuel) id n t
  = wait_for_query fuel id (S n) (t ++ [EvPoll id; EvSleep 2]).
Proof.
  intros Hst Hnt%is_terminal_false. simpl. unfold bind, call, sleep.
  rewrite Hst, Hnt. by rewrite <- app_assoc.
Qed.

(** The round that leaves it by [break]. *)
Lemma wait_break fuel id n st t :
  get_query_execution athena id n = Returns st ->
  terminal_state (State st) ->
  wait_for_query (S fuel) id n t = (Ok st, t ++ [EvPoll id]).
Proof.
  intros Hst Ht%is_terminal_spec. simpl. unfold bind, call, ret.
  by rewrite Hst, Ht.
Qed.

(** The round in which the poll itself raises. *)
Lemma wait_raise fuel id n e t :
  get_query_execution athena id n = Raises e ->
  wait_for_query (S fuel) id n t = (Raise e, t ++ [EvPoll id]).
Proof. intros He. simpl. unfold bind, call. by rewrite He. Qed.

(** [k] rounds that do not leave the loop. *)
Lemma wait_pending k fuel id n t :
  pending id n k ->
  wait_for_query (k + fuel) id n t = wait_for_query fuel id (n + k) (t ++ rounds id k).
Proof.
  revert n t. induction k as [|k IH]; intros n t Hp.
  - by rewrite Nat.add_0_r, app_nil_r.
  - apply pending_S in Hp as [(st & Hst & Hnt) Hp].
    change (S k + fuel)%nat with (S (k + fuel)).
    rewrite (wait_step _ _ _ st) by done.
    rewrite IH by done.
    replace (n + S k)%nat with (S n + k)%nat by lia.
    by rewrite <- app_assoc.
Qed.

(** However the loop ends, it has gone through some [k] rounds that did not
    leave it, and then the poll [n + k] reported a terminal state or raised. *)
Lemma wait_ends fuel id n t r t' :
  wait_for_query fuel id n t = (r, t') ->
  r <> Diverge ->
  exists k, (k < fuel)%nat /\ pending id n k /\ t' = t ++ rounds id k ++ [EvPoll id] /\
    ((exists st, r = Ok st /\ get_query_execution athena id (n + k) = Returns st /\
                 terminal_state (State st))
     \/ (exists e, r = Raise e /\ get_query_execution athena id (n + k) = Raises e)).
Proof.
  revert n t. induction fuel as [|fuel IH]; intros n t H Hr.
  - simpl in H. unfold lift in H. by simplify_eq.
  - destruct (get_query_execution athena id n) as [st|e] eqn:Hst.
    + destruct (is_terminal (State st)) eqn:Ht.
      * apply is_terminal_spec in Ht. rewrite (wait_break _ _ _ st) in H by done.
        simplify_eq. exists 0%nat. rewrite Nat.add_0_r.
        split; [lia|]. split; [apply pending_0|]. split; [done|]. left. eauto.
      * apply is_terminal_false in Ht. rewrite (wait_step _ _ _ st) in H by done.
        apply IH in H as (k & Hk & Hp & -> & Hend); [|done].
        exists (S k). split; [lia|]. split; [apply pending_S; eauto|].
        split; [by rewrite <- app_assoc|].
        by replace (n + S k)%nat with (S n + k)%nat by lia.
    + rewrite (wait_raise _ _ _ e) in H by done. simplify_eq.
      exists 0%nat. rewrite Nat.add_0_r.
      split; [lia|]. split; [apply pending_0|]. split; [done|]. right. eauto.
Qed.

(** While no poll reports a terminal state or raises, the loop goes on. *)
Lemma wait_forever fuel id n t :
  pending id n fuel ->
  wait_for_query fuel id n t = (Diverge, t ++ rounds id fuel).
Proof.
  intros Hp. rewrite <- (Nat.add_0_r fuel) at 1. by rewrite wait_pending.
Qed.

End Polling.

(** ** Runs only add to the trace *)

Lemma appends_ret {A} (a : A) : appends (ret a).
Proof. intros t. unfold ret. simpl. by rewrite app_nil_r. Qed.

Lemma appends_lift {A} (r : res A) : appends (lift r).
Proof. intros t. unfold lift. simpl. by rewrite app_nil_r. Qed.

Lemma appends_call {A} ev (a : answer A) : appends (call ev a).
Proof. intros t. unfold call. by destruct a. Qed.

Lemma appends_sleep s : appends (sleep s).
Proof. by intros t. Qed.

Lemma appends_bind {A B} (m : M A) (k : A -> M B) :
  appends m -> (forall a, appends (k a)) -> appends (bind m k).
Proof.
  intros Hm Hk t. unfold bind. rewrite (Hm t).
  destruct (m []) as [[a|e|] t1]; simpl; [|by rewrite ?app_nil_r..].
  rewrite (Hk a (t ++ t1)), (Hk a t1). simpl. by rewrite app_assoc.
Qed.

Lemma appends_try_except {A} (body : M A) (handler : exn -> M A) :
  appends body -> (forall e, appends (handler e)) -> appends (try_except body handler).
Proof.
  intros Hm Hk t. unfold try_except. rewrite (Hm t).
  destruct (body []) as [[a|e|] t1]; simpl; [by rewrite ?app_nil_r| |by rewrite ?app_nil_r].
  rewrite (Hk e (t ++ t1)), (Hk e t1). simpl. by rewrite app_assoc.
Qed.

Create HintDb appends.
#[export] Hint Resolve appends_ret appends_lift appends_call appends_sleep
  appends_bind appends_try_except : appends.

(** ** One query of [generate_dashboard_data.py] *)

Section Execute.
Context {F : Type} (py_int : string -> option Z) (py_float : string -> option F).
Context (athena : athena_client).

Local Abbreviation wait_for_query := (wait_for_query athena).
Local Abbreviation pending := (pending athena).
Local Abbreviation parse_results := (parse_results py_int py_float).
Local Abbreviation execute_athena_query := (execute_athena_query py_int py_float athena).
Local Abbreviation answered := (answered athena).
Local Abbreviation succeeds := (succeeds py_int py_float athena).
Local Abbreviation fails := (fails py_int py_float athena).

Lemma appends_wait_for_query fuel id n : appends (wait_for_query fuel id n).
Proof.
  revert n. induction fuel as [|fuel IH]; intros n; simpl; [auto with appends|].
  apply appends_bind; [auto with appends|]. intros st.
  destruct (is_terminal (State st)); auto with appends.
Qed.

Lemma appends_execute fuel query query_name :
  appends (execute_athena_query fuel query query_name).
Proof.
  unfold execute_athena_query.
  apply appends_try_except; [|auto with appends].
  apply appends_bind; [auto with appends|]. intros id.
  apply appends_bind; [apply appends_wait_for_query|]. intros st.
  destruct (negb _); auto 6 with appends.
Qed.

Lemma execute_not_Raise fuel query query_name t e t' :
  execute_athena_query fuel query query_name t <> (Raise e, t').
Proof.
  unfold execute_athena_query, try_except.
  destruct (bind _ _ t) as [[a| |] t1]; unfold ret; congruence.
Qed.

Lemma execute_succeeds fuel query query_name k results rows t :
  succeeds query k results rows -> (k < fuel)%nat ->
  exists t', execute_athena_query fuel query query_name t = (Ok (Some rows), t').
Proof.
  intros [(id & st & Hid & Hp & Hst & Hs & Hres) Hrows] Hk.
  unfold execute_athena_query, try_except, bind at 1, call at 1. rewrite Hid.
  unfold bind at 1.
  replace fuel with (k + S (fuel - S k))%nat by lia.
  rewrite wait_pending by done. simpl (0 + k)%nat.
  rewrite (wait_break _ _ _ _ st) by (try done; rewrite Hs; by left).
  rewrite Hs. simpl. unfold bind, call, lift, ret. rewrite Hres, Hrows. eauto.
Qed.

Lemma execute_Some_inv fuel query query_name t rows t' :
  execute_athena_query fuel query query_name t = (Ok (Some rows), t') ->
  exists k results, (k < fuel)%nat /\ succeeds query k results rows.
Proof.
  unfold execute_athena_query, try_except, bind at 1, call at 1.
  destruct (start_query_execution _ _ _ _) as [id|e] eqn:Hid; [|by intros [=]].
  unfold bind at 1.
  destruct (wait_for_query fuel id 0 _) as [r t1] eqn:Hw.
  destruct r as [st|e|]; [|by intros [=]..].
  apply wait_ends in Hw as (k & Hk & Hp & -> & [(st' & [= <-] & Hst & Ht)|(e & [=] & _)]);
    [|done].
  destruct (String.eqb (State st) "SUCCEEDED") eqn:Hs; simpl; [|by intros [=]].
  apply String.eqb_eq in Hs.
  unfold bind, call, lift, ret.
  destruct (get_query_results athena id) as [results|e] eqn:Hres; [|by intros [=]].
  destruct (parse_results results) as [rows'|e|] eqn:Hrows; intros [=]; subst.
  exists k, results. split; [done|]. split; [|done]. exists id, st. eauto 10.
Qed.

Lemma execute_fails fuel query query_name k t :
  fails query k -> (k < fuel)%nat ->
  exists t', execute_athena_query fuel query query_name t = (Ok None, t').
Proof.
  intros Hf Hk.
  unfold execute_athena_query, try_except, bind at 1, call at 1.
  destruct Hf as [[_ [e He]]|(id & Hid & Hp & Hend)].
  { rewrite He. unfold ret. eauto. }
  rewrite Hid. unfold bind at 1.
  replace fuel with (k + S (fuel - S k))%nat by lia.
  rewrite wait_pending by done. simpl (0 + k)%nat.
  destruct Hend as [[e He]|(st & Hst & Hend)].
  { rewrite (wait_raise _ _ _ _ e) by done. unfold ret. eauto. }
  destruct Hend as [[Ht Hs]|[Hs Hend]].
  { rewrite (wait_break _ _ _ _ st) by done.
    apply String.eqb_neq in Hs. rewrite Hs. simpl. unfold ret. eauto. }
  rewrite (wait_break _ _ _ _ st) by (try done; rewrite Hs; by left).
  rewrite Hs. simpl. unfold bind, call, lift, ret.
  destruct Hend as [[e He]|(results & e & Hres & He)].
  - rewrite He. eauto.
  - rewrite Hres, He. eauto.
Qed.

Lemma execute_None_inv fuel query query_name t t' :
  execute_athena_query fuel query query_name t = (Ok None, t') ->
  exists k, fails query k.
Proof.
  unfold execute_athena_query, try_except, bind at 1, call at 1.
  destruct (start_query_execution _ _ _ _) as [id|e] eqn:Hid.
  2:{ intros _. exists 0%nat. left. eauto. }
  unfold bind at 1.
  destruct (wait_for_query fuel id 0 _) as [r t1] eqn:Hw.
  destruct r as [st|e|]; [| |by intros [=]].
  - apply wait_ends in Hw as (k & Hk & Hp & -> & [(st' & [= <-] & Hst & Ht)|(e & [=] & _)]);
      [|done].
    intros H. exists k. right. exists id. split; [done|]. split; [done|].
    right. exists st. split; [done|].
    destruct (String.eqb (State st) "SUCCEEDED") eqn:Hs; simpl in H.
    + apply String.eqb_eq in Hs. right. split; [done|].
      unfold bind, call, lift, ret in H.
      destruct (get_query_results athena id) as [results|e] eqn:Hres; [|eauto].
      pose proof (parse_results_not_Diverge py_int py_float results).
      destruct (parse_results results) as [rows'|e|] eqn:Hrows; [by simplify_eq| |done].
      right. eauto.
    + apply String.eqb_neq in Hs. by left.
  - apply wait_ends in Hw as (k & Hk & Hp & -> & [(st' & [=] & _)|(e' & [= <-] & He)]);
      [|done].
    intros _. exists k. right. exists id. eauto 10.
Qed.

End Execute.

(** ** The loops over the query dictionaries *)

Section Dashboard.
Context {F : Type} (py_int : string -> option Z) (py_float : string -> option F).
Context (athena : athena_client).

Local Abbreviation execute_athena_query := (execute_athena_query py_int py_float athena).
Local Abbreviation run_queries := (run_queries py_int py_float athena).
Local Abbreviation outcome := (outcome py_int py_float athena).
Local Abbreviation effects := (effects py_int py_float athena).

Lemma execute_eq fuel query query_name t :
  execute_athena_query fuel query query_name t
  = (outcome fuel query, t ++ effects fuel query).
Proof. apply (appends_execute py_int py_float athena fuel query ""). Qed.

Lemma outcome_not_Raise fuel query e : outcome fuel query <> Raise e.
Proof.
  unfold outcome. intros H.
  destruct (execute_athena_query fuel query "" []) as [r t'] eqn:E.
  simpl in H. subst. by eapply execute_not_Raise.
Qed.

Lemma started_wait fuel id n t :
  started (snd (wait_for_query athena fuel id n t)) = started t.
Proof.
  revert n t. induction fuel as [|fuel IH]; intros n t; [done|].
  simpl. unfold bind at 1, call.
  destruct (get_query_execution athena id n) as [st|e]; simpl.
  - destruct (is_terminal (State st)); simpl.
    + unfold started. rewrite omap_app. simpl. by rewrite app_nil_r.
    + unfold bind, sleep. rewrite IH.
      unfold started. rewrite !omap_app. simpl. by rewrite !app_nil_r.
  - unfold started. rewrite omap_app. simpl. by rewrite app_nil_r.
Qed.

Lemma started_snoc t ev :
  started (t ++ [ev]) = started t ++ match ev with EvStart q => [q] | _ => [] end.
Proof. unfold started. rewrite omap_app. by destruct ev. Qed.

Lemma started_effects fuel query : started (effects fuel query) = [query].
Proof.
  unfold effects, execute_athena_query, try_except, bind at 1, call at 1.
  destruct (start_query_execution _ _ _ _) as [id|e]; [|done].
  unfold bind at 1.
  pose proof (started_wait fuel id 0 ([] ++ [EvStart query])) as Hs.
  destruct (wait_for_query athena fuel id 0 _) as [r t1]. simpl in Hs.
  destruct r as [st|e|]; [|done..].
  destruct (negb _); [done|].
  unfold bind, call, lift, ret.
  destruct (get_query_results athena id) as [results|e]; simpl.
  - destruct (parse_results _ _ results); simpl; by rewrite started_snoc, app_nil_r.
  - by rewrite started_snoc, app_nil_r.
Qed.

(** One round of the loop of lines 225-229. *)
Lemma run_queries_cons fuel query_name query items d t :
  run_queries fuel ((query_name, query) :: items) d t
  = match outcome fuel query with
    | Ok results => run_queries fuel items (keep_rows d query_name results)
                      (t ++ effects fuel query)
    | Raise e => (Raise e, t ++ effects fuel query)
    | Diverge => (Diverge, t ++ effects fuel query)
    end.
Proof.
  simpl. unfold bind at 1. rewrite execute_eq.
  by destruct (outcome fuel query) as [[rows|]| |].
Qed.

Lemma run_queries_cons_Ok fuel query_name query items d t doc t' :
  run_queries fuel ((query_name, query) :: items) d t = (Ok doc, t') ->
  exists results,
    outcome fuel query = Ok results /\
    run_queries fuel items (keep_rows d query_name results) (t ++ effects fuel query)
    = (Ok doc, t').
Proof.
  rewrite run_queries_cons.
  destruct (outcome fuel query) as [results| |]; [eauto|done..].
Qed.

Lemma run_queries_not_Raise fuel items d t e t' :
  run_queries fuel items d t <> (Raise e, t').
Proof.
  revert d t. induction items as [|[name query] items IH]; intros d t; [done|].
  rewrite run_queries_cons.
  pose proof (outcome_not_Raise fuel query) as Hr.
  destruct (outcome fuel query) as [results|e'|]; [apply IH| |done].
  by destruct (Hr e').
Qed.

(** With fuel enough for every query, the loop comes to its end. *)
Lemma run_queries_total fuel items d t :
  Forall (fun item => outcome fuel (snd item) <> Diverge) items ->
  exists doc t', run_queries fuel items d t = (Ok doc, t').
Proof.
  revert d t. induction items as [|[name query] items IH]; intros d t Hall.
  - simpl. unfold ret. eauto.
  - apply Forall_cons in Hall as [Hq Hall]. simpl in Hq.
    rewrite run_queries_cons.
    pose proof (outcome_not_Raise fuel query) as Hr.
    destruct (outcome fuel query) as [results|e'|]; [by apply IH| |done].
    by destruct (Hr e').
Qed.

(** Every query of the dictionary is started, in order, whatever the others
    came to. *)
Lemma run_queries_started fuel items d t doc t' :
  run_queries fuel items d t = (Ok doc, t') ->
  started t' = started t ++ (snd <$> items).
Proof.
  revert d t. induction items as [|[name query] items IH]; intros d t.
  - intros [= <- <-]. by rewrite app_nil_r.
  - intros (results & _ & H)%run_queries_cons_Ok.
    apply IH in H as ->. unfold started at 1. rewrite omap_app.
    fold (started t). fold (started (effects fuel query)).
    by rewrite started_effects, <- app_assoc.
Qed.

(** A name the loop does not go through keeps what it had. *)
Lemma run_queries_other fuel items d t doc t' name :
  run_queries fuel items d t = (Ok doc, t') ->
  name ∉ fst <$> items ->
  dict_get doc name = dict_get d name.
Proof.
  revert d t. induction items as [|[name' query] items IH]; intros d t.
  - by intros [= <- <-].
  - intros (results & _ & H)%run_queries_cons_Ok Hnot.
    apply not_elem_of_cons in Hnot as [Hne Hnot]. simpl in Hne.
    rewrite (IH _ _ H Hnot). destruct results as [rows|]; [|done].
    simpl. by apply dict_get_set_ne.
Qed.

(** A name the loop goes through once ends as its own query decides. *)
Lemma run_queries_get fuel items d t doc t' name query :
  NoDup (fst <$> items) ->
  run_queries fuel items d t = (Ok doc, t') ->
  (name, query) ∈ items ->
  exists results,
    outcome fuel query = Ok results /\
    dict_get doc name = match results with
                        | Some rows => Some rows
                        | None => dict_get d name
                        end.
Proof.
  revert d t. induction items as [|[name' query'] items IH]; intros d t Hnd Hrun Hin.
  - by apply elem_of_nil in Hin.
  - apply NoDup_cons in Hnd as [Hfresh Hnd].
    apply run_queries_cons_Ok in Hrun as (results & Hres & Hrun).
    apply elem_of_cons in Hin as [[= <- <-]|Hin].
    + exists results. split; [done|].
      rewrite (run_queries_other _ _ _ _ _ _ name Hrun Hfresh).
      destruct results as [rows|]; [apply dict_get_set_eq|done].
    + destruct (IH _ _ Hnd Hrun Hin) as (results' & Hres' & Hget).
      exists results'. split; [done|]. rewrite Hget.
      destruct results' as [rows'|]; [done|].
      destruct results as [rows|]; [|done]. simpl.
      apply dict_get_set_ne. intros ->. apply Hfresh.
      apply list_elem_of_fmap. by exists (name, query).
Qed.

End Dashboard.

(** *** [generate_data.py] *)

Section Data.
Context {F : Type}.
Context (read_sql_query : string -> string -> string -> bool -> answer (dataframe F)).

Local Abbreviation run_query := (run_query read_sql_query).
Local Abbreviation run_all := (run_all read_sql_query).
Local Abbreviation rows_of := (rows_of read_sql_query).

Lemma run_query_eq name sql t :
  run_query name sql t = (Ok (rows_of sql), t ++ [EvReadSql sql]).
Proof.
  unfold run_query, rows_of, try_except, bind, call, ret.
  by destruct (read_sql_query sql DB_NAME S3_OUTPUT false).
Qed.

Lemma run_all_cons name sql items d t :
  run_all ((name, sql) :: items) d t
  = run_all items (dict_set d name (rows_of sql)) (t ++ [EvReadSql sql]).
Proof. simpl. unfold bind at 1. by rewrite run_query_eq. Qed.

(** The loop always comes to its end. *)
Lemma run_all_total items d t : exists doc t', run_all items d t = (Ok doc, t').
Proof.
  revert d t. induction items as [|[name sql] items IH]; intros d t.
  - simpl. unfold ret. eauto.
  - rewrite run_all_cons. apply IH.
Qed.

Lemma run_all_read_sqls items d t doc t' :
  run_all items d t = (Ok doc, t') ->
  read_sqls t' = read_sqls t ++ (snd <$> items).
Proof.
  revert d t. induction items as [|[name sql] items IH]; intros d t.
  - intros [= <- <-]. by rewrite app_nil_r.
  - rewrite run_all_cons. intros ->%IH.
    unfold read_sqls. rewrite omap_app. simpl. by rewrite <- app_assoc.
Qed.

Lemma run_all_other items d t doc t' name :
  run_all items d t = (Ok doc, t') ->
  name ∉ fst <$> items ->
  dict_get doc name = dict_get d name.
Proof.
  revert d t. induction items as [|[name' sql] items IH]; intros d t.
  - by intros [= <- <-].
  - rewrite run_all_cons. intros H Hnot.
    apply not_elem_of_cons in Hnot as [Hne Hnot]. simpl in Hne.
    rewrite (IH _ _ H Hnot). by apply dict_get_set_ne.
Qed.

Lemma run_all_get items d t doc t' name sql :
  NoDup (fst <$> items) ->
  run_all items d t = (Ok doc, t') ->
  (name, sql) ∈ items ->
  dict_get doc name = Some (rows_of sql).
Proof.
  revert d t. induction items as [|[name' sql'] items IH]; intros d t Hnd Hrun Hin.
  - by apply elem_of_nil in Hin.
  - apply NoDup_cons in Hnd as [Hfresh Hnd]. rewrite run_all_cons in Hrun.
    apply elem_of_cons in Hin as [[= <- <-]|Hin].
    + rewrite (run_all_other _ _ _ _ _ name Hrun Hfresh). apply dict_get_set_eq.
    + by apply (IH _ _ Hnd Hrun Hin).
Qed.

Lemma run_all_keyset items d t doc t' :
  run_all items d t = (Ok doc, t') ->
  keyset doc = keyset d ∪ list_to_set (fst <$> items).
Proof.
  revert d t. induction items as [|[name sql] items IH]; intros d t.
  - intros [= <- <-]. simpl. set_solver.
  - rewrite run_all_cons. intros ->%IH. rewrite dict_keys_set. simpl. set_solver.
Qed.

End Data.

(** ** Cells *)

Lemma str_contains_spec c s : str_contains c s = true <-> c ∈ chars s.
Proof.
  unfold chars. induction s as [|a s IH]; simpl.
  - split; [done|by intros ?%elem_of_nil].
  - rewrite elem_of_cons. destruct (Ascii.eqb a c) eqn:E.
    + apply Ascii.eqb_eq in E. split; auto.
    + apply Ascii.eqb_neq in E. rewrite IH. split; [auto|]. intros [->|?]; done.
Qed.

Lemma str_contains_false c s : str_contains c s = false <-> c ∉ chars s.
Proof. rewrite <- str_contains_spec. by destruct (str_contains c s). Qed.

Section Cells.
Context {F : Type} (py_int : string -> option Z) (py_float : string -> option F).

Local Abbreviation stored_value := (stored_value py_int py_float).

Lemma cell_value_stored payload : stored_value payload (cell_value py_int py_float payload).
Proof.
  destruct payload as [s|]; simpl; [|constructor].
  destruct (str_contains "." s) eqn:E.
  - apply str_contains_spec in E.
    destruct (py_float s) eqn:Ef; by constructor.
  - apply str_contains_false in E.
    destruct (py_int s) eqn:Ei; by constructor.
Qed.

(** The relation leaves no choice: it is the function of the code. *)
Lemma stored_value_unique payload v :
  stored_value payload v -> v = cell_value py_int py_float payload.
Proof.
  destruct 1 as [s f Hd Hf|s z Hd Hi|s Hd Hf|s Hd Hi|]; simpl; [..|done].
  - apply str_contains_spec in Hd. by rewrite Hd, Hf.
  - apply str_contains_false in Hd. by rewrite Hd, Hi.
  - apply str_contains_spec in Hd. by rewrite Hd, Hf.
  - apply str_contains_false in Hd. by rewrite Hd, Hi.
Qed.

End Cells.

(** ** The sample builtins *)

Example sample_int_ex :
  sample_int "42" = Some 42 /\ sample_int "-7" = Some (-7) /\
  sample_int "1e5" = None /\ sample_int "" = None /\ sample_int "UK" = None.
Proof. by vm_compute. Qed.

Example sample_float_ex :
  sample_float "12.50" = Some {| mantissa := 1250; places := 2 |} /\
  sample_float "-0.5" = Some {| mantissa := -5; places := 1 |} /\
  sample_float "1.2.3" = None /\ sample_float "." = None /\
  sample_repr {| mantissa := 1250; places := 2 |} = "12.50" /\
  sample_repr {| mantissa := -5; places := 1 |} = "-0.5".
Proof. by vm_compute. Qed.

(** * The claims *)

(** ** The polling loop *)

Lemma wait_terminates (athena : athena_client) id k :
  forall n st,
    get_query_execution athena id (n + k) = Returns st -> terminal_state (State st) ->
    exists j r, (j <= k)%nat /\ r <> Diverge /\
      forall fuel t, (j < fuel)%nat ->
        wait_for_query athena fuel id n t = (r, t ++ rounds id j ++ [EvPoll id]).
Proof.
  induction k as [|k IH]; intros n st Hst Ht.
  - rewrite Nat.add_0_r in Hst. exists 0%nat, (Ok st).
    split; [lia|]. split; [done|]. intros [|fuel] t Hf; [lia|].
    by apply wait_break.
  - destruct (get_query_execution athena id n) as [st0|e] eqn:H0.
    + destruct (is_terminal (State st0)) eqn:Ht0.
      * apply is_terminal_spec in Ht0. exists 0%nat, (Ok st0).
        split; [lia|]. split; [done|]. intros [|fuel] t Hf; [lia|].
        by apply wait_break.
      * apply is_terminal_false in Ht0.
        destruct (IH (S n) st) as (j & r & Hj & Hr & Hrun); [|done|].
        { by replace (S n + k)%nat with (n + S k)%nat by lia. }
        exists (S j), r. split; [lia|]. split; [done|].
        intros [|fuel] t Hf; [lia|].
        rewrite (wait_step _ _ _ _ st0) by done.
        rewrite Hrun by lia. by rewrite <- app_assoc.
    + exists 0%nat, (Raise e). split; [lia|]. split; [done|].
      intros [|fuel] t Hf; [lia|]. by apply wait_raise.
Qed.

(** C4.  The loop of [execute_athena_query] polls, and sleeps two seconds
    after every poll that reports a state other than SUCCEEDED, FAILED and
    CANCELLED.  It hands over a status exactly when some poll reports one of
    the three, all polls before it having reported other states.  If some
    poll reports one of the three, the loop ends within that many rounds.  A
    loop that has ended has seen such a report, or the poll itself raised:
    while neither happens it goes on, however long. *)
Theorem polling_loop_until_terminal_state (athena : athena_client) (id : string) :
  (forall fuel t st t',
     wait_for_query athena fuel id 0 t = (Ok st, t') <->
     exists k, (k < fuel)%nat /\ pending athena id 0 k /\
       get_query_execution athena id k = Returns st /\
       terminal_state (State st) /\
       t' = t ++ rounds id k ++ [EvPoll id])
  /\ (forall k st,
        get_query_execution athena id k = Returns st -> terminal_state (State st) ->
        exists j r, (j <= k)%nat /\ r <> Diverge /\
          forall fuel t, (j < fuel)%nat ->
            wait_for_query athena fuel id 0 t = (r, t ++ rounds id j ++ [EvPoll id]))
  /\ (forall fuel t r t',
        wait_for_query athena fuel id 0 t = (r, t') -> r <> Diverge ->
        exists k, (k < fuel)%nat /\ pending athena id 0 k /\
          ((exists st, get_query_execution athena id k = Returns st /\
                       terminal_state (State st))
           \/ exists e, get_query_execution athena id k = Raises e))
  /\ (forall fuel t,
        pending athena id 0 fuel ->
        wait_for_query athena fuel id 0 t = (Diverge, t ++ rounds id fuel)).
Proof.
  split; [|split; [|split]].
  - intros fuel t st t'. split.
    + intros H. apply wait_ends in H as (k & Hk & Hp & -> & Hend); [|done].
      destruct Hend as [(st' & [= <-] & Hst & Ht)|(e & [=] & _)].
      exists k. by rewrite Nat.add_0_l in Hst.
    + intros (k & Hk & Hp & Hst & Ht & ->).
      replace fuel with (k + S (fuel - S k))%nat by lia.
      rewrite wait_pending by done. rewrite Nat.add_0_l.
      rewrite (wait_break _ _ _ _ st) by done. by rewrite <- app_assoc.
  - intros k st Hst Ht. by apply (wait_terminates athena id k 0%nat st).
  - intros fuel t r t' H Hr.
    apply wait_ends in H as (k & Hk & Hp & _ & Hend); [|done].
    exists k. split; [done|]. split; [done|]. rewrite Nat.add_0_l in Hend.
    destruct Hend as [(st & _ & Hst & Ht)|(e & _ & He)]; eauto.
  - intros fuel t Hp. by apply wait_forever.
Qed.

(** On [athena_up] the loop of a query goes round twice and leaves at the
    third poll. *)
Lemma polling_loop_until_terminal_state_witness :
  wait_for_query athena_up 5 "id:q" 0 []
  = (Ok {| State := "SUCCEEDED"; StateChangeReason := None |},
     [EvPoll "id:q"; EvSleep 2; EvPoll "id:q"; EvSleep 2; EvPoll "id:q"])
  /\ wait_for_query athena_stuck 3 "id:q" 0 []
     = (Diverge, [EvPoll "id:q"; EvSleep 2; EvPoll "id:q"; EvSleep 2;
                  EvPoll "id:q"; EvSleep 2]).
Proof.
  split.
  - apply (proj1 (polling_loop_until_terminal_state athena_up "id:q")).
    exists 2%nat. split; [lia|]. split; [|split; [reflexivity|split; [|reflexivity]]].
    + intros i Hi. exists {| State := "RUNNING"; StateChangeReason := None |}.
      split.
      * simpl. destruct i as [|[|i]]; [reflexivity..|lia].
      * intros [H|[H|H]]; discriminate H.
    + left. reflexivity.
  - apply (proj2 (proj2 (proj2 (polling_loop_until_terminal_state athena_stuck "id:q")))).
    intros i Hi. exists {| State := "RUNNING"; StateChangeReason := None |}.
    split; [reflexivity|]. intros [H|[H|H]]; discriminate H.
Defined.

(** ** The rows of one query *)

Lemma dict_keys_set_list {V} (d : dict V) k v :
  dict_keys (dict_set d k v)
  = if decide (k ∈ dict_keys d) then dict_keys d else dict_keys d ++ [k].
Proof.
  induction d as [|[k0 v0] d IH].
  - case_decide as Hin; [by inversion Hin|done].
  - cbn [dict_set]. rewrite !dict_keys_cons. destruct (String.eqb k0 k) eqn:E.
    + apply String.eqb_eq in E as ->. rewrite dict_keys_cons. clear IH.
      case_decide as Hin; [done|]. destruct Hin. by left.
    + apply String.eqb_neq in E. rewrite dict_keys_cons, IH. clear IH.
      repeat case_decide; try done.
      * exfalso. set_solver.
      * exfalso. set_solver.
Qed.

Lemma dict_set_NoDup {V} (d : dict V) k v :
  NoDup (dict_keys d) -> NoDup (dict_keys (dict_set d k v)).
Proof.
  intros Hnd. rewrite dict_keys_set_list.
  destruct (decide (k ∈ dict_keys d)) as [Hin|Hnin]; [done|].
  apply NoDup_app. split; [done|]. split; [|apply NoDup_singleton].
  by intros x Hx ->%list_elem_of_singleton.
Qed.

Section PerQuery.
Context {F : Type} (py_int : string -> option Z) (py_float : string -> option F).
Context (athena : athena_client).

Local Abbreviation cell_value := (cell_value py_int py_float).
Local Abbreviation parse_row := (parse_row py_int py_float).
Local Abbreviation parse_results := (parse_results py_int py_float).
Local Abbreviation execute_athena_query := (execute_athena_query py_int py_float athena).
Local Abbreviation stored_value := (stored_value py_int py_float).

Lemma parse_row_NoDup columns row row_data :
  parse_row columns row = Ok row_data -> NoDup (dict_keys row_data).
Proof.
  revert row_data. induction columns as [|col columns IH] using rev_ind; intros row_data.
  - intros [= <-]. constructor.
  - intros (before & d & Hb & _ & ->)%parse_row_snoc_Ok.
    apply dict_set_NoDup. by apply IH.
Qed.

(** The rows of a result set that parses, against the rows it came from. *)
Lemma parse_results_rows results rows :
  parse_results results = Ok rows <->
  Forall2 (fun row row_data => parse_row (Label <$> ColumnInfo results) row = Ok row_data)
          (drop 1 (Rows results)) rows.
Proof. unfold parse_results. cbv zeta. apply res_map_Ok. Qed.

(** C1.  When a query gives rows, the row dictionary of every row after
    the header is there, and for every cell of it: the loop stores, under
    the lower-cased label of the cell's column, a float when the payload has
    a ['.'] and parses as one, an int when it has no ['.'] and parses as
    one, the payload itself when the conversion raises, and [None] when the
    cell has no payload; the finished row holds that value under that key,
    unless a later column with the same lower-cased label has replaced
    it. *)
Theorem cells_stored_under_lower_cased_label fuel query query_name t rows t' :
  execute_athena_query fuel query query_name t = (Ok (Some rows), t') ->
  exists k results,
    answered athena query k results /\
    forall i row, Rows results !! S i = Some row ->
      exists row_data, rows !! i = Some row_data /\
        forall j col, (Label <$> ColumnInfo results) !! j = Some col ->
          exists d v before,
            Data row !! j = Some d /\
            stored_value (VarCharValue d) v /\
            parse_row (take j (Label <$> ColumnInfo results)) row = Ok before /\
            parse_row (take (S j) (Label <$> ColumnInfo results)) row
            = Ok (dict_set before (lower col) v) /\
            ((forall j' col', (j < j')%nat ->
                (Label <$> ColumnInfo results) !! j' = Some col' ->
                lower col' <> lower col) ->
             dict_get row_data (lower col) = Some v).
Proof.
  intros (k & results & _ & Hans & Hrows)%execute_Some_inv.
  exists k, results. split; [done|]. intros i row Hrow.
  apply parse_results_rows in Hrows.
  assert (drop 1 (Rows results) !! i = Some row) as Hdrop by by rewrite lookup_drop.
  destruct (Forall2_lookup_l _ _ _ _ _ Hrows Hdrop) as (row_data & Hrd & Hparse).
  exists row_data. split; [done|]. intros j col Hcol.
  set (columns := Label <$> ColumnInfo results) in *.
  assert (length columns <= length (Data row))%nat as Hlen
    by (apply (parse_row_is_Ok py_int py_float); eauto).
  destruct (lookup_lt_is_Some_2 (Data row) j) as [d Hd].
  { apply lookup_lt_Some in Hcol. lia. }
  destruct (parse_row_take py_int py_float columns row row_data j Hparse) as [before Hb].
  exists d, (cell_value (VarCharValue d)), before.
  split; [done|]. split; [apply cell_value_stored|]. split; [done|]. split.
  - rewrite (take_S_r _ _ _ Hcol). apply parse_row_snoc_Ok.
    exists before, d. split; [done|]. split; [|done].
    rewrite length_take_le; [done|]. apply lookup_lt_Some in Hcol. lia.
  - intros Hlast. by apply (parse_row_get py_int py_float columns row row_data j).
Qed.

(** C9.  When a query gives rows, they are the row dictionaries of the rows
    of the result set after the first, in order: one fewer than the service
    returned, unless it returned none.  And a query that the service answers
    with an empty row list gives the empty list of rows, not [None]. *)
Theorem header_row_is_dropped :
  (forall fuel query query_name t rows t',
     execute_athena_query fuel query query_name t = (Ok (Some rows), t') ->
     exists k results,
       answered athena query k results /\
       Forall2 (fun row row_data =>
                  parse_row (Label <$> ColumnInfo results) row = Ok row_data)
               (drop 1 (Rows results)) rows /\
       length rows = (length (Rows results) - 1)%nat /\
       (Rows results <> [] -> S (length rows) = length (Rows results)))
  /\ (forall fuel query query_name t k results,
        answered athena query k results -> Rows results = [] -> (k < fuel)%nat ->
        exists t', execute_athena_query fuel query query_name t = (Ok (Some []), t')).
Proof.
  split.
  - intros fuel query query_name t rows t' (k & results & _ & Hans & Hrows)%execute_Some_inv.
    exists k, results. split; [done|].
    apply parse_results_rows in Hrows. split; [done|].
    apply Forall2_length in Hrows. rewrite length_drop in Hrows.
    split; [done|]. intros Hne. destruct (Rows results); [done|]. simpl in *. lia.
  - intros fuel query query_name t k results Hans Hnil Hk.
    apply (execute_succeeds py_int py_float athena fuel query query_name k results); [|done].
    split; [done|]. apply parse_results_rows. rewrite Hnil. constructor.
Qed.

(** C10.  When a query gives rows, every row dictionary has one entry per
    lower-cased column label of the result set, and no other key.  Two
    columns whose labels differ in case only have the same key, and the row
    holds under it what the last column with that key stored. *)
Theorem rows_keyed_by_lower_cased_labels fuel query query_name t rows t' :
  execute_athena_query fuel query query_name t = (Ok (Some rows), t') ->
  exists k results,
    answered athena query k results /\
    (forall row_data, row_data ∈ rows ->
       keyset row_data = list_to_set (lower <$> (Label <$> ColumnInfo results)) /\
       NoDup (dict_keys row_data)) /\
    (forall i j a b,
       (i < j)%nat ->
       (Label <$> ColumnInfo results) !! i = Some a ->
       (Label <$> ColumnInfo results) !! j = Some b ->
       same_up_to_case a b ->
       lower a = lower b /\
       forall r row row_data,
         Rows results !! S r = Some row -> rows !! r = Some row_data ->
         (forall j' col', (j < j')%nat ->
            (Label <$> ColumnInfo results) !! j' = Some col' -> lower col' <> lower b) ->
         exists d, Data row !! j = Some d /\
           dict_get row_data (lower a) = Some (cell_value (VarCharValue d))).
Proof.
  intros (k & results & _ & Hans & Hrows)%execute_Some_inv.
  exists k, results. split; [done|].
  apply parse_results_rows in Hrows.
  set (columns := Label <$> ColumnInfo results) in *. split.
  - intros row_data (r & Hr)%list_elem_of_lookup_1.
    destruct (Forall2_lookup_r _ _ _ _ _ Hrows Hr) as (row & _ & Hparse).
    split; [by eapply parse_row_keyset|by eapply parse_row_NoDup].
  - intros i j a b Hij Ha Hb Hab.
    pose proof (lower_same_up_to_case a b Hab) as Hlow. split; [done|].
    intros r row row_data Hrow Hrd Hlast.
    assert (drop 1 (Rows results) !! r = Some row) as Hdrop by by rewrite lookup_drop.
    destruct (Forall2_lookup_l _ _ _ _ _ Hrows Hdrop) as (row_data' & Hrd' & Hparse).
    pose proof (eq_trans (eq_sym Hrd) Hrd') as [= <-].
    assert (length columns <= length (Data row))%nat as Hlen
      by (apply (parse_row_is_Ok py_int py_float); eauto).
    destruct (lookup_lt_is_Some_2 (Data row) j) as [d Hd].
    { apply lookup_lt_Some in Hb. lia. }
    exists d. split; [done|]. rewrite Hlow.
    eapply (parse_row_get py_int py_float); eauto.
Qed.

End PerQuery.

Example execute_athena_up :
  execute_athena_query sample_int sample_float athena_up 5 "SELECT 1" "one" []
  = (Ok (Some sample_rows), sample_trace "SELECT 1").
Proof. vm_compute. reflexivity. Qed.

Lemma cells_stored_under_lower_cased_label_witness :
  execute_athena_query sample_int sample_float athena_up 5 "SELECT 1" "one" []
  = (Ok (Some sample_rows), sample_trace "SELECT 1")
  /\ exists k results,
    answered athena_up "SELECT 1" k results /\
    forall i row, Rows results !! S i = Some row ->
      exists row_data, sample_rows !! i = Some row_data /\
        forall j col, (Label <$> ColumnInfo results) !! j = Some col ->
          exists d v before,
            Data row !! j = Some d /\
            stored_value sample_int sample_float (VarCharValue d) v /\
            parse_row sample_int sample_float (take j (Label <$> ColumnInfo results)) row
            = Ok before /\
            parse_row sample_int sample_float (take (S j) (Label <$> ColumnInfo results)) row
            = Ok (dict_set before (lower col) v) /\
            ((forall j' col', (j < j')%nat ->
                (Label <$> ColumnInfo results) !! j' = Some col' ->
                lower col' <> lower col) ->
             dict_get row_data (lower col) = Some v).
Proof.
  split; [vm_compute; reflexivity|].
  apply (cells_stored_under_lower_cased_label sample_int sample_float athena_up
           5 "SELECT 1" "one" [] sample_rows (sample_trace "SELECT 1")).
  vm_compute. reflexivity.
Defined.

Lemma header_row_is_dropped_witness :
  (exists k results,
     answered athena_up "SELECT 1" k results /\
     Forall2 (fun row row_data =>
                parse_row sample_int sample_float (Label <$> ColumnInfo results) row
                = Ok row_data)
             (drop 1 (Rows results)) sample_rows /\
     length sample_rows = (length (Rows results) - 1)%nat /\
     (Rows results <> [] -> S (length sample_rows) = length (Rows results)))
  /\ length sample_rows = 2%nat /\ length (Rows sample_results) = 3%nat.
Proof.
  split; [|split; reflexivity].
  apply (proj1 (header_row_is_dropped sample_int sample_float athena_up)
           5%nat "SELECT 1" "one" [] sample_rows (sample_trace "SELECT 1")).
  vm_compute. reflexivity.
Defined.

Lemma rows_keyed_by_lower_cased_labels_witness :
  same_up_to_case "Country" "COUNTRY"
  /\ dict_get (V := pyval decimal)
       [("country", PyStr "FR"); ("revenue", PyFloat {| mantissa := 1250; places := 2 |});
        ("orders", PyInt 3)] "country" = Some (PyStr "FR")
  /\ exists k results,
    answered athena_up "SELECT 1" k results /\
    (forall row_data, row_data ∈ sample_rows ->
       keyset row_data = list_to_set (lower <$> (Label <$> ColumnInfo results)) /\
       NoDup (dict_keys row_data)) /\
    (forall i j a b,
       (i < j)%nat ->
       (Label <$> ColumnInfo results) !! i = Some a ->
       (Label <$> ColumnInfo results) !! j = Some b ->
       same_up_to_case a b ->
       lower a = lower b /\
       forall r row row_data,
         Rows results !! S r = Some row -> sample_rows !! r = Some row_data ->
         (forall j' col', (j < j')%nat ->
            (Label <$> ColumnInfo results) !! j' = Some col' -> lower col' <> lower b) ->
         exists d, Data row !! j = Some d /\
           dict_get row_data (lower a)
           = Some (cell_value sample_int sample_float (VarCharValue d))).
Proof.
  split; [|split; [reflexivity|]].
  - repeat (constructor;
              [first [by left | right; left; split; reflexivity
                     | right; right; split; reflexivity]|]).
    constructor.
  - apply (rows_keyed_by_lower_cased_labels sample_int sample_float athena_up
             5 "SELECT 1" "one" [] sample_rows (sample_trace "SELECT 1")).
    vm_compute. reflexivity.
Defined.

(** ** The documents *)

Lemma dict_get_elem_of {V} (d : dict V) k v : dict_get d k = Some v -> (k, v) ∈ d.
Proof.
  induction d as [|[k0 v0] d IH]; simpl; [done|].
  destruct (String.eqb k0 k) eqn:E.
  - apply String.eqb_eq in E as ->. intros [= ->]. by left.
  - intros H. right. by apply IH.
Qed.

Lemma elem_of_dict_get {V} (d : dict V) k v :
  NoDup (fst <$> d) -> (k, v) ∈ d -> dict_get d k = Some v.
Proof.
  induction d as [|[k0 v0] d IH]; intros Hnd Hin; [by apply elem_of_nil in Hin|].
  apply NoDup_cons in Hnd as [Hfresh Hnd]. simpl.
  apply elem_of_cons in Hin as [[= -> ->]|Hin].
  - by rewrite String.eqb_refl.
  - destruct (String.eqb k0 k) eqn:E; [|by apply IH].
    apply String.eqb_eq in E as ->. destruct Hfresh.
    apply list_elem_of_fmap. by exists (k, v).
Qed.

Lemma dict_get_keyset {V} (d : dict V) k v : dict_get d k = Some v -> k ∈ keyset d.
Proof. intros H. apply dict_get_is_Some. eauto. Qed.

Lemma QUERIES_NoDup : NoDup (fst <$> QUERIES).
Proof. apply (bool_decide_unpack _). vm_compute. exact I. Qed.

Lemma queries_NoDup : NoDup (fst <$> queries).
Proof. apply (bool_decide_unpack _). vm_compute. exact I. Qed.

Section Documents.
Context {F : Type} (py_int : string -> option Z) (py_float : string -> option F).
Context (float_repr : F -> string).
Context (athena : athena_client).
Context (read_sql_query : string -> string -> string -> bool -> answer (dataframe F)).
Context (open_w : string -> answer unit).

Local Abbreviation parse_row := (parse_row py_int py_float).
Local Abbreviation execute_athena_query := (execute_athena_query py_int py_float athena).
Local Abbreviation run_queries := (run_queries py_int py_float athena).
Local Abbreviation dashboard_data := (dashboard_data py_int py_float athena).
Local Abbreviation generate_dashboard_data :=
  (generate_dashboard_data py_int py_float float_repr athena open_w).
Local Abbreviation outcome := (outcome py_int py_float athena).
Local Abbreviation effects := (effects py_int py_float athena).
Local Abbreviation run_all := (run_all read_sql_query).
Local Abbreviation final_data := (final_data read_sql_query).
Local Abbreviation generate_data := (generate_data float_repr read_sql_query open_w).
Local Abbreviation rows_of := (rows_of read_sql_query).

Lemma execute_outcome fuel query query_name t r t' :
  execute_athena_query fuel query query_name t = (r, t') -> outcome fuel query = r.
Proof. rewrite (execute_eq py_int py_float athena). by intros [= <- _]. Qed.

(** What [dashboard_data] holds for a query name: the rows of its own query,
    or nothing. *)
Lemma dashboard_data_get fuel t doc t' name query :
  dashboard_data fuel t = (Ok doc, t') ->
  dict_get QUERIES name = Some query ->
  exists results, outcome fuel query = Ok results /\ dict_get doc name = results.
Proof.
  intros Hrun Hq%dict_get_elem_of.
  destruct (run_queries_get py_int py_float athena _ _ _ _ _ _ _ _ QUERIES_NoDup Hrun Hq)
    as (results & Hres & Hget).
  exists results. split; [done|]. rewrite Hget. by destruct results.
Qed.

Lemma dump_json_Raise path doc t e t' :
  dump_json float_repr open_w path doc t = (Raise e, t') -> open_w path = Raises e.
Proof. unfold dump_json. destruct (open_w path); intros [=]; by subst. Qed.

Lemma dump_json_Ok path doc t t' :
  dump_json float_repr open_w path doc t = (Ok tt, t') ->
  t' = t ++ [EvDump path (json_dumps float_repr doc)].
Proof. unfold dump_json. destruct (open_w path); intros [=]; by subst. Qed.

(** C3.  In [generate_dashboard_data.py], a query that gives rows has its
    name as a key of the document, with those rows: the row dictionaries of
    the rows of the result set after the header, in their order.  In
    [generate_data.py], a query that awswrangler answers has its name as a
    key, with the records of the data frame in the order of its rows.  With
    fuel for every polling loop, the first document is there; the second
    always is. *)
Theorem succeeded_query_keeps_its_rows :
  (forall fuel t doc t' name query rows t0 t1,
     dashboard_data fuel t = (Ok doc, t') ->
     dict_get QUERIES name = Some query ->
     execute_athena_query fuel query name t0 = (Ok (Some rows), t1) ->
     dict_get doc name = Some rows /\
     exists k results,
       answered athena query k results /\
       Forall2 (fun row row_data =>
                  parse_row (Label <$> ColumnInfo results) row = Ok row_data)
               (drop 1 (Rows results)) rows)
  /\ (forall fuel t,
        (forall name query, dict_get QUERIES name = Some query ->
                            outcome fuel query <> Diverge) ->
        exists doc t', dashboard_data fuel t = (Ok doc, t'))
  /\ (forall t doc t' name sql df,
        final_data t = (Ok doc, t') ->
        dict_get queries name = Some sql ->
        read_sql_query sql DB_NAME S3_OUTPUT false = Returns df ->
        dict_get doc name = Some (to_dict_records df) /\
        Forall2 (fun cells row_data => row_data = dict_of (zip (df_columns df) cells))
                (df_rows df) (to_dict_records df))
  /\ (forall t, exists doc t', final_data t = (Ok doc, t')).
Proof.
  split; [|split; [|split]].
  - intros fuel t doc t' name query rows t0 t1 Hrun Hq Hex.
    destruct (dashboard_data_get _ _ _ _ _ _ Hrun Hq) as (results & Hres & Hget).
    rewrite (execute_outcome _ _ _ _ _ _ Hex) in Hres. injection Hres as <-.
    split; [done|].
    apply execute_Some_inv in Hex as (k & results & _ & Hans & Hrows).
    exists k, results. split; [done|].
    by apply (parse_results_rows py_int py_float).
  - intros fuel t Hall. apply run_queries_total. apply Forall_forall.
    intros [name query] Hin. simpl. apply (Hall name).
    by apply elem_of_dict_get; [apply QUERIES_NoDup|].
  - intros t doc t' name sql df Hrun Hq%dict_get_elem_of Hdf.
    rewrite (run_all_get read_sql_query _ _ _ _ _ _ _ queries_NoDup Hrun Hq).
    unfold rows_of. rewrite Hdf. split; [done|].
    unfold to_dict_records. apply Forall2_fmap_r, Forall_Forall2_diag, Forall_true. done.
  - intros t. apply run_all_total.
Qed.
(** The keys of [dashboard_data]: the names of the queries that gave rows. *)
Lemma dashboard_data_keyset fuel t doc t' name :
  dashboard_data fuel t = (Ok doc, t') ->
  name ∈ keyset doc <->
  exists query rows, dict_get QUERIES name = Some query /\
                     outcome fuel query = Ok (Some rows).
Proof.
  intros Hrun. rewrite <- dict_get_is_Some. split.
  - intros [rows Hrows].
    destruct (decide (name ∈ fst <$> QUERIES)) as [Hin|Hnin].
    + apply list_elem_of_fmap in Hin as ([name' query] & -> & Hin). simpl in *.
      pose proof (elem_of_dict_get _ _ _ QUERIES_NoDup Hin) as Hq.
      destruct (dashboard_data_get _ _ _ _ _ _ Hrun Hq) as (results & Hres & Hget).
      exists query, rows. split; [done|]. by rewrite Hres, <- Hget, Hrows.
    + by rewrite (run_queries_other py_int py_float athena _ _ _ _ _ _ _ Hrun Hnin) in Hrows.
  - intros (query & rows & Hq & Hres).
    destruct (dashboard_data_get _ _ _ _ _ _ Hrun Hq) as (results & Hres' & Hget).
    rewrite Hget. rewrite Hres in Hres'. injection Hres' as <-. eauto.
Qed.

Lemma generate_dashboard_data_inv fuel t r t' :
  generate_dashboard_data fuel t = (r, t') -> r <> Diverge ->
  exists doc t1,
    dashboard_data fuel t = (Ok doc, t1) /\
    dump_json float_repr open_w "dashboard-data.json" doc t1 = (r, t').
Proof.
  unfold generate_dashboard_data, bind.
  destruct (dashboard_data fuel t) as [[doc|e| ] t1] eqn:Hrun.
  - eauto.
  - by apply run_queries_not_Raise in Hrun.
  - by intros [= <- _].
Qed.

Lemma generate_data_inv t r t' :
  generate_data t = (r, t') ->
  exists doc t1,
    final_data t = (Ok doc, t1) /\
    dump_json float_repr open_w "dashboard/data/dashboard-data.json" doc t1 = (r, t').
Proof.
  unfold generate_data, bind.
  destruct (run_all_total read_sql_query queries [] t) as (doc & t1 & Hrun).
  unfold final_data. rewrite Hrun. eauto.
Qed.

(** C2, as the code has it.  In [generate_dashboard_data.py] the name of a
    query that ends without rows (a call raised, the final state is FAILED or
    CANCELLED, or a row is too short) is no key of the document.  In
    [generate_data.py] the name of a query on which awswrangler raises is a
    key of the document, and its value is the empty list. *)
Theorem failed_query_key :
  (forall fuel t doc t' name query t0 t1,
     dashboard_data fuel t = (Ok doc, t') ->
     dict_get QUERIES name = Some query ->
     execute_athena_query fuel query name t0 = (Ok None, t1) ->
     (exists k, fails py_int py_float athena query k) /\
     dict_get doc name = None /\ name ∉ keyset doc)
  /\ (forall t doc t' name sql e,
        final_data t = (Ok doc, t') ->
        dict_get queries name = Some sql ->
        read_sql_query sql DB_NAME S3_OUTPUT false = Raises e ->
        dict_get doc name = Some [] /\ name ∈ keyset doc).
Proof.
  split.
  - intros fuel t doc t' name query t0 t1 Hrun Hq Hex.
    split; [by eapply execute_None_inv|].
    destruct (dashboard_data_get _ _ _ _ _ _ Hrun Hq) as (results & Hres & Hget).
    rewrite (execute_outcome _ _ _ _ _ _ Hex) in Hres. injection Hres as <-.
    split; [done|]. by apply dict_get_None.
  - intros t doc t' name sql e Hrun Hq%dict_get_elem_of He.
    pose proof (run_all_get read_sql_query _ _ _ _ _ _ _ queries_NoDup Hrun Hq) as Hget.
    unfold rows_of in Hget. rewrite He in Hget.
    split; [done|]. by eapply dict_get_keyset.
Qed.

(** C6, as the code has it.  Each script writes one JSON text, that of its
    document.  Every top-level key is a name of the script's query
    dictionary.  In [generate_data.py] the keys are all the names, on every
    run; in [generate_dashboard_data.py] they are the names of the queries
    that gave rows on that run. *)
Theorem top_level_keys_are_query_names :
  (forall fuel t t',
     generate_dashboard_data fuel t = (Ok tt, t') ->
     exists doc t1,
       dashboard_data fuel t = (Ok doc, t1) /\
       t' = t1 ++ [EvDump "dashboard-data.json" (json_dumps float_repr doc)] /\
       keyset doc ⊆ keyset QUERIES /\
       forall name,
         name ∈ keyset doc <->
         exists query rows, dict_get QUERIES name = Some query /\
                            outcome fuel query = Ok (Some rows))
  /\ (forall t t',
        generate_data t = (Ok tt, t') ->
        exists doc t1,
          final_data t = (Ok doc, t1) /\
          t' = t1 ++ [EvDump "dashboard/data/dashboard-data.json" (json_dumps float_repr doc)] /\
          keyset doc = keyset queries).
Proof.
  split.
  - intros fuel t t' (doc & t1 & Hrun & Hdump)%generate_dashboard_data_inv; [|done].
    exists doc, t1. split; [done|]. split; [by apply dump_json_Ok in Hdump|].
    split; [|intros name; by apply (dashboard_data_keyset fuel t doc t1)].
    intros name (query & rows & Hq & _)%(dashboard_data_keyset fuel t doc t1); [|done].
    by eapply dict_get_keyset.
  - intros t t' (doc & t1 & Hrun & Hdump)%generate_data_inv.
    exists doc, t1. split; [done|]. split; [by apply dump_json_Ok in Hdump|].
    rewrite (run_all_keyset read_sql_query _ _ _ _ _ Hrun). unfold keyset at 1. simpl.
    unfold keyset, dict_keys. set_solver.
Qed.

(** C7.  A query that ends without rows raises nothing in the loop: the
    loop goes on to the remaining queries with the dictionary as it was
    ([generate_dashboard_data.py]) or with the empty list under that one
    name and every other entry as it was ([generate_data.py]).  Every query
    of the dictionary is run, in order, whatever the others came to, and
    each entry of the document is decided by its own query.  A script
    raises only what opening or writing the output file raises. *)
Theorem query_failure_is_contained :
  (forall fuel query query_name t e t',
     execute_athena_query fuel query query_name t <> (Raise e, t'))
  /\ (forall fuel query_name query items d t t1,
        execute_athena_query fuel query query_name t = (Ok None, t1) ->
        run_queries fuel ((query_name, query) :: items) d t = run_queries fuel items d t1)
  /\ (forall fuel t doc t',
        dashboard_data fuel t = (Ok doc, t') ->
        started t' = started t ++ (snd <$> QUERIES) /\
        forall name query,
          dict_get QUERIES name = Some query ->
          exists results, outcome fuel query = Ok results /\ dict_get doc name = results)
  /\ (forall fuel t e t',
        generate_dashboard_data fuel t = (Raise e, t') ->
        open_w "dashboard-data.json" = Raises e)
  /\ (forall name sql items d t e,
        read_sql_query sql DB_NAME S3_OUTPUT false = Raises e ->
        run_all ((name, sql) :: items) d t
        = run_all items (dict_set d name []) (t ++ [EvReadSql sql]) /\
        forall name', name <> name' -> dict_get (dict_set d name []) name' = dict_get d name')
  /\ (forall t doc t',
        final_data t = (Ok doc, t') ->
        read_sqls t' = read_sqls t ++ (snd <$> queries) /\
        forall name sql,
          dict_get queries name = Some sql -> dict_get doc name = Some (rows_of sql))
  /\ (forall t e t',
        generate_data t = (Raise e, t') ->
        open_w "dashboard/data/dashboard-data.json" = Raises e).
Proof.
  split; [|split; [|split; [|split; [|split; [|split]]]]].
  - intros fuel query query_name t e t'. apply execute_not_Raise.
  - intros fuel query_name query items d t t1 Hex.
    rewrite run_queries_cons.
    rewrite (execute_eq py_int py_float athena) in Hex. by injection Hex as -> <-.
  - intros fuel t doc t' Hrun. split.
    + by eapply run_queries_started.
    + intros name query Hq. by eapply dashboard_data_get.
  - intros fuel t e t' (doc & t1 & _ & Hdump)%generate_dashboard_data_inv; [|done].
    by eapply dump_json_Raise.
  - intros name sql items d t e He. split.
    + rewrite run_all_cons. unfold rows_of. by rewrite He.
    + intros name' Hne. by apply dict_get_set_ne.
  - intros t doc t' Hrun. split.
    + by eapply run_all_read_sqls.
    + intros name sql Hq%dict_get_elem_of.
      by apply (run_all_get read_sql_query _ _ _ _ _ _ _ queries_NoDup Hrun Hq).
  - intros t e t' (doc & t1 & _ & Hdump)%generate_data_inv. by eapply dump_json_Raise.
Qed.

End Documents.

(** ** The claims on concrete runs *)

Example dashboard_data_athena_up :
  dashboard_data sample_int sample_float athena_up 5 [] = (Ok sample_document, sample_run).
Proof. vm_compute. reflexivity. Qed.

Example dashboard_data_athena_down :
  dashboard_data sample_int sample_float athena_down 5 []
  = (Ok [], EvStart <$> (snd <$> QUERIES)).
Proof. vm_compute. reflexivity. Qed.

Example final_data_wr_down :
  final_data wr_down [] = (Ok ((fun item => (fst item, [])) <$> queries),
                           EvReadSql <$> (snd <$> queries)).
Proof. vm_compute. reflexivity. Qed.

Lemma succeeded_query_keeps_its_rows_witness :
  exists query,
    dict_get QUERIES "kpis" = Some query /\
    dashboard_data sample_int sample_float athena_up 5 [] = (Ok sample_document, sample_run) /\
    execute_athena_query sample_int sample_float athena_up 5 query "kpis" []
    = (Ok (Some sample_rows), sample_trace query) /\
    dict_get sample_document "kpis" = Some sample_rows /\
    exists k results,
      answered athena_up query k results /\
      Forall2 (fun row row_data =>
                 parse_row sample_int sample_float (Label <$> ColumnInfo results) row
                 = Ok row_data)
              (drop 1 (Rows results)) sample_rows.
Proof.
  eexists. split; [vm_compute; reflexivity|].
  split; [vm_compute; reflexivity|]. split; [vm_compute; reflexivity|].
  eapply (proj1 (succeeded_query_keeps_its_rows sample_int sample_float athena_up wr_up)
            5%nat [] sample_document sample_run "kpis" _ sample_rows []).
  - vm_compute. reflexivity.
  - vm_compute. reflexivity.
  - vm_compute. reflexivity.
Defined.

(** C2, against the claim as it stands: on an Athena that refuses every
    query, the document of [generate_data.py] has the key ["kpis"] all the
    same. *)
Lemma failed_query_key_present_in_generate_data :
  exists sql e doc t',
    dict_get queries "kpis" = Some sql /\
    wr_down sql DB_NAME S3_OUTPUT false = Raises e /\
    final_data wr_down [] = (Ok doc, t') /\
    dict_get doc "kpis" = Some [] /\
    dict_get doc "kpis" <> None.
Proof.
  eexists _, _, _, _. split; [vm_compute; reflexivity|].
  split; [reflexivity|]. split; [vm_compute; reflexivity|].
  split; [reflexivity|]. discriminate.
Qed.

Lemma failed_query_key_witness :
  exists query t1,
    dict_get QUERIES "kpis" = Some query /\
    execute_athena_query sample_int sample_float athena_down 5 query "kpis" [] = (Ok None, t1) /\
    (exists k, fails sample_int sample_float athena_down query k) /\
    dict_get (V := list (dict (pyval decimal))) [] "kpis" = None /\
    "kpis" ∉ keyset (V := list (dict (pyval decimal))) [].
Proof.
  eexists _, _. split; [vm_compute; reflexivity|]. split; [vm_compute; reflexivity|].
  eapply (proj1 (failed_query_key sample_int sample_float athena_down wr_down)
            5%nat [] [] _ "kpis" _ []).
  - vm_compute. reflexivity.
  - vm_compute. reflexivity.
  - vm_compute. reflexivity.
Defined.

(** C6, against the claim as it stands: the key set of the document of
    [generate_dashboard_data.py] is one on an Athena that runs the queries
    and another on one that refuses them. *)
Lemma top_level_keys_vary_with_outcomes :
  exists doc_up t_up doc_down t_down,
    dashboard_data sample_int sample_float athena_up 5 [] = (Ok doc_up, t_up) /\
    dashboard_data sample_int sample_float athena_down 5 [] = (Ok doc_down, t_down) /\
    keyset doc_up <> keyset doc_down.
Proof.
  eexists _, _, _, _. split; [apply dashboard_data_athena_up|].
  split; [apply dashboard_data_athena_down|].
  intros Heq.
  assert ("kpis" ∈ keyset sample_document) as Hin.
  { eapply dict_get_keyset. vm_compute. reflexivity. }
  pose proof (eq_ind _ (fun keys => "kpis" ∈ keys) Hin _ Heq) as Hin'.
  revert Hin'. unfold keyset, dict_keys. simpl. apply not_elem_of_empty.
Qed.

Lemma top_level_keys_are_query_names_witness :
  exists query t',
    dict_get QUERIES "kpis" = Some query /\
    generate_dashboard_data sample_int sample_float sample_repr (athena_but query) writable 5 []
    = (Ok tt, t') /\
    exists doc t1,
      dashboard_data sample_int sample_float (athena_but query) 5 [] = (Ok doc, t1) /\
      t' = t1 ++ [EvDump "dashboard-data.json" (json_dumps sample_repr doc)] /\
      keyset doc ⊆ keyset QUERIES /\
      forall name,
        name ∈ keyset doc <->
        exists query' rows, dict_get QUERIES name = Some query' /\
          outcome sample_int sample_float (athena_but query) 5 query' = Ok (Some rows).
Proof.
  eexists _, _. split; [vm_compute; reflexivity|]. split; [vm_compute; reflexivity|].
  eapply (proj1 (top_level_keys_are_query_names sample_int sample_float sample_repr
                   (athena_but _) wr_up writable) 5%nat []).
  vm_compute. reflexivity.
Defined.

Lemma query_failure_is_contained_witness :
  exists query t1,
    dict_get QUERIES "kpis" = Some query /\
    execute_athena_query sample_int sample_float (athena_but query) 5 query "kpis" []
    = (Ok None, t1) /\
    run_queries sample_int sample_float (athena_but query) 5
      [("kpis", query); ("one", "SELECT 1")] [] []
    = run_queries sample_int sample_float (athena_but query) 5 [("one", "SELECT 1")] [] t1.
Proof.
  eexists _, _. split; [vm_compute; reflexivity|]. split; [vm_compute; reflexivity|].
  eapply (proj1 (proj2 (query_failure_is_contained sample_int sample_float sample_repr
                          (athena_but _) wr_up writable))
            5%nat "kpis" _ [("one", "SELECT 1")] [] []).
  vm_compute. reflexivity.
Defined.

(** ** The two scripts side by side *)

Lemma keyset_QUERIES :
  keyset QUERIES = list_to_set ["kpis"; "monthly_sales"; "monthly_revenue";
    "monthly_revenue_by_country"; "country_revenue"; "top_products"; "rfm_analysis";
    "cohort_analysis"; "market_basket"].
Proof. reflexivity. Qed.

Lemma keyset_queries :
  keyset queries = list_to_set ["kpis"; "monthly_sales"; "monthly_revenue_by_country";
    "top_products"; "rfm_analysis"; "market_basket"; "cohort_analysis"; "country_revenue"].
Proof. reflexivity. Qed.

Lemma queries_names_in_QUERIES : keyset queries = keyset QUERIES ∖ {["monthly_revenue"]}.
Proof.
  rewrite keyset_QUERIES, keyset_queries. apply set_eq. intros name.
  rewrite elem_of_difference, !elem_of_list_to_set, !elem_of_cons, elem_of_nil,
    elem_of_singleton.
  split.
  - intros H. split; [tauto|]. intros ->.
    repeat (destruct H as [H|H]; [discriminate H|]). done.
  - tauto.
Qed.

(** C8, against the claim as it stands: [monthly_revenue] is a query of
    [generate_dashboard_data.py] only, and when Athena refuses every query
    the first script's document has no key while the second's has eight. *)
Lemma scripts_are_not_equivalent :
  keyset QUERIES <> keyset queries
  /\ exists doc1 t1 doc2 t2,
       dashboard_data sample_int sample_float athena_down 5 [] = (Ok doc1, t1) /\
       final_data wr_down [] = (Ok doc2, t2) /\
       keyset doc1 <> keyset doc2.
Proof.
  split.
  - intros Heq.
    assert ("monthly_revenue" ∈ keyset QUERIES) as Hin
      by (eapply dict_get_keyset; vm_compute; reflexivity).
    rewrite Heq, queries_names_in_QUERIES in Hin.
    apply elem_of_difference in Hin as [_ Hne]. by apply Hne, elem_of_singleton.
  - eexists _, _, _, _. split; [apply dashboard_data_athena_down|].
    split; [apply final_data_wr_down|].
    intros Heq.
    assert ("kpis" ∈ keyset ((fun item => (fst item, @nil (dict (pyval decimal)))) <$> queries))
      as Hin by (eapply dict_get_keyset; vm_compute; reflexivity).
    pose proof (eq_ind _ (fun keys => "kpis" ∈ keys) Hin _ (eq_sym Heq)) as Hin'.
    revert Hin'. unfold keyset, dict_keys. simpl. apply not_elem_of_empty.
Qed.

(** C8, as the code has it.  The query names of [generate_data.py] are
    those of [generate_dashboard_data.py] but [monthly_revenue], and under
    every shared name the two SQL texts differ.  Whatever the services do,
    every key of the first script's document is a query name of that script,
    the keys of the second script's document are all its query names, and so
    every key of the first document but [monthly_revenue] is a key of the
    second. *)
Theorem scripts_share_query_names :
  keyset queries = keyset QUERIES ∖ {["monthly_revenue"]}
  /\ (forall name sql1 sql2,
        dict_get QUERIES name = Some sql1 -> dict_get queries name = Some sql2 ->
        sql1 <> sql2)
  /\ (forall (F : Type) (py_int : string -> option Z) (py_float : string -> option F)
             (athena : athena_client)
             (read_sql_query : string -> string -> string -> bool -> answer (dataframe F))
             fuel t1 doc1 t1' t2 doc2 t2',
        dashboard_data py_int py_float athena fuel t1 = (Ok doc1, t1') ->
        final_data read_sql_query t2 = (Ok doc2, t2') ->
        keyset doc1 ⊆ keyset QUERIES /\
        keyset doc2 = keyset queries /\
        keyset doc1 ∖ {["monthly_revenue"]} ⊆ keyset doc2).
Proof.
  split; [apply queries_names_in_QUERIES|]. split.
  - intros name sql1 sql2 H1 H2%dict_get_elem_of.
    repeat (apply elem_of_cons in H2 as [[= -> ->]|H2];
            [vm_compute in H1; injection H1 as <-; discriminate|]).
    by apply elem_of_nil in H2.
  - intros F py_int py_float athena read_sql_query fuel t1 doc1 t1' t2 doc2 t2' H1 H2.
    assert (keyset doc1 ⊆ keyset QUERIES) as Hsub.
    { intros name Hn.
      apply (dashboard_data_keyset py_int py_float athena fuel t1 doc1 t1' name H1) in Hn
        as (query & rows & Hq & _).
      by eapply dict_get_keyset. }
    assert (keyset doc2 = keyset queries) as Hall.
    { rewrite (run_all_keyset read_sql_query _ _ _ _ _ H2).
      unfold keyset, dict_keys. set_solver. }
    split; [done|]. split; [done|].
    rewrite Hall, queries_names_in_QUERIES.
    intros name [Hin Hne]%elem_of_difference.
    apply elem_of_difference. split; [by apply Hsub|done].
Qed.

Lemma scripts_share_query_names_witness :
  dashboard_data sample_int sample_float athena_up 5 [] = (Ok sample_document, sample_run)
  /\ final_data wr_down [] = (Ok ((fun item => (fst item, [])) <$> queries),
                              EvReadSql <$> (snd <$> queries))
  /\ keyset sample_document ⊆ keyset QUERIES
  /\ keyset ((fun item => (fst item, @nil (dict (pyval decimal)))) <$> queries)
     = keyset queries
  /\ keyset sample_document ∖ {["monthly_revenue"]}
     ⊆ keyset ((fun item => (fst item, @nil (dict (pyval decimal)))) <$> queries).
Proof.
  split; [vm_compute; reflexivity|]. split; [vm_compute; reflexivity|].
  eapply (proj2 (proj2 scripts_share_query_names) decimal sample_int sample_float
            athena_up wr_down 5%nat [] sample_document sample_run []).
  - vm_compute. reflexivity.
  - vm_compute. reflexivity.
Defined.

(** * The JSON round trip *)

(** ** Reading back what the writer wrote *)

Lemma str_app_cons c (a b : string) : String c a +:+ b = String c (a +:+ b).
Proof. reflexivity. Qed.

Lemma str_app_assoc (a b c : string) : (a +:+ b) +:+ c = a +:+ (b +:+ c).
Proof. induction a as [|x a IH]; [done|]. by rewrite !str_app_cons, IH. Qed.

Lemma str_app_nil_r (a : string) : a +:+ "" = a.
Proof. induction a as [|x a IH]; [done|]. by rewrite str_app_cons, IH. Qed.

Lemma reads_as_le text j n m : (n <= m)%nat -> reads_as text j n -> reads_as text j m.
Proof. intros Hle H rest fuel Hd Hf. apply H; [done|lia]. Qed.

(** *** Strings *)

Lemma scan_string_escape_char c rest :
  scan_string (escape_char c +:+ rest) = cons_char c (scan_string rest).
Proof. destruct c as [[] [] [] [] [] [] [] []]; reflexivity. Qed.

Lemma scan_string_escape_body s rest :
  scan_string (escape_body s +:+ dquote +:+ rest) = Some (s, rest).
Proof.
  induction s as [|c s IH]; [done|].
  change (escape_body (String c s)) with (escape_char c +:+ escape_body s).
  rewrite str_app_assoc, scan_string_escape_char, IH. done.
Qed.

Lemma scan_string_encode_str s rest :
  exists r, encode_str s +:+ rest = String (ascii_of_N 34) r /\ scan_string r = Some (s, rest).
Proof.
  exists (escape_body s +:+ dquote +:+ rest). split.
  - unfold encode_str. by rewrite !str_app_assoc.
  - apply scan_string_escape_body.
Qed.

Lemma reads_as_str s : reads_as (encode_str s) (JString s) 1.
Proof.
  intros rest [|fuel] _ Hf; [lia|].
  destruct (scan_string_encode_str s rest) as (r & -> & Hr).
  cbn. by rewrite Hr.
Qed.

(** *** Numbers *)

Lemma is_delimiter_not_digit c : is_delimiter c = true -> is_digit c = false.
Proof. destruct c as [[] [] [] [] [] [] [] []]; (reflexivity || discriminate). Qed.

Lemma delimited_no_digit_first rest : delimited rest -> no_digit_first rest.
Proof. destruct rest as [|c r]; [done|]. apply is_delimiter_not_digit. Qed.

Lemma span_digits_app ds rest :
  all_digits ds = true -> no_digit_first rest -> span_digits (ds +:+ rest) = (ds, rest).
Proof.
  intros Hds Hrest. induction ds as [|c ds IH].
  - destruct rest as [|c r]; [done|]. simpl in *. by rewrite Hrest.
  - simpl in Hds. apply andb_prop in Hds as [Hc Hds].
    rewrite str_app_cons. simpl. rewrite Hc, IH by done. done.
Qed.

Lemma all_digits_string_of_uint u : all_digits (NilEmpty.string_of_uint u) = true.
Proof. induction u; simpl; by rewrite ?IHu. Qed.

(** The digits of a positive number start with a digit that is not zero. *)
Lemma to_uint_head p :
  exists c ds,
    NilEmpty.string_of_uint (Pos.to_uint p) = String c ds /\
    is_digit c = true /\ code c <> 48%N /\ all_digits ds = true.
Proof.
  pose proof (DecimalPos.Unsigned.to_of (Pos.to_uint p)) as Hnorm.
  rewrite DecimalPos.Unsigned.of_to in Hnorm. simpl in Hnorm.
  pose proof (DecimalFacts.unorm_0 (Pos.to_uint p)) as Hzero.
  pose proof (DecimalPos.Unsigned.to_uint_nonzero p) as Hnz.
  assert (Decimal.nzhead (Pos.to_uint p) = Pos.to_uint p) as Hhead.
  { rewrite Hnorm at 2. symmetry. apply DecimalFacts.unorm_nzhead.
    intros Hnil. apply Hnz. rewrite Hnorm. by apply Hzero. }
  pose proof (DecimalFacts.nzhead_nonzero (Pos.to_uint p)) as Hd0.
  pose proof (DecimalPos.Unsigned.to_uint_nonnil p) as Hnil.
  rewrite Hhead in Hd0.
  destruct (Pos.to_uint p) as [|u|u|u|u|u|u|u|u|u|u]; simpl;
    try (by eexists _, _; split; [reflexivity|];
         split; [reflexivity|]; split; [discriminate|apply all_digits_string_of_uint]).
  - done.
  - by destruct (Hd0 u).
Qed.

(** The text of an integer: an optional minus, then [0] alone or digits
    that start with another one. *)
Lemma int_repr_shape z :
  exists sign body,
    int_repr z = sign +:+ body /\
    (sign = "" \/ sign = "-") /\
    (body = "0" \/
     exists c ds, body = String c ds /\ is_digit c = true /\ code c <> 48%N /\
                  all_digits ds = true).
Proof.
  unfold int_repr. destruct z as [|p|p]; simpl.
  - exists "", "0". eauto.
  - destruct (to_uint_head p) as (c & ds & Hs & Hc).
    exists "", (String c ds). split; [|eauto 10].
    pose proof (DecimalPos.Unsigned.to_uint_nonnil p). unfold NilZero.string_of_uint.
    by destruct (Pos.to_uint p).
  - destruct (to_uint_head p) as (c & ds & Hs & Hc).
    exists "-", (String c ds). split; [|eauto 10].
    pose proof (DecimalPos.Unsigned.to_uint_nonnil p). unfold NilZero.string_of_uint.
    destruct (Pos.to_uint p); [done|by rewrite <- Hs..].
Qed.

Lemma scan_tail_delimited rest :
  delimited rest -> scan_frac rest = ("", rest) /\ scan_exp rest = ("", rest).
Proof.
  destruct rest as [|c r]; [done|]. simpl.
  destruct c as [[] [] [] [] [] [] [] []]; (discriminate || done).
Qed.

Lemma is_digit_code c : is_digit c = true <-> (48 <= code c <= 57)%N.
Proof. unfold is_digit. cbv zeta. rewrite andb_true_iff, !N.leb_le. done. Qed.

Lemma scan_int_minus c t body r :
  code c <> 45%N ->
  scan_int (String c t) = Some (body, r) ->
  scan_int (String "-" (String c t)) = Some ("-" +:+ body, r).
Proof.
  intros Hc%N.eqb_neq H. unfold scan_int in *.
  change (code "-" =? 45)%N with true. rewrite Hc in H. cbv iota beta in *.
  destruct (code c =? 48)%N; [by injection H as <- <-|].
  destruct (is_digit c); [|done].
  destruct (span_digits t) as [ds' r']. by injection H as <- <-.
Qed.

Lemma scan_int_shape sign body rest :
  (sign = "" \/ sign = "-") ->
  (body = "0" \/
   exists c ds, body = String c ds /\ is_digit c = true /\ code c <> 48%N /\
                all_digits ds = true) ->
  no_digit_first rest ->
  scan_int ((sign +:+ body) +:+ rest) = Some (sign +:+ body, rest).
Proof.
  intros Hsign Hbody Hrest.
  assert (exists c t, body +:+ rest = String c t /\ code c <> 45%N /\
                      scan_int (String c t) = Some (body, rest)) as (c & t & Hct & Hc & Hs).
  { destruct Hbody as [->|(c & ds & -> & Hc & Hc0 & Hds)].
    - by exists "0"%char, rest.
    - exists c, (ds +:+ rest). apply is_digit_code in Hc as Hc'.
      split; [done|]. split; [lia|]. unfold scan_int.
      replace (code c =? 45)%N with false by (symmetry; apply N.eqb_neq; lia).
      apply N.eqb_neq in Hc0. rewrite Hc0, Hc.
      by rewrite span_digits_app. }
  destruct Hsign as [->| ->].
  - change ("" +:+ body) with body. by rewrite Hct.
  - rewrite str_app_assoc, Hct. by apply scan_int_minus.
Qed.

Lemma scan_number_int_repr z rest :
  delimited rest -> scan_number (int_repr z +:+ rest) = Some (int_repr z, rest).
Proof.
  intros Hrest. destruct (int_repr_shape z) as (sign & body & -> & Hsign & Hbody).
  unfold scan_number.
  rewrite scan_int_shape by (done || by apply delimited_no_digit_first). simpl.
  destruct (scan_tail_delimited rest Hrest) as [-> ->].
  by rewrite !str_app_nil_r.
Qed.

(** A text that [NUMBER_RE] matches reads as that number. *)
Lemma parse_value_number fuel s lexeme r :
  scan_number s = Some (lexeme, r) ->
  parse_value (S fuel) s = Some (JNumber lexeme, r).
Proof.
  intros H. destruct s as [|c s'].
  { by vm_compute in H. }
  assert (is_digit c || (code c =? 45)%N = true) as Hc.
  { unfold scan_number, scan_int in H.
    destruct (code c =? 45)%N; [by rewrite orb_true_r|].
    destruct (code c =? 48)%N eqn:E0.
    - apply N.eqb_eq in E0. rewrite orb_false_r. apply is_digit_code. lia.
    - by destruct (is_digit c). }
  destruct c as [[] [] [] [] [] [] [] []]; try discriminate Hc;
    cbn; unfold scan_literal; cbn; by rewrite H.
Qed.

Lemma reads_as_int z : reads_as (int_repr z) (JNumber (int_repr z)) 1.
Proof.
  intros rest [|fuel] Hrest Hf; [lia|].
  by apply parse_value_number, scan_number_int_repr.
Qed.

(** *** White space and the start of a value *)

Lemma skip_ws_newline_indent level rest :
  skip_ws (newline_indent level +:+ rest) = skip_ws rest.
Proof.
  revert rest. induction level as [|level IH]; intros rest; [done|].
  cbn [newline_indent]. by rewrite str_app_assoc, IH.
Qed.

Lemma delimited_newline_indent level rest : delimited (newline_indent level +:+ rest).
Proof.
  revert rest. induction level as [|level IH]; intros rest; [reflexivity|].
  cbn [newline_indent]. rewrite str_app_assoc. apply IH.
Qed.

Lemma parse_value_starts fuel s x : parse_value fuel s = Some x -> starts_value s.
Proof.
  destruct fuel as [|fuel]; [done|]. destruct s as [|c s]; [done|].
  intros H. destruct c as [[] [] [] [] [] [] [] []];
    first [by (split; [reflexivity|split; discriminate]) | by vm_compute in H].
Qed.

Lemma reads_as_starts text j n rest : reads_as text j n -> starts_value (text +:+ rest).
Proof.
  intros H. pose proof (H "" n I (le_n n)) as H0.
  apply parse_value_starts in H0. by destruct text.
Qed.

Lemma skip_ws_starts s : starts_value s -> skip_ws s = s.
Proof. destruct s as [|c s]; [done|]. intros [Hc _]. simpl. by rewrite Hc. Qed.

Lemma encode_items_head {A} (item : A -> string) level x l :
  exists tail, encode_items item level (x :: l) = item x +:+ tail.
Proof.
  destruct l as [|y l].
  - exists "". simpl. by rewrite str_app_nil_r.
  - by eexists.
Qed.

(** *** Arrays and objects *)

Lemma encode_items_one {A} (item : A -> string) level x :
  encode_items item level [x] = item x.
Proof. reflexivity. Qed.

Lemma encode_items_more {A} (item : A -> string) level x y l :
  encode_items item level (x :: y :: l)
  = item x +:+ "," +:+ newline_indent level +:+ encode_items item level (y :: l).
Proof. reflexivity. Qed.

(** After a value: the closing character ends the container, a comma goes
    on to the next item. *)
Lemma parse_elements_last fuel s acc v close rest :
  parse_value fuel s = Some (v, newline_indent close +:+ "]" +:+ rest) ->
  parse_elements (S fuel) s acc = Some (JArray (acc ++ [v]), rest).
Proof.
  intros H. cbn [parse_elements]. rewrite H. cbn [mbind option_bind].
  by rewrite skip_ws_newline_indent.
Qed.

Lemma parse_elements_next fuel s acc v level next :
  parse_value fuel s = Some (v, "," +:+ newline_indent level +:+ next) ->
  starts_value next ->
  parse_elements (S fuel) s acc = parse_elements fuel next (acc ++ [v]).
Proof.
  intros H Hnext. cbn [parse_elements]. rewrite H. cbn [mbind option_bind].
  rewrite str_app_cons. cbn [skip_ws].
  change (is_ws ",") with false. change (code "," =? 93)%N with false.
  change (code "," =? 44)%N with true. cbv iota.
  change ("" +:+ ?s) with s. by rewrite skip_ws_newline_indent, skip_ws_starts.
Qed.

Lemma parse_elements_items {A} (enc : A -> string) (j : A -> json) n level level' l :
  l <> [] ->
  Forall (fun x => reads_as (enc x) (j x) n) l ->
  forall acc rest fuel, (n + length l <= fuel)%nat ->
    parse_elements fuel
      (encode_items enc level l +:+ newline_indent level' +:+ "]" +:+ rest) acc
    = Some (JArray (acc ++ (j <$> l)), rest).
Proof.
  induction l as [|x l IH]; [done|]. intros _ [Hx Hl]%Forall_cons acc rest fuel Hf.
  destruct fuel as [|fuel]; [simpl in Hf; lia|].
  destruct l as [|y l].
  - rewrite encode_items_one.
    apply (parse_elements_last _ _ _ _ level'), Hx;
      [apply delimited_newline_indent|simpl in Hf; lia].
  - rewrite encode_items_more, !str_app_assoc.
    destruct (encode_items_head enc level y l) as [tail Htail].
    rewrite (parse_elements_next _ _ _ (j x) level
               (encode_items enc level (y :: l) +:+ newline_indent level' +:+ "]" +:+ rest)).
    + rewrite (IH ltac:(done) Hl) by (simpl in *; lia).
      by rewrite <- app_assoc.
    + apply Hx; [done|simpl in *; lia].
    + rewrite Htail, str_app_assoc. apply (reads_as_starts _ (j y) n).
      by apply Forall_cons in Hl as [Hy _].
Qed.

(** A member of an object: the key, the colon and the value. *)
Lemma parse_member fuel key text j n rest :
  reads_as text j n -> delimited rest -> (n <= fuel)%nat ->
  exists r,
    (encode_str key +:+ ": " +:+ text) +:+ rest = String (ascii_of_N 34) r /\
    scan_string r = Some (key, ": " +:+ text +:+ rest) /\
    skip_ws (" " +:+ text +:+ rest) = text +:+ rest /\
    parse_value fuel (text +:+ rest) = Some (j, rest).
Proof.
  intros Hv Hrest Hf.
  destruct (scan_string_encode_str key (": " +:+ text +:+ rest)) as (r & Hr & Hscan).
  exists r. split; [by rewrite !str_app_assoc|]. split; [done|]. split.
  - change (skip_ws (text +:+ rest) = text +:+ rest).
    by apply skip_ws_starts, (reads_as_starts _ j n).
  - by apply Hv.
Qed.

Lemma parse_members_last fuel key text j n close rest acc :
  reads_as text j n -> (n <= fuel)%nat ->
  parse_members (S fuel)
    ((encode_str key +:+ ": " +:+ text) +:+ newline_indent close +:+ "}" +:+ rest) acc
  = Some (JObject (acc ++ [(key, j)]), rest).
Proof.
  intros Hv Hf.
  destruct (parse_member fuel key text j n (newline_indent close +:+ "}" +:+ rest) Hv
              (delimited_newline_indent _ _) Hf) as (r & -> & Hscan & Hws & Hval).
  cbn [parse_members]. change (code (ascii_of_N 34) =? 34)%N with true. cbv iota.
  rewrite Hscan. cbn [mbind option_bind]. rewrite str_app_cons. cbn [skip_ws].
  change (is_ws ":") with false. change (code ":" =? 58)%N with true. cbv iota.
  rewrite Hws, Hval. cbn [mbind option_bind].
  by rewrite skip_ws_newline_indent.
Qed.

Lemma parse_members_next fuel key text j n level next acc :
  reads_as text j n -> (n <= fuel)%nat ->
  starts_value next ->
  parse_members (S fuel)
    ((encode_str key +:+ ": " +:+ text) +:+ "," +:+ newline_indent level +:+ next) acc
  = parse_members fuel next (acc ++ [(key, j)]).
Proof.
  intros Hv Hf Hnext.
  destruct (parse_member fuel key text j n ("," +:+ newline_indent level +:+ next) Hv
              ltac:(done) Hf) as (r & -> & Hscan & Hws & Hval).
  cbn [parse_members]. change (code (ascii_of_N 34) =? 34)%N with true. cbv iota.
  rewrite Hscan. cbn [mbind option_bind]. rewrite str_app_cons. cbn [skip_ws].
  change (is_ws ":") with false. change (code ":" =? 58)%N with true. cbv iota.
  rewrite Hws, Hval. cbn [mbind option_bind].
  rewrite str_app_cons. cbn [skip_ws].
  change (is_ws ",") with false. change (code "," =? 125)%N with false.
  change (code "," =? 44)%N with true. cbv iota.
  change ("" +:+ ?s) with s. by rewrite skip_ws_newline_indent, skip_ws_starts.
Qed.

Lemma starts_value_encode_str key rest : starts_value (encode_str key +:+ rest).
Proof. destruct (scan_string_encode_str key rest) as (r & -> & _). by repeat split. Qed.

Lemma parse_members_items {A} (enc : A -> string) (j : A -> json) n level level'
    (d : dict A) :
  d <> [] ->
  Forall (fun kv => reads_as (enc (snd kv)) (j (snd kv)) n) d ->
  forall acc rest fuel, (n + length d <= fuel)%nat ->
    parse_members fuel
      (encode_items (fun kv => encode_str (fst kv) +:+ ": " +:+ enc (snd kv)) level d
       +:+ newline_indent level' +:+ "}" +:+ rest) acc
    = Some (JObject (acc ++ ((fun kv => (fst kv, j (snd kv))) <$> d)), rest).
Proof.
  induction d as [|[k v] d IH]; [done|]. intros _ [Hx Hl]%Forall_cons acc rest fuel Hf.
  destruct fuel as [|fuel]; [simpl in Hf; lia|]. simpl in Hx.
  destruct d as [|[k' v'] d].
  - rewrite encode_items_one. cbn [fst snd].
    apply (parse_members_last _ _ _ _ n); [done|simpl in Hf; lia].
  - rewrite encode_items_more. cbn [fst snd]. rewrite (str_app_assoc (_ +:+ _)).
    rewrite !(str_app_assoc ","), !(str_app_assoc (newline_indent level)).
    destruct (encode_items_head
                (fun kv => encode_str (fst kv) +:+ ": " +:+ enc (snd kv)) level (k', v') d)
      as [tail Htail].
    rewrite (parse_members_next _ _ _ (j v) n); [|done|simpl in *; lia|].
    + rewrite (IH ltac:(done) Hl) by (simpl in *; lia).
      by rewrite <- app_assoc.
    + rewrite Htail. cbn [fst snd]. rewrite !str_app_assoc.
      apply starts_value_encode_str.
Qed.

(** A list reads as an array, a dictionary as an object. *)
Lemma reads_as_list {A} (enc : nat -> A -> string) (j : A -> json) n level l :
  Forall (fun x => reads_as (enc (S level) x) (j x) n) l ->
  reads_as (encode_list enc level l) (JArray (j <$> l)) (S (n + length l)).
Proof.
  intros Hl rest [|fuel] Hrest Hf; [lia|].
  destruct l as [|x l]; [done|].
  unfold encode_list. rewrite !str_app_assoc, str_app_cons.
  cbn [parse_value]. change (code "[" =? 34)%N with false.
  change (code "[" =? 123)%N with false. change (code "[" =? 91)%N with true. cbv iota.
  change ("" +:+ ?s) with s. rewrite skip_ws_newline_indent.
  destruct (encode_items_head (enc (S level)) (S level) x l) as [tail Htail].
  assert (starts_value (encode_items (enc (S level)) (S level) (x :: l)
                        +:+ newline_indent level +:+ "]" +:+ rest)) as Hstart.
  { rewrite Htail, str_app_assoc. apply (reads_as_starts _ (j x) n).
    by apply Forall_cons in Hl as [Hx _]. }
  rewrite (skip_ws_starts _ Hstart).
  destruct (encode_items _ _ _ +:+ _) as [|c r] eqn:Htext; [done|].
  destruct Hstart as (_ & Hc & _). apply N.eqb_neq in Hc. rewrite Hc.
  rewrite <- Htext.
  by rewrite (parse_elements_items (enc (S level)) j n) by (done || simpl in *; lia).
Qed.

Lemma reads_as_dict {A} (enc : nat -> A -> string) (j : A -> json) n level (d : dict A) :
  Forall (fun kv => reads_as (enc (S level) (snd kv)) (j (snd kv)) n) d ->
  reads_as (encode_dict enc level d)
           (JObject ((fun kv => (fst kv, j (snd kv))) <$> d)) (S (n + length d)).
Proof.
  intros Hl rest [|fuel] Hrest Hf; [lia|].
  destruct d as [|x d]; [done|].
  unfold encode_dict. rewrite !str_app_assoc, str_app_cons.
  cbn [parse_value]. change (code "{" =? 34)%N with false.
  change (code "{" =? 123)%N with true. cbv iota.
  change ("" +:+ ?s) with s. rewrite skip_ws_newline_indent.
  destruct (encode_items_head
              (fun kv => encode_str (fst kv) +:+ ": " +:+ enc (S level) (snd kv))
              (S level) x d) as [tail Htail].
  assert (starts_value
            (encode_items (fun kv => encode_str (fst kv) +:+ ": " +:+ enc (S level) (snd kv))
               (S level) (x :: d) +:+ newline_indent level +:+ "}" +:+ rest)) as Hstart.
  { rewrite Htail, !str_app_assoc. apply starts_value_encode_str. }
  rewrite (skip_ws_starts _ Hstart).
  destruct (encode_items _ _ _ +:+ _) as [|c r] eqn:Htext; [done|].
  destruct Hstart as (_ & _ & Hc). apply N.eqb_neq in Hc. rewrite Hc.
  rewrite <- Htext.
  by rewrite (parse_members_items (enc (S level)) j n) by (done || simpl in *; lia).
Qed.

(** *** Documents *)

Section RoundTrip.
Context {F : Type} (float_repr : F -> string).

Local Abbreviation json_of_scalar := (json_of_scalar float_repr).
Local Abbreviation json_of_row := (json_of_row float_repr).
Local Abbreviation json_of_rows := (json_of_rows float_repr).
Local Abbreviation json_of_document := (json_of_document float_repr).

(** The text json writes for a float reads back as a number. *)
Hypothesis float_repr_reads : forall f, reads_as (float_repr f) (JNumber (float_repr f)) 1.

Lemma reads_as_scalar v : reads_as (encode_scalar float_repr v) (json_of_scalar v) 1.
Proof.
  destruct v as [|[]|z|f|s|s]; simpl;
    try (by intros rest [|fuel] Hrest Hf; [lia|]).
  - apply reads_as_int.
  - apply float_repr_reads.
  - apply reads_as_str.
  - apply reads_as_str.
Qed.

Lemma reads_as_row level row :
  reads_as (encode_dict (fun _ => encode_scalar float_repr) level row)
           (json_of_row row) (2 + length row).
Proof.
  apply (reads_as_dict (fun _ => encode_scalar float_repr) json_of_scalar 1).
  apply Forall_forall. intros kv _. apply reads_as_scalar.
Qed.

Lemma reads_as_rows level rows :
  reads_as (encode_list (encode_dict (fun _ => encode_scalar float_repr)) level rows)
           (json_of_rows rows) (rows_fuel rows).
Proof.
  apply (reads_as_list (encode_dict (fun _ => encode_scalar float_repr)) json_of_row
           (2 + sum_list_with length rows)).
  apply Forall_forall. intros row Hrow.
  apply (reads_as_le _ _ (2 + length row)); [|apply reads_as_row].
  apply Nat.add_le_mono_l, (sum_list_with_in row length rows Hrow).
Qed.

Lemma reads_as_document doc :
  reads_as (json_dumps float_repr doc) (json_of_document doc) (document_fuel doc).
Proof.
  apply (reads_as_dict (encode_list (encode_dict (fun _ => encode_scalar float_repr)))
           json_of_rows (sum_list_with (fun kv => rows_fuel (snd kv)) doc)).
  apply Forall_forall. intros kv Hkv.
  apply (reads_as_le _ _ (rows_fuel (snd kv))); [|apply reads_as_rows].
  apply (sum_list_with_in kv (fun kv => rows_fuel (snd kv)) doc Hkv).
Qed.

(** The text of a document loads as the document's tree. *)
Lemma json_loads_dumps doc fuel :
  (document_fuel doc <= fuel)%nat ->
  json_loads fuel (json_dumps float_repr doc) = Some (json_of_document doc).
Proof.
  intros Hf. unfold json_loads.
  pose proof (reads_as_document doc) as Hdoc.
  rewrite skip_ws_starts.
  2:{ rewrite <- (str_app_nil_r (json_dumps _ _)). by eapply reads_as_starts. }
  rewrite <- (str_app_nil_r (json_dumps _ _)), (Hdoc "" fuel I Hf). done.
Qed.

End RoundTrip.

(** *** The shape that comes back *)

Lemma dict_set_fresh {V} (d : dict V) k v : k ∉ dict_keys d -> dict_set d k v = d ++ [(k, v)].
Proof.
  induction d as [|[k0 v0] d IH]; [done|]. rewrite dict_keys_cons.
  intros [Hne Hnin]%not_elem_of_cons. simpl.
  apply not_eq_sym, String.eqb_neq in Hne. rewrite Hne. by rewrite IH.
Qed.

Lemma dict_of_NoDup {V} (pairs : list (string * V)) :
  NoDup (fst <$> pairs) -> dict_of pairs = pairs.
Proof.
  induction pairs as [|[k v] pairs IH] using rev_ind; [done|].
  rewrite fmap_app. intros (Hnd & Hfresh & _)%NoDup_app.
  rewrite dict_of_snoc, IH by done. apply dict_set_fresh.
  intros Hin. apply (Hfresh k Hin). by left.
Qed.

Lemma keyset_dict_of {V} (pairs : list (string * V)) :
  keyset (dict_of pairs) = list_to_set (fst <$> pairs).
Proof.
  induction pairs as [|[k v] pairs IH] using rev_ind; [done|].
  rewrite dict_of_snoc, dict_keys_set, IH, fmap_app, list_to_set_app_L. simpl.
  set_solver.
Qed.

Lemma dict_get_fmap {V W} (f : V -> W) (d : dict V) k :
  dict_get ((fun kv => (fst kv, f (snd kv))) <$> d) k = f <$> dict_get d k.
Proof.
  induction d as [|[k0 v0] d IH]; [done|]. simpl.
  by destruct (String.eqb k0 k).
Qed.

Lemma fst_fmap_values {V W} (f : V -> W) (d : dict V) :
  fst <$> ((fun kv => (fst kv, f (snd kv))) <$> d) = fst <$> d.
Proof. rewrite <- list_fmap_compose. by apply list_fmap_ext. Qed.

Section Shape.
Context {F : Type} (float_repr : F -> string).

Lemma loaded_keys_row (row : dict (pyval F)) :
  loaded_keys (json_of_row float_repr row) = keyset row.
Proof. unfold json_of_row. simpl. by rewrite keyset_dict_of, fst_fmap_values. Qed.

Lemma same_shape_document (doc : dict (list (dict (pyval F)))) :
  NoDup (dict_keys doc) -> same_shape doc (json_of_document float_repr doc).
Proof.
  intros Hnd. split.
  - unfold json_of_document. simpl. by rewrite keyset_dict_of, fst_fmap_values.
  - intros name rows Hrows. exists (json_of_row float_repr <$> rows).
    split; [|split].
    + unfold json_of_document. simpl. rewrite dict_of_NoDup.
      * by rewrite dict_get_fmap, Hrows.
      * by rewrite fst_fmap_values.
    + by rewrite length_fmap.
    + apply Forall2_fmap_r, Forall_Forall2_diag, Forall_forall.
      intros row _. apply loaded_keys_row.
Qed.

End Shape.

(** *** The sample floats read back *)

Lemma all_digits_app a b : all_digits (a +:+ b) = all_digits a && all_digits b.
Proof.
  induction a as [|c a IH]; [done|]. rewrite str_app_cons. simpl.
  by rewrite IH, andb_assoc.
Qed.

Lemma all_digits_last_digits n z : all_digits (last_digits n z) = true.
Proof.
  revert z. induction n as [|n IH]; intros z; [done|].
  cbn [last_digits]. rewrite all_digits_app, IH. simpl. rewrite andb_true_r.
  apply is_digit_code.
  pose proof (Z.mod_pos_bound z 10 ltac:(lia)) as Hm.
  rewrite code_ascii_of_N by lia. lia.
Qed.

Lemma last_digits_nonempty n z : last_digits (S n) z <> "".
Proof. cbn [last_digits]. by destruct (last_digits n (z / 10)). Qed.

(** The text of an integer that is not negative has no sign. *)
Lemma int_repr_nonneg z :
  0 <= z ->
  int_repr z = "0" \/
  exists c ds, int_repr z = String c ds /\ is_digit c = true /\ code c <> 48%N /\
               all_digits ds = true.
Proof.
  intros Hz. destruct z as [|p|p]; [by left| |lia]. right.
  destruct (to_uint_head p) as (c & ds & Hs & Hc). exists c, ds. split; [|done].
  unfold int_repr. simpl. unfold NilZero.string_of_uint.
  pose proof (DecimalPos.Unsigned.to_uint_nonnil p).
  by destruct (Pos.to_uint p).
Qed.

Lemma scan_frac_digits frac rest :
  all_digits frac = true -> frac <> "" -> delimited rest ->
  scan_frac ("." +:+ frac +:+ rest) = ("." +:+ frac, rest).
Proof.
  intros Hds Hne Hrest. rewrite str_app_cons. unfold scan_frac.
  change (code "." =? 46)%N with true. cbv iota. change ("" +:+ ?s) with s.
  rewrite span_digits_app by (done || by apply delimited_no_digit_first).
  by destruct frac.
Qed.

Lemma sample_repr_reads d : reads_as (sample_repr d) (JNumber (sample_repr d)) 1.
Proof.
  intros rest [|fuel] Hrest Hf; [lia|]. apply parse_value_number.
  unfold sample_repr. cbv zeta.
  set (sign := if (mantissa d <? 0)%Z then "-" else "").
  set (body := int_repr (Z.abs (mantissa d) / 10 ^ Z.of_nat (places d))).
  set (frac := match places d with
               | O => "0"
               | S _ => last_digits (places d) (Z.abs (mantissa d) mod 10 ^ Z.of_nat (places d))
               end).
  assert (all_digits frac = true /\ frac <> "") as [Hfrac Hne].
  { subst frac. destruct (places d) as [|n]; [done|].
    split; [apply all_digits_last_digits|apply last_digits_nonempty]. }
  assert (sign = "" \/ sign = "-") as Hsign by (subst sign; destruct (_ <? _)%Z; auto).
  assert (body = "0" \/
          exists c ds, body = String c ds /\ is_digit c = true /\ code c <> 48%N /\
                       all_digits ds = true) as Hbody.
  { apply int_repr_nonneg. apply Z.div_pos; [lia|]. apply Z.pow_pos_nonneg; lia. }
  replace ((sign +:+ body +:+ "." +:+ frac) +:+ rest)
    with ((sign +:+ body) +:+ ("." +:+ frac +:+ rest))
    by (by rewrite !str_app_assoc).
  unfold scan_number. rewrite scan_int_shape by done. cbn [mbind option_bind].
  rewrite scan_frac_digits by done.
  destruct (scan_tail_delimited rest Hrest) as [_ ->].
  by rewrite str_app_nil_r, !str_app_assoc.
Qed.

(** *** The claim *)

Lemma keep_rows_NoDup {A} (d : dict A) name results :
  NoDup (dict_keys d) -> NoDup (dict_keys (keep_rows d name results)).
Proof. destruct results; [apply dict_set_NoDup|done]. Qed.

Section RoundTripClaim.
Context {F : Type} (py_int : string -> option Z) (py_float : string -> option F).
Context (float_repr : F -> string).
Context (athena : athena_client).
Context (read_sql_query : string -> string -> string -> bool -> answer (dataframe F)).
Context (open_w : string -> answer unit).

Lemma run_queries_NoDup fuel items d t doc t' :
  NoDup (dict_keys d) ->
  run_queries py_int py_float athena fuel items d t = (Ok doc, t') ->
  NoDup (dict_keys doc).
Proof.
  revert d t. induction items as [|[name query] items IH]; intros d t Hnd.
  - by intros [= <- <-].
  - intros (results & _ & H)%run_queries_cons_Ok.
    eapply IH; [|done]. by apply keep_rows_NoDup.
Qed.

Lemma run_all_NoDup items d t doc t' :
  NoDup (dict_keys d) ->
  run_all read_sql_query items d t = (Ok doc, t') ->
  NoDup (dict_keys doc).
Proof.
  revert d t. induction items as [|[name sql] items IH]; intros d t Hnd.
  - by intros [= <- <-].
  - rewrite run_all_cons. apply IH. by apply dict_set_NoDup.
Qed.

Hypothesis float_repr_reads : forall f, reads_as (float_repr f) (JNumber (float_repr f)) 1.

Lemma round_trips_NoDup doc : NoDup (dict_keys doc) -> round_trips float_repr doc.
Proof.
  intros Hnd. exists (document_fuel doc). intros fuel Hf.
  exists (json_of_document float_repr doc). split.
  - by apply json_loads_dumps.
  - by apply same_shape_document.
Qed.

(** C5.  What either script writes is the JSON text of its document, and
    reading that text back gives, under every query name of the document, a
    list with as many items as the dataset has rows, each an object with the
    keys of its row; the top-level keys are those of the document.  The text
    json writes for a float is taken to read back as a number. *)
Theorem json_round_trip_keeps_shape :
  (forall fuel t t',
     generate_dashboard_data py_int py_float float_repr athena open_w fuel t = (Ok tt, t') ->
     exists doc t1,
       dashboard_data py_int py_float athena fuel t = (Ok doc, t1) /\
       t' = t1 ++ [EvDump "dashboard-data.json" (json_dumps float_repr doc)] /\
       round_trips float_repr doc)
  /\ (forall t t',
        generate_data float_repr read_sql_query open_w t = (Ok tt, t') ->
        exists doc t1,
          final_data read_sql_query t = (Ok doc, t1) /\
          t' = t1 ++ [EvDump "dashboard/data/dashboard-data.json" (json_dumps float_repr doc)] /\
          round_trips float_repr doc).
Proof.
  split.
  - intros fuel t t' (doc & t1 & Hrun & Hdump)%generate_dashboard_data_inv; [|done].
    exists doc, t1. split; [done|]. split; [by apply dump_json_Ok in Hdump|].
    apply round_trips_NoDup. eapply run_queries_NoDup; [|exact Hrun]. constructor.
  - intros t t' (doc & t1 & Hrun & Hdump)%generate_data_inv.
    exists doc, t1. split; [done|]. split; [by apply dump_json_Ok in Hdump|].
    apply round_trips_NoDup. eapply run_all_NoDup; [|exact Hrun]. constructor.
Qed.

End RoundTripClaim.

Example json_loads_sample_document :
  json_loads 40 (json_dumps sample_repr
                   [("kpis", sample_rows); ("monthly_sales", [])])
  = Some (JObject
      [("kpis", JArray
          [JObject [("country", JString "FR"); ("revenue", JNumber "12.50");
                    ("orders", JNumber "3")];
           JObject [("country", JString "1e5"); ("revenue", JString "1.2.3");
                    ("orders", JNull)]]);
       ("monthly_sales", JArray [])]).
Proof. vm_compute. reflexivity. Qed.

Lemma json_round_trip_keeps_shape_witness :
  exists t',
    generate_dashboard_data sample_int sample_float sample_repr athena_up writable 5 []
    = (Ok tt, t') /\
    exists doc t1,
      dashboard_data sample_int sample_float athena_up 5 [] = (Ok doc, t1) /\
      t' = t1 ++ [EvDump "dashboard-data.json" (json_dumps sample_repr doc)] /\
      round_trips sample_repr doc.
Proof.
  eexists. split; [vm_compute; reflexivity|].
  eapply (proj1 (json_round_trip_keeps_shape sample_int sample_float sample_repr
                   athena_up wr_up writable sample_repr_reads) 5%nat []).
  vm_compute. reflexivity.
Defined.

(** * More of the code *)

(** ** Rows *)

Lemma zip_snoc {A B} (l : list A) (k : list B) x y :
  k !! length l = Some y -> zip (l ++ [x]) k = zip l k ++ [(x, y)].
Proof.
  revert k. induction l as [|a l IH]; intros [|b k] Hy; simplify_eq/=; [done|].
  by rewrite IH.
Qed.

Lemma dict_set_values {V} (Q : V -> Prop) (d : dict V) k v :
  Forall (fun kv => Q (snd kv)) d -> Q v ->
  Forall (fun kv => Q (snd kv)) (dict_set d k v).
Proof.
  intros Hd Hv. induction d as [|[k0 v0] d IH]; simpl.
  - by constructor.
  - apply Forall_cons in Hd as [H0 Hd].
    destruct (String.eqb k0 k); constructor; auto.
Qed.

Lemma char_lower_not_upper c : is_upper (char_lower c) = false.
Proof.
  unfold char_lower. destruct (is_upper c) eqn:E; [by apply is_upper_shift|done].
Qed.

Lemma lower_lower_case s : lower_case (lower s).
Proof.
  unfold lower_case, chars. induction s as [|c s IH]; simpl; [constructor|].
  constructor; [apply char_lower_not_upper|done].
Qed.

Lemma lower_of_lower_case s : lower_case s -> lower s = s.
Proof.
  unfold lower_case, chars. induction s as [|c s IH]; simpl; [done|].
  intros [Hc Hs]%Forall_cons. unfold char_lower. rewrite Hc. by rewrite IH.
Qed.



Section MoreRows.
Context {F : Type} (py_int : string -> option Z) (py_float : string -> option F).
Context (athena : athena_client).

Local Abbreviation cell_value := (cell_value py_int py_float).
Local Abbreviation parse_row := (parse_row py_int py_float).
Local Abbreviation parse_results := (parse_results py_int py_float).
Local Abbreviation execute_athena_query := (execute_athena_query py_int py_float athena).

(** The row dictionary depends on the cells under the columns only. *)
Lemma parse_row_ext columns row row' :
  (forall j, (j < length columns)%nat -> Data row !! j = Data row' !! j) ->
  parse_row columns row = parse_row columns row'.
Proof.
  induction columns as [|col columns IH] using rev_ind; intros Hcells; [done|].
  rewrite !parse_row_snoc, IH.
  - destruct (parse_row columns row') as [row_data| |]; [|done..]. simpl.
    unfold store_cell. simpl. rewrite Hcells; [done|]. rewrite length_app. simpl. lia.
  - intros j Hj. apply Hcells. rewrite length_app. lia.
Qed.

(** X2.  Cells beyond the last column are never read: a row gives the row
    dictionary of its first [len(columns)] cells, and with no column at all
    every row gives the empty dictionary. *)
Theorem cells_beyond_the_columns_are_ignored columns row :
  parse_row columns row = parse_row columns {| Data := take (length columns) (Data row) |}
  /\ parse_row [] row = Ok [].
Proof.
  split; [|done]. apply parse_row_ext. intros j Hj. simpl.
  by rewrite lookup_take_lt.
Qed.

(** X3.  When no two labels give the same key and the row has a cell for
    every column, the row dictionary lists the lower-cased labels in the
    order of the columns, each with the value of its cell. *)
Theorem row_is_in_column_order columns row :
  NoDup (lower <$> columns) ->
  (length columns <= length (Data row))%nat ->
  parse_row columns row
  = Ok (zip (lower <$> columns) ((fun d => cell_value (VarCharValue d)) <$> Data row)).
Proof.
  induction columns as [|col columns IH] using rev_ind; intros Hnd Hlen; [done|].
  rewrite fmap_app in Hnd. apply NoDup_app in Hnd as (Hnd & Hfresh & _).
  rewrite length_app in Hlen. simpl in Hlen.
  destruct (lookup_lt_is_Some_2 (Data row) (length columns)) as [d Hd]; [lia|].
  apply parse_row_snoc_Ok. eexists _, d. split; [apply IH; [done|lia]|]. split; [done|].
  rewrite fmap_app. simpl.
  rewrite (zip_snoc _ _ _ (cell_value (VarCharValue d))).
  2:{ by rewrite length_fmap, list_lookup_fmap, Hd. }
  symmetry. apply dict_set_fresh. unfold dict_keys.
  rewrite fst_zip by (rewrite !length_fmap; lia).
  intros Hin. apply (Hfresh _ Hin). by left.
Qed.

Lemma cell_value_plain payload : plain_value (cell_value payload).
Proof.
  destruct payload as [s|]; simpl; [|done].
  destruct (str_contains "." s); [destruct (py_float s)|destruct (py_int s)]; done.
Qed.

Lemma parse_row_plain columns row row_data :
  parse_row columns row = Ok row_data ->
  Forall (fun kv => plain_value (snd kv)) row_data.
Proof.
  revert row_data. induction columns as [|col columns IH] using rev_ind; intros row_data.
  - intros [= <-]. constructor.
  - intros (before & d & Hb & _ & ->)%parse_row_snoc_Ok.
    apply dict_set_values; [by apply IH|apply cell_value_plain].
Qed.

Lemma execute_rows_parse fuel query query_name t rows t' row_data :
  execute_athena_query fuel query query_name t = (Ok (Some rows), t') ->
  row_data ∈ rows ->
  exists columns row, parse_row columns row = Ok row_data.
Proof.
  intros (k & results & _ & _ & Hrows)%execute_Some_inv (i & Hi)%list_elem_of_lookup_1.
  apply (parse_results_rows py_int py_float) in Hrows.
  destruct (Forall2_lookup_r _ _ _ _ _ Hrows Hi) as (row & _ & Hparse). eauto.
Qed.

(** X4.  The values of the rows a query gives are [None], ints, floats and
    strings: never a bool, never another object. *)
Theorem row_values_are_plain fuel query query_name t rows t' row_data key v :
  execute_athena_query fuel query query_name t = (Ok (Some rows), t') ->
  row_data ∈ rows ->
  dict_get row_data key = Some v ->
  plain_value v.
Proof.
  intros Hex Hrow Hget.
  destruct (execute_rows_parse _ _ _ _ _ _ _ Hex Hrow) as (columns & row & Hparse).
  apply parse_row_plain in Hparse. apply dict_get_elem_of in Hget.
  by apply (proj1 (Forall_forall _ _) Hparse (key, v)).
Qed.

(** X5.  The keys of the rows a query gives have no upper-case letter, and
    lower-casing a key again changes nothing. *)
Theorem row_keys_are_lower_case fuel query query_name t rows t' row_data key :
  execute_athena_query fuel query query_name t = (Ok (Some rows), t') ->
  row_data ∈ rows ->
  key ∈ dict_keys row_data ->
  lower_case key /\ lower key = key.
Proof.
  intros Hex Hrow Hkey.
  destruct (execute_rows_parse _ _ _ _ _ _ _ Hex Hrow) as (columns & row & Hparse).
  apply (parse_row_keyset py_int py_float) in Hparse.
  assert (key ∈ keyset row_data) as Hin by by apply elem_of_list_to_set.
  rewrite Hparse in Hin. apply elem_of_list_to_set, list_elem_of_fmap in Hin as (col & -> & _).
  split; [apply lower_lower_case|]. apply lower_of_lower_case, lower_lower_case.
Qed.

(** The rows parse exactly when each has a cell for every column. *)
Lemma parse_results_is_Ok results :
  (exists rows, parse_results results = Ok rows) <->
  Forall (fun row => (length (ColumnInfo results) <= length (Data row))%nat)
         (drop 1 (Rows results)).
Proof.
  unfold parse_results. cbv zeta.
  induction (drop 1 (Rows results)) as [|row l IH]; simpl.
  - split; [constructor|eauto].
  - rewrite Forall_cons, <- IH.
    rewrite <- (length_fmap Label (ColumnInfo results)).
    rewrite <- (parse_row_is_Ok py_int py_float). split.
    + intros [rows H].
      destruct (parse_row _ row) as [row_data| |]; simpl in H; [|done..].
      destruct (res_map _ l) as [rows'| |]; simpl in H; [|done..]. eauto.
    + intros [[row_data ->] [rows' ->]]. simpl. eauto.
Qed.

(** X1.  Once the service has answered, the query gives rows exactly when
    every row after the header has a cell for every column; then there is
    one row dictionary per such row.  One row that is too short, and the
    query gives [None]: no row of the result set is kept.  The header row is
    not looked at. *)
Theorem rows_need_a_cell_per_column fuel query query_name t k results :
  answered athena query k results -> (k < fuel)%nat ->
  (Forall (fun row => (length (ColumnInfo results) <= length (Data row))%nat)
          (drop 1 (Rows results)) ->
   exists rows t',
     execute_athena_query fuel query query_name t = (Ok (Some rows), t') /\
     length rows = length (drop 1 (Rows results)))
  /\ (Exists (fun row => (length (Data row) < length (ColumnInfo results))%nat)
             (drop 1 (Rows results)) ->
      exists t', execute_athena_query fuel query query_name t = (Ok None, t')).
Proof.
  intros Hans Hk. split.
  - intros [rows Hrows]%parse_results_is_Ok.
    destruct (execute_succeeds py_int py_float athena fuel query query_name k results rows t)
      as [t' Ht']; [done..|].
    exists rows, t'. split; [done|].
    apply (parse_results_rows py_int py_float), Forall2_length in Hrows. done.
  - intros Hshort.
    apply (execute_fails py_int py_float athena fuel query query_name k); [|done].
    destruct Hans as (id & st & Hid & Hp & Hst & Hs & Hres).
    right. exists id. split; [done|]. split; [done|]. right. exists st. split; [done|].
    right. split; [done|]. right.
    pose proof (parse_results_not_Diverge py_int py_float results) as Hnd.
    destruct (parse_results results) as [rows|e|] eqn:Hrows; [|eauto|done].
    exfalso. apply Exists_exists in Hshort as (row & Hin & Hlt).
    assert (exists rows, parse_results results = Ok rows) as Hok by eauto.
    apply parse_results_is_Ok in Hok.
    pose proof (proj1 (Forall_forall _ _) Hok row Hin). simpl in *. lia.
Qed.

End MoreRows.

(** ** The calls of one query *)

Lemma slept_app t u : slept (t ++ u) = slept t + slept u.
Proof.
  induction t as [|ev t IH]; simpl; [lia|]. destruct ev; lia.
Qed.

Lemma slept_rounds id k : slept (rounds id k) = 2 * Z.of_nat k.
Proof. induction k as [|k IH]; simpl; lia. Qed.

Lemma dumped_app t u : dumped (t ++ u) = dumped t ++ dumped u.
Proof. apply omap_app. Qed.

Lemma started_app t u : started (t ++ u) = started t ++ started u.
Proof. apply omap_app. Qed.

Section MoreCalls.
Context {F : Type} (py_int : string -> option Z) (py_float : string -> option F).
Context (athena : athena_client).

Local Abbreviation wait_for_query := (wait_for_query athena).
Local Abbreviation pending := (pending athena).
Local Abbreviation parse_results := (parse_results py_int py_float).
Local Abbreviation execute_athena_query := (execute_athena_query py_int py_float athena).
Local Abbreviation run_queries := (run_queries py_int py_float athena).
Local Abbreviation outcome := (outcome py_int py_float athena).
Local Abbreviation effects := (effects py_int py_float athena).
Local Abbreviation kept := (kept py_int py_float athena).

(** X7.  A query whose [k]-th poll is the first to report a terminal state
    makes these calls and no other: the start, [k] rounds of a poll and a
    sleep of two seconds, the last poll, and the fetch of the results when
    and only when the state is SUCCEEDED.  A query that ends FAILED or
    CANCELLED gives [None]. *)
Theorem calls_of_a_query_that_ends fuel query query_name t id k st :
  start_query_execution athena query DATABASE OUTPUT_LOCATION = Returns id ->
  pending id 0 k -> (k < fuel)%nat ->
  get_query_execution athena id k = Returns st ->
  terminal_state (State st) ->
  exists results t',
    execute_athena_query fuel query query_name t = (Ok results, t') /\
    t' = t ++ EvStart query :: rounds id k ++ EvPoll id ::
           (if String.eqb (State st) "SUCCEEDED" then [EvFetch id] else []) /\
    slept t' = slept t + 2 * Z.of_nat k /\
    (State st <> "SUCCEEDED" -> results = None).
Proof.
  intros Hid Hp Hk Hst Ht.
  unfold execute_athena_query, try_except, bind at 1, call at 1. rewrite Hid.
  unfold bind at 1.
  replace fuel with (k + S (fuel - S k))%nat by lia.
  rewrite wait_pending by done. simpl (0 + k)%nat.
  rewrite (wait_break _ _ _ _ st) by done.
  assert (forall u, slept (t ++ EvStart query :: rounds id k ++ EvPoll id :: u)
                    = slept t + 2 * Z.of_nat k + slept u) as Hslept.
  { intros u. rewrite slept_app. simpl. rewrite slept_app, slept_rounds. simpl. lia. }
  destruct (String.eqb (State st) "SUCCEEDED") eqn:Hs; simpl.
  - apply String.eqb_eq in Hs. unfold bind, call, lift, ret.
    assert ((((t ++ [EvStart query]) ++ rounds id k) ++ [EvPoll id]) ++ [EvFetch id]
            = t ++ EvStart query :: rounds id k ++ [EvPoll id; EvFetch id]) as Ht'.
    { by rewrite <- !app_assoc. }
    pose proof (parse_results_not_Diverge py_int py_float) as Hnd.
    destruct (get_query_results athena id) as [res|e].
    + specialize (Hnd res).
      destruct (parse_results res) as [rows|e|]; [| |done]; rewrite Ht';
        eexists _, _; (split; [done|]); (split; [done|]);
        (split; [rewrite Hslept; simpl; lia|done]).
    + rewrite Ht'. eexists _, _. split; [done|]. split; [done|].
      split; [rewrite Hslept; simpl; lia|done].
  - unfold ret. eexists _, _. split; [done|].
    split; [by rewrite <- !app_assoc|].
    split; [|done]. rewrite <- !app_assoc. simpl. rewrite Hslept. simpl. lia.
Qed.

(** X8.  An exception of a service call ends the query at that call, with
    [None]: after a refused start nothing is polled, after a poll that
    raises nothing is fetched, and the fetch that raises is the last call. *)
Theorem query_stops_at_the_call_that_raises fuel query query_name t :
  (forall e,
     start_query_execution athena query DATABASE OUTPUT_LOCATION = Raises e ->
     execute_athena_query fuel query query_name t = (Ok None, t ++ [EvStart query]))
  /\ (forall id k e,
        start_query_execution athena query DATABASE OUTPUT_LOCATION = Returns id ->
        pending id 0 k -> (k < fuel)%nat ->
        get_query_execution athena id k = Raises e ->
        execute_athena_query fuel query query_name t
        = (Ok None, t ++ EvStart query :: rounds id k ++ [EvPoll id]))
  /\ (forall id k st e,
        start_query_execution athena query DATABASE OUTPUT_LOCATION = Returns id ->
        pending id 0 k -> (k < fuel)%nat ->
        get_query_execution athena id k = Returns st ->
        State st = "SUCCEEDED" ->
        get_query_results athena id = Raises e ->
        execute_athena_query fuel query query_name t
        = (Ok None, t ++ EvStart query :: rounds id k ++ [EvPoll id; EvFetch id])).
Proof.
  split; [|split].
  - intros e He.
    unfold execute_athena_query, try_except, bind at 1, call at 1. by rewrite He.
  - intros id k e Hid Hp Hk He.
    unfold execute_athena_query, try_except, bind at 1, call at 1. rewrite Hid.
    unfold bind at 1.
    replace fuel with (k + S (fuel - S k))%nat by lia.
    rewrite wait_pending by done. simpl (0 + k)%nat.
    rewrite (wait_raise _ _ _ _ e) by done. unfold ret.
    by rewrite <- !app_assoc.
  - intros id k st e Hid Hp Hk Hst Hs He.
    unfold execute_athena_query, try_except, bind at 1, call at 1. rewrite Hid.
    unfold bind at 1.
    replace fuel with (k + S (fuel - S k))%nat by lia.
    rewrite wait_pending by done. simpl (0 + k)%nat.
    rewrite (wait_break _ _ _ _ st) by (try done; rewrite Hs; by left).
    rewrite Hs. simpl. unfold bind, call, lift, ret. rewrite He.
    by rewrite <- !app_assoc.
Qed.

(** A query that is under way at every poll. *)
Lemma execute_stuck fuel query query_name t id :
  start_query_execution athena query DATABASE OUTPUT_LOCATION = Returns id ->
  pending id 0 fuel ->
  execute_athena_query fuel query query_name t
  = (Diverge, t ++ EvStart query :: rounds id fuel).
Proof.
  intros Hid Hp.
  unfold execute_athena_query, try_except, bind at 1, call at 1. rewrite Hid.
  unfold bind at 1. rewrite wait_forever by done. by rewrite <- app_assoc.
Qed.

Lemma dumped_wait fuel id n t :
  dumped (snd (wait_for_query fuel id n t)) = dumped t.
Proof.
  revert n t. induction fuel as [|fuel IH]; intros n t; [done|].
  simpl. unfold bind at 1, call.
  destruct (get_query_execution athena id n) as [st|e]; simpl.
  - destruct (is_terminal (State st)); simpl.
    + rewrite dumped_app. simpl. by rewrite app_nil_r.
    + unfold bind, sleep. rewrite IH, !dumped_app. simpl. by rewrite !app_nil_r.
  - rewrite dumped_app. simpl. by rewrite app_nil_r.
Qed.

Lemma dumped_effects fuel query : dumped (effects fuel query) = [].
Proof.
  unfold effects, execute_athena_query, try_except, bind at 1, call at 1.
  destruct (start_query_execution _ _ _ _) as [id|e]; [|done].
  unfold bind at 1.
  pose proof (dumped_wait fuel id 0 ([] ++ [EvStart query])) as Hs.
  destruct (wait_for_query fuel id 0 _) as [r t1]. simpl in Hs.
  destruct r as [st|e|]; [|done..].
  destruct (negb _); [done|].
  unfold bind, call, lift, ret.
  destruct (get_query_results athena id) as [results|e]; simpl.
  - destruct (parse_results results); simpl; by rewrite dumped_app, Hs.
  - by rewrite dumped_app, Hs.
Qed.

(** ** The loop of [generate_dashboard_data.py] *)

Lemma dumped_all_effects fuel (items : list (string * string)) :
  dumped (concat ((fun item => effects fuel (snd item)) <$> items)) = [].
Proof.
  induction items as [|item items IH]; [done|].
  rewrite fmap_cons. simpl. by rewrite dumped_app, dumped_effects, IH.
Qed.


Lemma run_queries_stuck fuel items i name query id d t :
  items !! i = Some (name, query) ->
  start_query_execution athena query DATABASE OUTPUT_LOCATION = Returns id ->
  pending id 0 fuel ->
  exists t' j,
    run_queries fuel items d t = (Diverge, t') /\
    (j <= i)%nat /\
    started t' = started t ++ take (S j) (snd <$> items) /\
    dumped t' = dumped t.
Proof.
  intros Hi Hid Hp. revert i d t Hi.
  induction items as [|[name0 query0] items IH]; intros i d t Hi; [done|].
  rewrite run_queries_cons.
  assert (started (t ++ effects fuel query0) = started t ++ [query0]) as Hst.
  { by rewrite started_app, started_effects. }
  assert (dumped (t ++ effects fuel query0) = dumped t) as Hdu.
  { by rewrite dumped_app, dumped_effects, app_nil_r. }
  pose proof (outcome_not_Raise py_int py_float athena fuel query0) as Hr.
  destruct i as [|i]; simpl in Hi.
  - injection Hi as -> ->.
    pose proof (execute_stuck fuel query "" [] id Hid Hp) as Hex.
    pose proof (execute_outcome py_int py_float athena _ _ _ _ _ _ Hex) as ->.
    exists (t ++ effects fuel query), 0%nat. split; [done|]. split; [lia|].
    split; [|done]. rewrite Hst. simpl. by rewrite take_0.
  - destruct (outcome fuel query0) as [results|e|].
    + destruct (IH i (keep_rows d name0 results) (t ++ effects fuel query0) Hi)
        as (t' & j & Hrun & Hj & Hs & Hd).
      exists t', (S j). split; [done|]. split; [lia|].
      rewrite Hs, Hd, Hst, Hdu, <- app_assoc. done.
    + by destruct (Hr e).
    + exists (t ++ effects fuel query0), 0%nat. split; [done|]. split; [lia|].
      split; [|done]. rewrite Hst. simpl. by rewrite take_0.
Qed.

Lemma kept_cons fuel name query items :
  kept fuel ((name, query) :: items)
  = match outcome fuel query with
    | Ok (Some rows) => (name, rows) :: kept fuel items
    | _ => kept fuel items
    end.
Proof.
  unfold kept. simpl. by destruct (outcome fuel query) as [[rows|]| |].
Qed.

(** The loop adds the queries that gave rows, in their order. *)
Lemma run_queries_kept fuel items d t doc t' :
  NoDup (fst <$> items) ->
  (forall name, name ∈ fst <$> items -> name ∉ dict_keys d) ->
  run_queries fuel items d t = (Ok doc, t') ->
  doc = d ++ kept fuel items /\
  t' = t ++ concat ((fun item => effects fuel (snd item)) <$> items).
Proof.
  revert d t. induction items as [|[name query] items IH]; intros d t Hnd Hfresh.
  - intros [= <- <-]. by rewrite !app_nil_r.
  - intros (results & Hout & Hrun)%run_queries_cons_Ok.
    rewrite fmap_cons in Hnd. apply NoDup_cons in Hnd as [Hname Hnd]. simpl in Hname.
    rewrite kept_cons, Hout. simpl.
    assert (keep_rows d name results
            = d ++ match results with Some rows => [(name, rows)] | None => [] end) as Hkeep.
    { destruct results as [rows|]; simpl; [|by rewrite app_nil_r].
      apply dict_set_fresh, Hfresh. by left. }
    apply IH in Hrun as [-> ->]; [| done |].
    + rewrite Hkeep, <- !app_assoc. by destruct results.
    + intros name' Hin. rewrite Hkeep. unfold dict_keys. rewrite fmap_app.
      intros [Hd|Hnew]%elem_of_app.
      * apply (Hfresh name'); [by right|done].
      * destruct results; simpl in Hnew; [|by inversion Hnew].
        apply list_elem_of_singleton in Hnew as ->. done.
Qed.

Lemma kept_keys fuel items :
  dict_keys (kept fuel items)
  = fst <$> List.filter (fun item => gave_rows (outcome fuel (snd item))) items.
Proof.
  induction items as [|[name query] items IH]; [done|].
  rewrite kept_cons. simpl.
  destruct (outcome fuel query) as [[rows|]| |]; simpl; [|done..].
  unfold dict_keys in *. simpl. by rewrite IH.
Qed.

Lemma kept_length fuel items :
  length (kept fuel items)
  = length (List.filter (fun item => gave_rows (outcome fuel (snd item))) items).
Proof.
  induction items as [|[name query] items IH]; [done|].
  rewrite kept_cons. simpl.
  destruct (outcome fuel query) as [[rows|]| |]; simpl; by rewrite ?IH.
Qed.

(** X9.  The document of [generate_dashboard_data.py] lists the queries
    that gave rows, in the order of [QUERIES], each with its rows; its
    length, which the script reports as the number of queries executed, is
    the number of queries that gave rows.  The calls of the run are those of
    the nine queries, one query after the other. *)
Theorem document_lists_the_queries_that_gave_rows fuel t doc t' :
  dashboard_data py_int py_float athena fuel t = (Ok doc, t') ->
  doc = kept fuel QUERIES /\
  dict_keys doc
  = (fst <$> List.filter (fun item => gave_rows (outcome fuel (snd item))) QUERIES) /\
  length doc
  = length (List.filter (fun item => gave_rows (outcome fuel (snd item))) QUERIES) /\
  t' = t ++ concat ((fun item => effects fuel (snd item)) <$> QUERIES).
Proof.
  intros Hrun. apply run_queries_kept in Hrun as [-> ->].
  - change ([] ++ kept fuel QUERIES) with (kept fuel QUERIES).
    split; [done|]. split; [apply kept_keys|]. split; [apply kept_length|done].
  - apply QUERIES_NoDup.
  - intros name _ Hin. inversion Hin.
Qed.

End MoreCalls.

Section MoreRuns.
Context {F : Type} (py_int : string -> option Z) (py_float : string -> option F).
Context (float_repr : F -> string).
Context (athena : athena_client).
Context (read_sql_query : string -> string -> string -> bool -> answer (dataframe F)).
Context (open_w : string -> answer unit).

Local Abbreviation pending := (pending athena).
Local Abbreviation dashboard_data := (dashboard_data py_int py_float athena).
Local Abbreviation generate_dashboard_data :=
  (generate_dashboard_data py_int py_float float_repr athena open_w).
Local Abbreviation outcome := (outcome py_int py_float athena).
Local Abbreviation kept := (kept py_int py_float athena).
Local Abbreviation run_all := (run_all read_sql_query).
Local Abbreviation rows_of := (rows_of read_sql_query).
Local Abbreviation final_data := (final_data read_sql_query).
Local Abbreviation generate_data := (generate_data float_repr read_sql_query open_w).

(** X10.  The loop has no time limit: a query that is under way at every
    poll keeps the script in its loop.  The run does not end, whatever the
    number of rounds, the queries after it are never started, and no file is
    written: the rows of the queries before it are lost. *)
Theorem query_that_never_ends_hangs_the_run fuel i name query id t :
  QUERIES !! i = Some (name, query) ->
  start_query_execution athena query DATABASE OUTPUT_LOCATION = Returns id ->
  pending id 0 fuel ->
  exists t' j,
    generate_dashboard_data fuel t = (Diverge, t') /\
    (j <= i)%nat /\
    started t' = started t ++ take (S j) (snd <$> QUERIES) /\
    dumped t' = dumped t.
Proof.
  intros Hi Hid Hp.
  destruct (run_queries_stuck py_int py_float athena fuel QUERIES i name query id [] t
              Hi Hid Hp) as (t' & j & Hrun & Hj & Hs & Hd).
  exists t', j. split; [|done].
  unfold generate_dashboard_data, generate_dashboard_data, bind.
  unfold dashboard_data, dashboard_data. by rewrite Hrun.
Qed.


(** ** [generate_data.py] *)

Lemma run_all_exact items d t :
  NoDup (fst <$> items) ->
  (forall name, name ∈ fst <$> items -> name ∉ dict_keys d) ->
  run_all items d t
  = (Ok (d ++ ((fun item => (fst item, rows_of (snd item))) <$> items)),
     t ++ ((fun item => EvReadSql (snd item)) <$> items)).
Proof.
  revert d t. induction items as [|[name sql] items IH]; intros d t Hnd Hfresh.
  - simpl. unfold ret. by rewrite !app_nil_r.
  - rewrite fmap_cons in Hnd. apply NoDup_cons in Hnd as [Hname Hnd]. simpl in Hname.
    rewrite run_all_cons, dict_set_fresh by (apply Hfresh; by left).
    rewrite IH; [by rewrite <- !app_assoc|done|].
    intros name' Hin. unfold dict_keys. rewrite fmap_app.
    intros [Hd|Hnew]%elem_of_app.
    + apply (Hfresh name'); [by right|done].
    + apply list_elem_of_singleton in Hnew as ->. done.
Qed.

(** X12.  A run of [generate_data.py] is the same whatever the queries come
    to: one call of [read_sql_query] per query, in the order of [queries];
    a document with all eight names in that order, each with the records of
    its query, or [[]] when the query raised; then the file, written once,
    unless opening it raises. *)
Theorem generate_data_run t :
  final_data t
  = (Ok ((fun item => (fst item, rows_of (snd item))) <$> queries),
     t ++ ((fun item => EvReadSql (snd item)) <$> queries))
  /\ generate_data t
     = match open_w "dashboard/data/dashboard-data.json" with
       | Returns _ =>
           (Ok tt,
            t ++ ((fun item => EvReadSql (snd item)) <$> queries)
              ++ [EvDump "dashboard/data/dashboard-data.json"
                    (json_dumps float_repr
                       ((fun item => (fst item, rows_of (snd item))) <$> queries))])
       | Raises e => (Raise e, t ++ ((fun item => EvReadSql (snd item)) <$> queries))
       end.
Proof.
  assert (final_data t
          = (Ok ((fun item => (fst item, rows_of (snd item))) <$> queries),
             t ++ ((fun item => EvReadSql (snd item)) <$> queries))) as Hrun.
  { unfold final_data, final_data. rewrite run_all_exact; [done| |].
    - apply queries_NoDup.
    - intros name _ Hin. inversion Hin. }
  split; [done|].
  unfold generate_data, generate_data, bind. rewrite Hrun.
  unfold dump_json. destruct (open_w _) as [[]|e]; [|done]. by rewrite <- app_assoc.
Qed.

End MoreRuns.

(** ** The text of the file *)

Lemma chars_app a b : chars (a +:+ b) = chars a ++ chars b.
Proof.
  unfold chars. induction a as [|c a IH]; [done|].
  rewrite str_app_cons. simpl. by rewrite IH.
Qed.

Lemma ascii_text_app a b : ascii_text a -> ascii_text b -> ascii_text (a +:+ b).
Proof. unfold ascii_text. rewrite chars_app. apply Forall_app_2. Qed.

Lemma ascii_text_cons c s :
  (32 <= code c <= 126)%N -> ascii_text s -> ascii_text (String c s).
Proof. intros Hc Hs. constructor; [by left|done]. Qed.

Lemma ascii_text_nil : ascii_text "".
Proof. constructor. Qed.

Lemma ascii_text_digits s : all_digits s = true -> ascii_text s.
Proof.
  induction s as [|c s IH]; simpl; [constructor|].
  intros [Hc Hs]%andb_true_iff. apply is_digit_code in Hc.
  apply ascii_text_cons; [lia|by apply IH].
Qed.

Lemma ascii_text_int_repr z : ascii_text (int_repr z).
Proof.
  destruct (int_repr_shape z) as (sign & body & -> & Hsign & Hbody).
  apply ascii_text_app.
  - destruct Hsign as [->| ->]; [constructor|].
    apply ascii_text_cons; [by vm_compute|constructor].
  - destruct Hbody as [->|(c & ds & -> & Hc & _ & Hds)].
    + apply ascii_text_cons; [by vm_compute|constructor].
    + apply ascii_text_digits. simpl. by rewrite Hc, Hds.
Qed.

Lemma hex_digit_code n : (n < 16)%N -> (32 <= code (hex_digit n) <= 126)%N.
Proof.
  intros Hn. unfold hex_digit.
  destruct (n <? 10)%N eqn:E; rewrite code_ascii_of_N by lia; lia.
Qed.

Lemma ascii_text_escape_char c : ascii_text (escape_char c).
Proof.
  unfold escape_char. cbv zeta.
  repeat (match goal with
          | |- ascii_text (if ?b then _ else _) => destruct b eqn:?
          end;
          [repeat (apply ascii_text_cons; [by vm_compute|]); apply ascii_text_nil|]).
  destruct (_ && _)%N eqn:Hc.
  - apply andb_true_iff in Hc as [H1%N.leb_le H2%N.leb_le].
    apply ascii_text_cons; [done|constructor].
  - apply ascii_text_app.
    + repeat (apply ascii_text_cons; [by vm_compute|]). apply ascii_text_nil.
    + pose proof (code_lt_256 c) as Hlt.
      apply ascii_text_cons; [apply hex_digit_code|].
      { apply N.Div0.div_lt_upper_bound. lia. }
      apply ascii_text_cons; [apply hex_digit_code|constructor].
      apply N.mod_lt. lia.
Qed.

Lemma ascii_text_encode_str s : ascii_text (encode_str s).
Proof.
  unfold encode_str, dquote.
  apply ascii_text_app; [apply ascii_text_cons; [by vm_compute|constructor]|].
  apply ascii_text_app; [|apply ascii_text_cons; [by vm_compute|constructor]].
  induction s as [|c s IH]; simpl; [constructor|].
  apply ascii_text_app; [apply ascii_text_escape_char|done].
Qed.

Lemma ascii_text_newline_indent level : ascii_text (newline_indent level).
Proof.
  induction level as [|level IH]; simpl.
  - constructor; [by right|constructor].
  - apply ascii_text_app; [done|].
    repeat (apply ascii_text_cons; [by vm_compute|]). apply ascii_text_nil.
Qed.

Lemma ascii_text_encode_items {A} (item : A -> string) level (l : list A) :
  Forall (fun x => ascii_text (item x)) l -> ascii_text (encode_items item level l).
Proof.
  induction l as [|x l IH]; [constructor|].
  intros [Hx Hl]%Forall_cons. destruct l as [|y l]; [by rewrite encode_items_one|].
  rewrite encode_items_more.
  apply ascii_text_app; [done|].
  apply ascii_text_app; [apply ascii_text_cons; [by vm_compute|constructor]|].
  apply ascii_text_app; [apply ascii_text_newline_indent|by apply IH].
Qed.

Lemma ascii_text_encode_list {A} (enc : nat -> A -> string) level (l : list A) :
  (forall n x, ascii_text (enc n x)) -> ascii_text (encode_list enc level l).
Proof.
  intros Henc. unfold encode_list. destruct l as [|x l].
  { repeat (apply ascii_text_cons; [by vm_compute|]). apply ascii_text_nil. }
  apply ascii_text_app; [apply ascii_text_cons; [by vm_compute|constructor]|].
  apply ascii_text_app; [apply ascii_text_newline_indent|].
  apply ascii_text_app; [apply ascii_text_encode_items, Forall_forall; auto|].
  apply ascii_text_app; [apply ascii_text_newline_indent|].
  apply ascii_text_cons; [by vm_compute|constructor].
Qed.

Lemma ascii_text_encode_dict {A} (enc : nat -> A -> string) level (d : dict A) :
  (forall n x, ascii_text (enc n x)) -> ascii_text (encode_dict enc level d).
Proof.
  intros Henc. unfold encode_dict. destruct d as [|x d].
  { repeat (apply ascii_text_cons; [by vm_compute|]). apply ascii_text_nil. }
  apply ascii_text_app; [apply ascii_text_cons; [by vm_compute|constructor]|].
  apply ascii_text_app; [apply ascii_text_newline_indent|].
  apply ascii_text_app.
  { apply ascii_text_encode_items, Forall_forall. intros kv _.
    apply ascii_text_app; [apply ascii_text_encode_str|].
    apply ascii_text_app; [|done].
    repeat (apply ascii_text_cons; [by vm_compute|]). apply ascii_text_nil. }
  apply ascii_text_app; [apply ascii_text_newline_indent|].
  apply ascii_text_cons; [by vm_compute|constructor].
Qed.

Lemma ascii_text_sample_repr d : ascii_text (sample_repr d).
Proof.
  unfold sample_repr. cbv zeta.
  apply ascii_text_app.
  { destruct (_ <? _)%Z; [|constructor].
    apply ascii_text_cons; [by vm_compute|constructor]. }
  apply ascii_text_app; [apply ascii_text_int_repr|].
  apply ascii_text_app; [apply ascii_text_cons; [by vm_compute|constructor]|].
  destruct (places d) as [|n].
  - apply ascii_text_cons; [by vm_compute|constructor].
  - apply ascii_text_digits, all_digits_last_digits.
Qed.

Section MoreTexts.
Context {F : Type} (float_repr : F -> string).

(** X13.  The text written is plain ASCII, whatever the strings of the
    rows hold: when the text of a float is, every character of the text of a
    document is one of [' '..'~'] or a line feed. *)
Theorem written_text_is_ascii (doc : dict (list (dict (pyval F)))) :
  (forall f, ascii_text (float_repr f)) ->
  ascii_text (json_dumps float_repr doc).
Proof.
  intros Hfloat. unfold json_dumps.
  apply ascii_text_encode_dict. intros n rows.
  apply ascii_text_encode_list. intros n' row.
  apply ascii_text_encode_dict. intros _ v.
  destruct v as [|[]|z|f|s|s]; simpl;
    try (repeat (apply ascii_text_cons; [by vm_compute|]); apply ascii_text_nil).
  - apply ascii_text_int_repr.
  - apply Hfloat.
  - apply ascii_text_encode_str.
  - apply ascii_text_encode_str.
Qed.

(** X14.  Reading the written text back gives the document back, value by
    value: the names and the keys in their order, every string character by
    character, every int and float as the number text that was written, and
    [None] as null.  The reader has fuel enough for the document, and
    the text of a float is taken to read back as a number. *)
Theorem written_text_reads_back (doc : dict (list (dict (pyval F)))) fuel :
  (forall f, reads_as (float_repr f) (JNumber (float_repr f)) 1) ->
  (document_fuel doc <= fuel)%nat ->
  json_loads fuel (json_dumps float_repr doc) = Some (json_of_document float_repr doc).
Proof. intros Hreads Hfuel. by apply json_loads_dumps. Qed.

End MoreTexts.

(** ** The properties on the sample services *)

Lemma athena_serving_answered results query :
  answered (athena_serving results) query 0 results.
Proof.
  exists ("id:" +:+ query), {| State := "SUCCEEDED"; StateChangeReason := None |}.
  split; [done|]. split; [|done]. intros i Hi. lia.
Qed.

Lemma rows_need_a_cell_per_column_witness :
  (exists rows t',
     execute_athena_query sample_int sample_float (athena_serving wide_results) 1
       "SELECT 1" "kpis" [] = (Ok (Some rows), t') /\
     length rows = length (drop 1 (Rows wide_results)))
  /\ (exists t',
        execute_athena_query sample_int sample_float (athena_serving short_results) 1
          "SELECT 1" "kpis" [] = (Ok None, t')).
Proof.
  split.
  - apply (proj1 (rows_need_a_cell_per_column sample_int sample_float
                    (athena_serving wide_results) 1 "SELECT 1" "kpis" [] 0 wide_results
                    (athena_serving_answered wide_results "SELECT 1") ltac:(lia))).
    repeat constructor; simpl; lia.
  - apply (proj2 (rows_need_a_cell_per_column sample_int sample_float
                    (athena_serving short_results) 1 "SELECT 1" "kpis" [] 0 short_results
                    (athena_serving_answered short_results "SELECT 1") ltac:(lia))).
    right. left. simpl. lia.
Defined.

Lemma row_is_in_column_order_witness :
  parse_row sample_int sample_float ["Country"; "Revenue"]
    {| Data := [ {| VarCharValue := Some "France" |}; {| VarCharValue := Some "12.50" |};
                 {| VarCharValue := Some "extra" |} ] |}
  = Ok [("country", PyStr "France");
        ("revenue", PyFloat {| mantissa := 1250; places := 2 |})].
Proof.
  apply (row_is_in_column_order sample_int sample_float ["Country"; "Revenue"]
           {| Data := [ {| VarCharValue := Some "France" |};
                        {| VarCharValue := Some "12.50" |};
                        {| VarCharValue := Some "extra" |} ] |}).
  - apply (bool_decide_unpack _). vm_compute. exact I.
  - simpl. lia.
Defined.

Lemma row_values_are_plain_witness :
  plain_value (PyFloat {| mantissa := 1250; places := 2 |}).
Proof.
  apply (row_values_are_plain sample_int sample_float athena_up 5 "SELECT 1" "kpis" []
           sample_rows (sample_trace "SELECT 1")
           [("country", PyStr "FR"); ("revenue", PyFloat {| mantissa := 1250; places := 2 |});
            ("orders", PyInt 3)]
           "revenue").
  - vm_compute. reflexivity.
  - apply list_elem_of_here.
  - reflexivity.
Defined.

Lemma row_keys_are_lower_case_witness :
  lower_case "country" /\ lower "country" = "country".
Proof.
  apply (row_keys_are_lower_case sample_int sample_float athena_up 5 "SELECT 1" "kpis" []
           sample_rows (sample_trace "SELECT 1")
           [("country", PyStr "FR"); ("revenue", PyFloat {| mantissa := 1250; places := 2 |});
            ("orders", PyInt 3)]).
  - vm_compute. reflexivity.
  - apply list_elem_of_here.
  - apply list_elem_of_here.
Defined.

Lemma athena_up_pending id : pending athena_up id 0 2.
Proof.
  intros i Hi. destruct i as [|[|i]]; [| |lia].
  - eexists. split; [reflexivity|]. simpl. intros [H|[H|H]]; discriminate.
  - eexists. split; [reflexivity|]. simpl. intros [H|[H|H]]; discriminate.
Qed.

Lemma calls_of_a_query_that_ends_witness :
  exists results t',
    execute_athena_query sample_int sample_float athena_up 5 "SELECT 1" "kpis" []
    = (Ok results, t') /\
    t' = [] ++ EvStart "SELECT 1" :: rounds "id:SELECT 1" 2 ++ EvPoll "id:SELECT 1" ::
           [EvFetch "id:SELECT 1"] /\
    slept t' = slept [] + 2 * Z.of_nat 2 /\
    (State {| State := "SUCCEEDED"; StateChangeReason := None |} <> "SUCCEEDED" ->
     results = None).
Proof.
  apply (calls_of_a_query_that_ends sample_int sample_float athena_up 5 "SELECT 1" "kpis" []
           "id:SELECT 1" 2 {| State := "SUCCEEDED"; StateChangeReason := None |}).
  - reflexivity.
  - apply athena_up_pending.
  - lia.
  - reflexivity.
  - by left.
Defined.

Lemma query_stops_at_the_call_that_raises_witness :
  execute_athena_query sample_int sample_float athena_down 5 "SELECT 1" "kpis" []
  = (Ok None, [] ++ [EvStart "SELECT 1"]).
Proof.
  apply (proj1 (query_stops_at_the_call_that_raises sample_int sample_float athena_down 5
                  "SELECT 1" "kpis" [])
           (ServiceError "AccessDeniedException")).
  reflexivity.
Defined.

Lemma athena_stuck_pending id k : pending athena_stuck id 0 k.
Proof.
  intros i Hi. eexists. split; [reflexivity|]. simpl. intros [H|[H|H]]; discriminate.
Qed.

Lemma document_lists_the_queries_that_gave_rows_witness :
  exists doc t',
    dashboard_data sample_int sample_float athena_up 5 [] = (Ok doc, t') /\
    doc = kept sample_int sample_float athena_up 5 QUERIES /\
    dict_keys doc
    = (fst <$> List.filter
                 (fun item => gave_rows (outcome sample_int sample_float athena_up 5 (snd item)))
                 QUERIES) /\
    length doc
    = length (List.filter
                (fun item => gave_rows (outcome sample_int sample_float athena_up 5 (snd item)))
                QUERIES) /\
    t' = [] ++ concat ((fun item => effects sample_int sample_float athena_up 5 (snd item))
                         <$> QUERIES).
Proof.
  eexists _, _. split; [vm_compute; reflexivity|].
  apply (document_lists_the_queries_that_gave_rows sample_int sample_float athena_up 5 []).
  vm_compute. reflexivity.
Defined.

Lemma query_that_never_ends_hangs_the_run_witness :
  exists t' j,
    generate_dashboard_data sample_int sample_float sample_repr athena_stuck writable 3 []
    = (Diverge, t') /\
    (j <= 1)%nat /\
    started t' = started [] ++ take (S j) (snd <$> QUERIES) /\
    dumped t' = dumped [].
Proof.
  eapply (query_that_never_ends_hangs_the_run sample_int sample_float sample_repr
            athena_stuck writable 3 1 "monthly_sales" _ _ []).
  - reflexivity.
  - reflexivity.
  - apply athena_stuck_pending.
Defined.


Lemma written_text_is_ascii_witness :
  ascii_text (json_dumps sample_repr [("kpis", sample_rows); ("monthly_sales", [])]).
Proof.
  apply (written_text_is_ascii sample_repr [("kpis", sample_rows); ("monthly_sales", [])]).
  apply ascii_text_sample_repr.
Defined.

Lemma written_text_reads_back_witness :
  json_loads 40 (json_dumps sample_repr [("kpis", sample_rows); ("monthly_sales", [])])
  = Some (json_of_document sample_repr [("kpis", sample_rows); ("monthly_sales", [])]).
Proof.
  apply (written_text_reads_back sample_repr
           [("kpis", sample_rows); ("monthly_sales", [])] 40).
  - apply sample_repr_reads.
  - vm_compute. lia.
Defined.
